(** * UMLify: the interaction controller and the sequence-diagram plugin

    A shallow embedding of [src/canvas/InteractionController.js] and of the
    plugin class of [src/plugins/sequence/SequencePlugin.js], with the
    properties the design document states about them.

    The controller is embedded over the integers ([Z]): on integer-valued
    coordinates of magnitude up to 2^50 every sum and difference the code
    forms is an integer below 2^53, where the arithmetic of JavaScript
    numbers is exact. The arithmetic of [calculateNewBounds] and of the drag
    of shapes is embedded a second time over the binary64 numbers the code
    runs on (module [Doubles]), for the properties that rounding decides. *)

From Stdlib Require Import ZArith Lia Ascii String Floats.
From stdpp Require Import base strings list gmap.

Local Open Scope Z_scope.

(** ** JavaScript values

    The result of a plugin's [validateConnection] is an arbitrary JavaScript
    value; the controller inspects it with [===], [&&], [?.] and [||]. *)
Module Js.

#[local] Unset Elimination Schemes.
Inductive value : Type :=
| VUndefined
| VNull
| VBool (b : bool)
| VNum (n : Z)
| VStr (s : string)
| VObj (fields : list (string * value)).
#[local] Set Elimination Schemes.

(** ToBoolean. *)
Definition truthy (v : value) : bool :=
  match v with
  | VUndefined | VNull => false
  | VBool b => b
  | VNum n => negb (Z.eqb n 0)
  | VStr s => negb (String.eqb s "")
  | VObj _ => true
  end.

(** [v === true]. *)
Definition is_true (v : value) : bool :=
  match v with
  | VBool true => true
  | _ => false
  end.

Fixpoint field (k : string) (fields : list (string * value)) : value :=
  match fields with
  | [] => VUndefined
  | (k', v) :: rest => if String.eqb k k' then v else field k rest
  end.

(** [v.k] for a [v] that is neither [null] nor [undefined] (there the read
    throws; every read in the controller is guarded by [&&] or [?.]).
    Booleans, numbers and strings have no own property [valid] or
    [message]: the read gives [undefined]. *)
Definition get (v : value) (k : string) : value :=
  match v with
  | VObj fields => field k fields
  | _ => VUndefined
  end.

(** [a && b], with [b] evaluated only when [a] is truthy. *)
Definition and_then (a : value) (b : value -> value) : value :=
  if truthy a then b a else a.

(** [a || b]. *)
Definition or_else (a b : value) : value :=
  if truthy a then a else b.

(** [v?.k]. *)
Definition opt_get (v : value) (k : string) : value :=
  match v with
  | VUndefined | VNull => VUndefined
  | _ => get v k
  end.

(** [s.includes(c)] for a one-character [c]. *)
Fixpoint includes (c : ascii) (s : string) : bool :=
  match s with
  | EmptyString => false
  | String a rest => if Ascii.eqb a c then true else includes c rest
  end.

Definition lower_ascii (a : ascii) : ascii :=
  let n := nat_of_ascii a in
  if (Nat.leb 65 n && Nat.leb n 90)%bool then ascii_of_nat (n + 32) else a.

(** [s.toLowerCase()] on ASCII strings. *)
Fixpoint toLowerCase (s : string) : string :=
  match s with
  | EmptyString => EmptyString
  | String a rest => String (lower_ascii a) (toLowerCase rest)
  end.

(** The property names every object literal inherits from
    [Object.prototype]: for these [o[k]] is truthy although [o] has no own
    property [k]. *)
Definition objectPrototypeKeys : list string :=
  [ "constructor"; "toString"; "toLocaleString"; "valueOf"; "hasOwnProperty";
    "isPrototypeOf"; "propertyIsEnumerable"; "__proto__"; "__defineGetter__";
    "__defineSetter__"; "__lookupGetter__"; "__lookupSetter__" ]%string.

End Js.

(** ** Geometry *)
Module Geometry.

Record Point : Type := mkPoint { px : Z; py : Z }.

Record Bounds : Type := mkBounds { bx : Z; by_ : Z; bwidth : Z; bheight : Z }.

(** Modelled from the spec: [utils/geometry.js] is not among the sources.
    The grid-snap function sends a coordinate to the nearest multiple of the
    grid size ([Math.round(value / gridSize) * gridSize], halves rounded
    up), as in the scenario "click point snaps to (100,60)". *)
Definition snapToGrid (value gridSize : Z) : Z :=
  ((2 * value + gridSize) / (2 * gridSize)) * gridSize.

End Geometry.

Export Geometry.

(** The integers on which the controller's arithmetic is exact in binary64
    numbers. *)
Definition exactRange (v : Z) : Prop := Z.abs v <= 2 ^ 50.

(** ** InteractionController.calculateNewBounds

    On integer bounds and deltas; [Doubles.calculateNewBounds] is the same
    function on binary64 numbers. *)

Definition minW : Z := 40.
Definition minH : Z := 30.

(** The [switch (handleId)] of [calculateNewBounds]: the bounds before the
    minimum size is enforced. A handle that is none of the eight cases
    leaves the bounds as they are. *)
Definition applyHandle (original : Bounds) (handleId : string) (dx dy : Z) : Bounds :=
  let x := bx original in
  let y := by_ original in
  let width := bwidth original in
  let height := bheight original in
  if String.eqb handleId "nw" then mkBounds (x + dx) (y + dy) (width - dx) (height - dy)
  else if String.eqb handleId "n" then mkBounds x (y + dy) width (height - dy)
  else if String.eqb handleId "ne" then mkBounds x (y + dy) (width + dx) (height - dy)
  else if String.eqb handleId "e" then mkBounds x y (width + dx) height
  else if String.eqb handleId "se" then mkBounds x y (width + dx) (height + dy)
  else if String.eqb handleId "s" then mkBounds x y width (height + dy)
  else if String.eqb handleId "sw" then mkBounds (x + dx) y (width - dx) (height + dy)
  else if String.eqb handleId "w" then mkBounds (x + dx) y (width - dx) height
  else original.

Definition calculateNewBounds (original : Bounds) (handleId : string) (dx dy : Z) : Bounds :=
  let b := applyHandle original handleId dx dy in
  let x := bx b in
  let y := by_ b in
  let width := bwidth b in
  let height := bheight b in
  (* if (width < minW) { if (handleId.includes('w')) x -= (minW - width); width = minW; } *)
  let x := if Z.ltb width minW
           then (if Js.includes "w" handleId then x - (minW - width) else x)
           else x in
  let width := if Z.ltb width minW then minW else width in
  (* if (height < minH) { if (handleId.includes('n')) y -= (minH - height); height = minH; } *)
  let y := if Z.ltb height minH
           then (if Js.includes "n" handleId then y - (minH - height) else y)
           else y in
  let height := if Z.ltb height minH then minH else height in
  mkBounds x y width height.

Definition resizeHandles : list string :=
  ["n"; "s"; "e"; "w"; "ne"; "nw"; "se"; "sw"]%string.


(** ** The DOM, as far as hit-testing reads it *)
Module Dom.

Record Element : Type := mkElement {
  classes : list string;
  dataset : list (string * string)
}.

(** An event target: the element under the pointer followed by its
    ancestors, innermost first. *)
Definition Target : Type := list Element.

Definition hasClass (cls : string) (e : Element) : bool :=
  existsb (String.eqb cls) (classes e).

(** [target.closest('.cls')]: the first element of the chain carrying the
    class, with its own ancestors. *)
Fixpoint closest (cls : string) (t : Target) : option Target :=
  match t with
  | [] => None
  | e :: ancestors => if hasClass cls e then Some t else closest cls ancestors
  end.

Fixpoint assoc (k : string) (kvs : list (string * string)) : option string :=
  match kvs with
  | [] => None
  | (k', v) :: rest => if String.eqb k k' then Some v else assoc k rest
  end.

(** [el.dataset.k] of the first element of a chain. *)
Definition data (k : string) (t : Target) : option string :=
  match t with
  | [] => None
  | e :: _ => assoc k (dataset e)
  end.

(** What the controller changes in the document: the cursor of the canvas,
    the elements carrying the class [shape--connecting] (by [data-id]), the
    preview line of the interaction layer and the preview tooltip. *)
Record View : Type := mkView {
  cursor : string;
  connecting : list string;
  previewLine : bool;
  previewTooltip : bool
}.

End Dom.

(** ** Shapes and connections *)
Module Shape.

(** Modelled from the spec: [shapes/Shape.js] is not among the sources. A
    shape has an identity, a type tag, a position and a size. *)
Record t : Type := mk {
  id : string;
  type : string;
  x : Z;
  y : Z;
  width : Z;
  height : Z
}.

(** Modelled from the spec: [Shape.move(dx, dy)] adds the delta to the
    position. *)
Definition move (dx dy : Z) (s : t) : t :=
  mk (id s) (type s) (x s + dx) (y s + dy) (width s) (height s).

Definition setBounds (b : Bounds) (s : t) : t :=
  mk (id s) (type s) (bx b) (by_ b) (bwidth b) (bheight b).

Definition bounds (s : t) : Bounds :=
  mkBounds (x s) (y s) (width s) (height s).

End Shape.

Module Connection.

Record Endpoint : Type := mkEndpoint {
  shapeId : string;
  position : string
}.

Record Style : Type := mkStyle {
  lineStyle : string;
  sourceArrow : string;
  targetArrow : string
}.

(** Modelled from the spec: [shapes/Connection.js] is not among the
    sources. A connection has an identity, a type tag, a source and a target
    endpoint naming a shape by identity, optional attachment coordinates per
    endpoint and a style record. [sourceShape] and [targetShape] are the
    references the controller assigns after construction. *)
Record t : Type := mk {
  id : string;
  type : string;
  source : Endpoint;
  target : Endpoint;
  sourceY : option Z;
  targetY : option Z;
  style : Style;
  diagramType : string;
  sourceShape : option string;
  targetShape : option string
}.

(** The options object the controller passes to [new Connection(...)]. *)
Record Options : Type := mkOptions {
  o_type : string;
  o_sourceId : string;
  o_targetId : string;
  o_diagramType : string;
  o_style : Style;
  o_sourceY : option Z;
  o_targetY : option Z
}.

(** Modelled from the spec: the constructor copies its options; [newId] is
    the identity it gives the object. *)
Definition new (newId : string) (o : Options) : t :=
  mk newId (o_type o)
     (mkEndpoint (o_sourceId o) "auto") (mkEndpoint (o_targetId o) "auto")
     (o_sourceY o) (o_targetY o) (o_style o) (o_diagramType o) None None.

Definition setShapes (src tgt : string) (c : t) : t :=
  mk (id c) (type c) (source c) (target c) (sourceY c) (targetY c)
     (style c) (diagramType c) (Some src) (Some tgt).

(** Modelled from the spec: [setSource(shape, side)] and
    [setTarget(shape, side)] reattach one end to the shape, with the given
    choice of attachment side. *)
Definition setSource (s : Shape.t) (side : string) (c : t) : t :=
  mk (id c) (type c) (mkEndpoint (Shape.id s) side) (target c)
     (sourceY c) (targetY c) (style c) (diagramType c)
     (Some (Shape.id s)) (targetShape c).

Definition setTarget (s : Shape.t) (side : string) (c : t) : t :=
  mk (id c) (type c) (source c) (mkEndpoint (Shape.id s) side)
     (sourceY c) (targetY c) (style c) (diagramType c)
     (sourceShape c) (Some (Shape.id s)).

End Connection.

(** ** Plugins *)
Module Plugin.

Record ShapeDefinition : Type := mkShapeDefinition {
  sd_type : string;
  sd_name : string;
  defaultWidth : Z;
  defaultHeight : Z;
  connectionPoints : list string
}.

(** A field the definition does not give is [None] ([undefined]). *)
Record ConnectorDefinition : Type := mkConnectorDefinition {
  cd_type : string;
  cd_name : string;
  lineStyle : option string;
  sourceArrow : option string;
  targetArrow : option string;
  validSources : list string;
  validTargets : list string
}.

Record t : Type := mk {
  id : string;
  getShapeDefinitions : list (string * ShapeDefinition);
  getConnectorTypes : list ConnectorDefinition;
  validateConnection : Shape.t -> Shape.t -> string -> Js.value
}.

(** [shapeDefs[toolId]], for a [toolId] that is not one of
    [Js.objectPrototypeKeys]: the own property of the object literal that
    [getShapeDefinitions] returns, or [undefined]. *)
Fixpoint shapeDef (toolId : string) (defs : list (string * ShapeDefinition))
  : option ShapeDefinition :=
  match defs with
  | [] => None
  | (k, d) :: rest => if String.eqb toolId k then Some d else shapeDef toolId rest
  end.

(** [connectorTypes.find(c => c.type === toolId)]. *)
Definition connectorDef (toolId : string) (defs : list ConnectorDefinition)
  : option ConnectorDefinition :=
  find (fun c => String.eqb (cd_type c) toolId) defs.

(** [connectorDef?.field || fallback]. *)
Definition orDefault (def : option ConnectorDefinition)
    (proj : ConnectorDefinition -> option string) (fallback : string) : string :=
  match def with
  | Some d =>
      match proj d with
      | Some s => if String.eqb s "" then fallback else s
      | None => fallback
      end
  | None => fallback
  end.

End Plugin.

(** ** SequencePlugin *)
Module SequencePlugin.

Import Plugin.

Definition id : string := "sequence".

Definition getShapeDefinitions : list (string * ShapeDefinition) :=
  [ ("object", mkShapeDefinition "object" "Lifeline" 120 50 ["left"; "right"; "bottom"]);
    ("actor", mkShapeDefinition "actor" "Actor" 60 80 ["bottom"]);
    ("activation", mkShapeDefinition "activation" "Activation Bar" 16 60 ["left"; "right"]);
    ("fragment", mkShapeDefinition "fragment" "Combined Fragment" 200 120 []);
    ("destroy", mkShapeDefinition "destroy" "Destroy" 24 24 []);
    ("endpoint", mkShapeDefinition "endpoint" "Found/Lost Message" 16 16 []);
    ("boundary", mkShapeDefinition "boundary" "Boundary Object" 100 50 []) ]%string.

Definition lifelineKinds : list string := ["object"; "actor"; "activation"]%string.

Definition getConnectorTypes : list ConnectorDefinition :=
  [ mkConnectorDefinition "syncMessage" "Synchronous Message"
      (Some "solid") None (Some "filled") lifelineKinds lifelineKinds;
    mkConnectorDefinition "asyncMessage" "Asynchronous Message"
      (Some "solid") None (Some "open") lifelineKinds lifelineKinds;
    mkConnectorDefinition "returnMessage" "Return Message"
      (Some "dashed") None (Some "open") lifelineKinds lifelineKinds ]%string.

Definition rejection : Js.value :=
  Js.VObj [ ("valid", Js.VBool false);
            ("message", Js.VStr "Use self-call for messages to same object") ]%string.

Definition acceptance : Js.value :=
  Js.VObj [ ("valid", Js.VBool true) ]%string.

Definition validateConnection (sourceShape targetShape : Shape.t)
    (connectorType : string) : Js.value :=
  if (negb (String.eqb connectorType "selfMessage")
      && String.eqb (Shape.id sourceShape) (Shape.id targetShape))%bool
  then rejection
  else acceptance.

Definition plugin : Plugin.t :=
  Plugin.mk id getShapeDefinitions getConnectorTypes validateConnection.

End SequencePlugin.

(** ** Commands and their history *)

(** A command refers to the objects it acts on by identity. *)
Inductive Command : Type :=
| AddShapeCommand (shape : string)
| RemoveShapeCommand (shape : string)
| MoveShapesCommand (shapes : list string) (dx dy : Z)
| AddConnectionCommand (connection : string)
| ResizeShapeCommand (shape : string) (before after : Bounds).

(** Modelled from the spec: the diagram model is not among the sources. It
    owns the set of shapes and the set of connections, keyed by identity. *)
Record Diagram : Type := mkDiagram {
  shapes : gset string;
  connections : gset string
}.

(** The objects the program has created, by identity. A reference held by
    the controller, the selection or a command stays good when the object is
    taken out of the diagram. *)
Record Store : Type := mkStore {
  shapeObjects : gmap string Shape.t;
  connectionObjects : gmap string Connection.t;
  diagram : Diagram
}.

Definition withShapeObjects (f : gmap string Shape.t -> gmap string Shape.t)
    (s : Store) : Store :=
  mkStore (f (shapeObjects s)) (connectionObjects s) (diagram s).

Definition withConnectionObjects
    (f : gmap string Connection.t -> gmap string Connection.t) (s : Store) : Store :=
  mkStore (shapeObjects s) (f (connectionObjects s)) (diagram s).

Definition withDiagram (f : Diagram -> Diagram) (s : Store) : Store :=
  mkStore (shapeObjects s) (connectionObjects s) (f (diagram s)).

(** Modelled from the spec: [diagram.getShape(id)] and
    [diagram.getConnection(id)] give the object of that identity when it is
    in the diagram, and [undefined] otherwise. *)
Definition getShape (s : Store) (shapeId : option string) : option Shape.t :=
  match shapeId with
  | Some i => if decide (i ∈ shapes (diagram s)) then shapeObjects s !! i else None
  | None => None
  end.

Definition getConnection (s : Store) (connId : option string) : option Connection.t :=
  match connId with
  | Some i =>
      if decide (i ∈ connections (diagram s)) then connectionObjects s !! i else None
  | None => None
  end.

Definition connectionCount (s : Store) : nat := size (connections (diagram s)).

Module CommandManager.

(** The connections of the object store that end at a shape. *)
Definition attachedTo (shapeId : string) (c : Connection.t) : bool :=
  (String.eqb (Connection.shapeId (Connection.source c)) shapeId
   || String.eqb (Connection.shapeId (Connection.target c)) shapeId)%bool.

Definition attachedConnections (shapeId : string) (s : Store) : gset string :=
  dom (filter (fun kc => attachedTo shapeId (snd kc) = true) (connectionObjects s)).

(** Modelled from the spec: [commands/Commands.js] is not among the
    sources. Each command carries what it needs to apply and to revert one
    mutation of the model. Removing a shape destroys the connections that end
    at it, so that the ends of a connection of the diagram are shapes of the
    diagram; undoing the removal brings the shape and these connections
    back. *)
Definition apply (c : Command) (s : Store) : Store :=
  match c with
  | AddShapeCommand i =>
      withDiagram (fun d => mkDiagram ({[i]} ∪ shapes d) (connections d)) s
  | RemoveShapeCommand i =>
      withDiagram (fun d => mkDiagram (shapes d ∖ {[i]})
                                      (connections d ∖ attachedConnections i s)) s
  | MoveShapesCommand ids dx dy =>
      withShapeObjects (fun h => foldl (fun h i => alter (Shape.move dx dy) i h) h ids) s
  | AddConnectionCommand i =>
      withDiagram (fun d => mkDiagram (shapes d) ({[i]} ∪ connections d)) s
  | ResizeShapeCommand i _ after =>
      withShapeObjects (alter (Shape.setBounds after) i) s
  end.

Definition revert (c : Command) (s : Store) : Store :=
  match c with
  | AddShapeCommand i =>
      withDiagram (fun d => mkDiagram (shapes d ∖ {[i]}) (connections d)) s
  | RemoveShapeCommand i =>
      withDiagram (fun d => mkDiagram ({[i]} ∪ shapes d)
                                      (connections d ∪ attachedConnections i s)) s
  | MoveShapesCommand ids dx dy =>
      withShapeObjects
        (fun h => foldl (fun h i => alter (Shape.move (- dx) (- dy)) i h) h ids) s
  | AddConnectionCommand i =>
      withDiagram (fun d => mkDiagram (shapes d) (connections d ∖ {[i]})) s
  | ResizeShapeCommand i before _ =>
      withShapeObjects (alter (Shape.setBounds before) i) s
  end.

(** Modelled from the spec: [core/CommandManager.js] is not among the
    sources. The history is an ordered sequence of commands and a cursor;
    the commands before the cursor are done, those from the cursor on are
    undone. *)
Record t : Type := mk {
  history : list Command;
  cursor : nat
}.

Definition done (m : t) : list Command := take (cursor m) (history m).

(** Recording truncates the redo tail and appends. *)
Definition record (c : Command) (m : t) : t :=
  mk (done m ++ [c]) (S (length (done m))).

(** [execute(command)]: applies the command and records it. *)
Definition execute (c : Command) (ms : t * Store) : t * Store :=
  (record c (fst ms), apply c (snd ms)).

(** [addToHistory(command)]: records without applying. *)
Definition addToHistory (c : Command) (ms : t * Store) : t * Store :=
  (record c (fst ms), snd ms).

Definition undo (ms : t * Store) : t * Store :=
  match cursor (fst ms) with
  | O => ms
  | S n =>
      match history (fst ms) !! n with
      | Some c => (mk (history (fst ms)) n, revert c (snd ms))
      | None => ms
      end
  end.

Definition redo (ms : t * Store) : t * Store :=
  match history (fst ms) !! cursor (fst ms) with
  | Some c => (mk (history (fst ms)) (S (cursor (fst ms))), apply c (snd ms))
  | None => ms
  end.

End CommandManager.

(** ** Selection *)
Module SelectionManager.

(** Modelled from the spec: the selection manager is not among the
    sources. It holds the selected shapes and connections by identity, the
    first selected being the primary selection. *)
Record t : Type := mk {
  selectedShapes : list string;
  selectedConnections : list string
}.

Definition clearSelection (_ : t) : t := mk [] [].

Definition selectShape (i : string) (_ : t) : t := mk [i] [].

Definition selectConnection (i : string) (_ : t) : t := mk [] [i].

Definition toggleShape (i : string) (s : t) : t :=
  if decide (i ∈ selectedShapes s)
  then mk (filter (fun j => j <> i) (selectedShapes s)) (selectedConnections s)
  else mk (selectedShapes s ++ [i]) (selectedConnections s).

Definition getSelectedShapes (s : t) : list string := selectedShapes s.

Definition getPrimarySelection (s : t) : option string := head (selectedShapes s).

End SelectionManager.

(** ** InteractionController: its fields *)

Inductive InteractionState : Type :=
| Idle
| Dragging
| Connecting
| Resizing
| DraggingEndpoint.

Inductive EndpointType : Type :=
| SourceEnd
| TargetEnd.

#[global] Instance InteractionState_eq_dec : EqDecision InteractionState.
Proof. solve_decision. Defined.

(** An entry of [dragStartPositions]: the shape and where it was. *)
Record DragStart : Type := mkDragStart {
  ds_shape : string;
  ds_x : Z;
  ds_y : Z
}.

Record DragState : Type := mkDragState {
  dragStartPoint : option Point;
  isDragging : bool;
  dragStartPositions : option (list DragStart)
}.

Record ResizeState : Type := mkResizeState {
  isResizing : bool;
  resizeHandle : option string;
  resizeStartBounds : option Bounds;
  resizingShape : option string
}.

Record ConnectionState : Type := mkConnectionState {
  connectionSource : option string;
  connectionSourceY : option Z
}.

Record EndpointState : Type := mkEndpointState {
  draggingEndpoint : bool;
  draggingConnection : option string;
  draggingEndpointType : option EndpointType
}.

Record Controller : Type := mkController {
  currentTool : string;
  state : InteractionState;
  drag : DragState;
  resize : ResizeState;
  connection : ConnectionState;
  endpoint : EndpointState
}.

(** The controller with its collaborators. *)
Record World : Type := mkWorld {
  controller : Controller;
  store : Store;
  selectionManager : SelectionManager.t;
  commandManager : CommandManager.t;
  view : Dom.View;
  console : list Js.value
}.

Definition setTool (v : string) (c : Controller) : Controller :=
  mkController v (state c) (drag c) (resize c) (connection c) (endpoint c).

Definition setState (v : InteractionState) (c : Controller) : Controller :=
  mkController (currentTool c) v (drag c) (resize c) (connection c) (endpoint c).

Definition setDrag (v : DragState) (c : Controller) : Controller :=
  mkController (currentTool c) (state c) v (resize c) (connection c) (endpoint c).

Definition setResize (v : ResizeState) (c : Controller) : Controller :=
  mkController (currentTool c) (state c) (drag c) v (connection c) (endpoint c).

Definition setConnection (v : ConnectionState) (c : Controller) : Controller :=
  mkController (currentTool c) (state c) (drag c) (resize c) v (endpoint c).

Definition setEndpoint (v : EndpointState) (c : Controller) : Controller :=
  mkController (currentTool c) (state c) (drag c) (resize c) (connection c) v.

(** [this.dragStartPoint = v], a field the three drag gestures share. *)
Definition setDragStartPoint (v : option Point) (c : Controller) : Controller :=
  setDrag (mkDragState v (isDragging (drag c)) (dragStartPositions (drag c))) c.

Definition onController (f : Controller -> Controller) (w : World) : World :=
  mkWorld (f (controller w)) (store w) (selectionManager w) (commandManager w)
          (view w) (console w).

Definition onStore (f : Store -> Store) (w : World) : World :=
  mkWorld (controller w) (f (store w)) (selectionManager w) (commandManager w)
          (view w) (console w).

Definition onSelection (f : SelectionManager.t -> SelectionManager.t) (w : World) : World :=
  mkWorld (controller w) (store w) (f (selectionManager w)) (commandManager w)
          (view w) (console w).

Definition onView (f : Dom.View -> Dom.View) (w : World) : World :=
  mkWorld (controller w) (store w) (selectionManager w) (commandManager w)
          (f (view w)) (console w).

(** [console.warn('Invalid connection:', message)]. *)
Definition warn (message : Js.value) (w : World) : World :=
  mkWorld (controller w) (store w) (selectionManager w) (commandManager w)
          (view w) (console w ++ [message]).

(** A call of the command manager, which acts on the history and on the
    model. *)
Definition onCommands
    (f : CommandManager.t * Store -> CommandManager.t * Store) (w : World) : World :=
  let ms := f (commandManager w, store w) in
  mkWorld (controller w) (snd ms) (selectionManager w) (fst ms) (view w) (console w).

(** [this.canvas.setCursor(name)]. *)
Definition setCursor (name : string) (w : World) : World :=
  onView (fun v => Dom.mkView name (Dom.connecting v) (Dom.previewLine v)
                               (Dom.previewTooltip v)) w.

(** Removes the class [shape--connecting] from every element. *)
Definition clearConnecting (w : World) : World :=
  onView (fun v => Dom.mkView (Dom.cursor v) [] (Dom.previewLine v)
                               (Dom.previewTooltip v)) w.

(** [shapeElement.classList.add('shape--connecting')]. *)
Definition addConnecting (shapeElement : Dom.Target) (w : World) : World :=
  match Dom.data "id" shapeElement with
  | Some i =>
      onView (fun v => Dom.mkView (Dom.cursor v) (Dom.connecting v ++ [i])
                                   (Dom.previewLine v) (Dom.previewTooltip v)) w
  | None => w
  end.

Definition setPreviewLine (b : bool) (w : World) : World :=
  onView (fun v => Dom.mkView (Dom.cursor v) (Dom.connecting v) b
                               (Dom.previewTooltip v)) w.

Definition setPreviewTooltip (b : bool) (w : World) : World :=
  onView (fun v => Dom.mkView (Dom.cursor v) (Dom.connecting v)
                               (Dom.previewLine v) b) w.

(** The objects behind a list of references. *)
Definition shapeObjectsOf (w : World) (ids : list string) : list Shape.t :=
  omap (fun i => shapeObjects (store w) !! i) ids.

(** A JavaScript string used as a condition: [undefined] and the empty
    string are falsy. *)
Definition truthyString (s : option string) : bool :=
  match s with
  | Some v => negb (String.eqb v "")
  | None => false
  end.

(** ** InteractionController: its methods *)

Definition removeConnectionPreview (w : World) : World :=
  clearConnecting (setPreviewLine false w).

Definition resetConnectionState (w : World) : World :=
  let w := onController (setConnection (mkConnectionState None None)) w in
  let w := onController (setState Idle) w in
  let w := removeConnectionPreview w in
  setPreviewTooltip false w.

Definition resetState (w : World) : World :=
  let w := onController (setState Idle) w in
  let w := onController
             (fun c => setDrag (mkDragState None false (dragStartPositions (drag c))) c) w in
  resetConnectionState w.

Definition handleToolSelected (toolId : string) (w : World) : World :=
  let w := onController (setTool toolId) w in
  let w := resetState w in
  if String.eqb toolId "select" then setCursor "select" w
  else if String.eqb toolId "pan" then setCursor "pan" w
  else if String.eqb toolId "delete" then setCursor "not-allowed" w
  else setCursor "crosshair" w.

(** The cursor [startResize] picks for a handle: [cursorMap[handleId] || 'move']. *)
Definition resizeCursor (handleId : string) : string :=
  if (String.eqb handleId "nw" || String.eqb handleId "se")%bool then "nwse-resize"
  else if (String.eqb handleId "ne" || String.eqb handleId "sw")%bool then "nesw-resize"
  else if (String.eqb handleId "n" || String.eqb handleId "s")%bool then "ns-resize"
  else if (String.eqb handleId "e" || String.eqb handleId "w")%bool then "ew-resize"
  else "move".

Definition startResize (shape : Shape.t) (handleId : string) (point : Point)
    (w : World) : World :=
  let w := onController
             (setResize (mkResizeState true (Some handleId) (Some (Shape.bounds shape))
                                       (Some (Shape.id shape)))) w in
  let w := onController (setState Resizing) w in
  let w := onController (setDragStartPoint (Some point)) w in
  setCursor (resizeCursor handleId) w.

Definition doResize (point : Point) (w : World) : World :=
  let c := controller w in
  match resizingShape (resize c), dragStartPoint (drag c),
        resizeStartBounds (resize c), resizeHandle (resize c) with
  | Some shape, Some start, Some startBounds, Some handleId =>
      let dx := px point - px start in
      let dy := py point - py start in
      let newBounds := calculateNewBounds startBounds handleId dx dy in
      onStore (withShapeObjects (alter (Shape.setBounds newBounds) shape)) w
  | _, _, _, _ => w
  end.

Definition boundsDiffer (a b : Bounds) : bool :=
  (negb (Z.eqb (bx a) (bx b)) || negb (Z.eqb (by_ a) (by_ b))
   || negb (Z.eqb (bwidth a) (bwidth b)) || negb (Z.eqb (bheight a) (bheight b)))%bool.

Definition endResize (w : World) : World :=
  let c := controller w in
  let w :=
    match resizingShape (resize c), resizeStartBounds (resize c) with
    | Some shape, Some startBounds =>
        match shapeObjects (store w) !! shape with
        | Some s =>
            let newBounds := Shape.bounds s in
            if boundsDiffer newBounds startBounds
            then onCommands (CommandManager.addToHistory
                               (ResizeShapeCommand shape startBounds newBounds)) w
            else w
        | None => w
        end
    | _, _ => w
    end in
  let w := onController (setResize (mkResizeState false None None None)) w in
  let w := onController (setState Idle) w in
  setCursor "select" w.

Definition startEndpointDrag (conn : Connection.t) (endpointType : EndpointType)
    (point : Point) (w : World) : World :=
  let w := onController
             (setEndpoint (mkEndpointState true (Some (Connection.id conn))
                                           (Some endpointType))) w in
  let w := onController (setState DraggingEndpoint) w in
  let w := onController (setDragStartPoint (Some point)) w in
  let w := onSelection (SelectionManager.selectConnection (Connection.id conn)) w in
  setCursor "move" w.

(** The shape at the end of the connection that is not being dragged:
    [draggingEndpointType === 'source' ? target.shapeId : source.shapeId]. *)
Definition otherShapeId (endpointType : option EndpointType) (conn : Connection.t) : string :=
  match endpointType with
  | Some SourceEnd => Connection.shapeId (Connection.target conn)
  | _ => Connection.shapeId (Connection.source conn)
  end.

Definition doEndpointDrag (point : Point) (target : Dom.Target) (w : World) : World :=
  let e := endpoint (controller w) in
  match draggingConnection e with
  | None => w
  | Some connRef =>
      let w := clearConnecting w in
      match Dom.closest "shape" target, connectionObjects (store w) !! connRef with
      | Some shapeElement, Some conn =>
          if decide (Dom.data "id" shapeElement
                     <> Some (otherShapeId (draggingEndpointType e) conn))
          then addConnecting shapeElement w
          else w
      | _, _ => w
      end
  end.

(** The reconnection [endEndpointDrag] makes on the connection object. *)
Definition reconnect (endpointType : option EndpointType) (newShape : Shape.t)
    (conn : Connection.t) : Connection.t :=
  match endpointType with
  | Some SourceEnd => Connection.setSource newShape "auto" conn
  | _ => Connection.setTarget newShape "auto" conn
  end.

(** [target] is [None] where [document.elementFromPoint] finds no element. *)
Definition endEndpointDrag (point : Point) (target : option Dom.Target)
    (w : World) : World :=
  let e := endpoint (controller w) in
  match draggingConnection e with
  | None => w
  | Some connRef =>
      let w :=
        match target ≫= Dom.closest "shape", connectionObjects (store w) !! connRef with
        | Some shapeElement, Some conn =>
            let shapeId := Dom.data "id" shapeElement in
            match getShape (store w) shapeId with
            | Some newShape =>
                if decide (shapeId <> Some (otherShapeId (draggingEndpointType e) conn))
                then onStore (withConnectionObjects
                                (alter (reconnect (draggingEndpointType e) newShape)
                                       connRef)) w
                else w
            | None => w
            end
        | _, _ => w
        end in
      let w := clearConnecting w in
      let w := onController (setEndpoint (mkEndpointState false None None)) w in
      let w := onController (setState Idle) w in
      setCursor "select" w
  end.

Definition handleDeleteClick (point : Point) (target : Dom.Target) (w : World) : World :=
  match Dom.closest "shape" target with
  | Some shapeElement =>
      match getShape (store w) (Dom.data "id" shapeElement) with
      | Some shape =>
          onCommands (CommandManager.execute (RemoveShapeCommand (Shape.id shape))) w
      | None => w
      end
  | None => w
  end.

(** Modelled from the spec: [shapes/ShapeFactory.js] and the constructor of
    [Shape] are not among the sources. [ShapeFactory.create(type, options)]
    makes a shape of the type with the size of the options, at the position
    of the options snapped to the grid of 20: the design document's scenario
    gives the new shape the bounds (60, 40, 100, 60) where the controller
    asks for the position (50, 30). [newId] is the identity the object
    gets. *)
Definition createShape (newId type : string) (b : Bounds) : Shape.t :=
  Shape.mk newId type (snapToGrid (bx b) 20) (snapToGrid (by_ b) 20)
           (bwidth b) (bheight b).

(** [handleShapeToolClick], called with the active plugin. The event
    [TOOL_SELECTED] it emits is delivered at once to [handleToolSelected], the
    controller's listener. The halves
    [defaultWidth / 2] and [defaultHeight / 2] are exact for the even
    default sizes of the plugin's shape definitions. *)
Definition handleShapeToolClick (plugin : Plugin.t) (newId : string) (point : Point)
    (w : World) : World :=
  let snappedPoint := mkPoint (snapToGrid (px point) 20) (snapToGrid (py point) 20) in
  match Plugin.shapeDef (currentTool (controller w)) (Plugin.getShapeDefinitions plugin) with
  | Some shapeDef =>
      let shape :=
        createShape newId (currentTool (controller w))
          (mkBounds (px snappedPoint - Plugin.defaultWidth shapeDef / 2)
                    (py snappedPoint - Plugin.defaultHeight shapeDef / 2)
                    (Plugin.defaultWidth shapeDef)
                    (Plugin.defaultHeight shapeDef)) in
      let w := onStore (withShapeObjects (insert newId shape)) w in
      let w := onCommands (CommandManager.execute (AddShapeCommand newId)) w in
      let w := onSelection (SelectionManager.selectShape newId) w in
      handleToolSelected "select" w
  | None => w
  end.

(** The shape a connector-tool click resolves to: the clicked shape element
    or, for a click on a lifeline outside any shape element, the lifeline's
    parent shape. *)
Definition clickedShape (w : World) (target : Dom.Target) : option Shape.t :=
  match Dom.closest "shape" target with
  | Some shapeElement => getShape (store w) (Dom.data "id" shapeElement)
  | None =>
      match Dom.closest "lifeline" target with
      | Some lifelineElement =>
          match Dom.closest "shape" lifelineElement with
          | Some parentGroup => getShape (store w) (Dom.data "id" parentGroup)
          | None => None
          end
      | None => None
      end
  end.

(** [validationResult === true || (validationResult && validationResult.valid)]. *)
Definition isValid (validationResult : Js.value) : Js.value :=
  if Js.is_true validationResult then Js.VBool true
  else Js.and_then validationResult (fun v => Js.get v "valid").

(** [validationResult?.message || 'Invalid connection']. *)
Definition rejectionMessage (validationResult : Js.value) : Js.value :=
  Js.or_else (Js.opt_get validationResult "message") (Js.VStr "Invalid connection").

(** The options of the connection a completed gesture creates. *)
Definition connectionOptions (plugin : Plugin.t) (tool : string)
    (source shape : Shape.t) (point : Point) : Connection.Options :=
  let isSequenceDiagram := String.eqb (Plugin.id plugin) "sequence" in
  let connectorDef := Plugin.connectorDef tool (Plugin.getConnectorTypes plugin) in
  Connection.mkOptions tool (Shape.id source) (Shape.id shape) (Plugin.id plugin)
    (Connection.mkStyle
       (Plugin.orDefault connectorDef Plugin.lineStyle "solid")
       (Plugin.orDefault connectorDef Plugin.sourceArrow "none")
       (Plugin.orDefault connectorDef Plugin.targetArrow "filled"))
    (if isSequenceDiagram then Some (py point) else None)
    (if isSequenceDiagram then Some (py point) else None).

(** The connection object a completed gesture makes: [new Connection(...)]
    followed by the assignments of [sourceShape] and [targetShape]. *)
Definition newConnection (plugin : Plugin.t) (newId tool : string)
    (source shape : Shape.t) (point : Point) : Connection.t :=
  Connection.setShapes (Shape.id source) (Shape.id shape)
    (Connection.new newId (connectionOptions plugin tool source shape point)).

(** The branch "Complete connection" of [handleConnectorToolClick]. *)
Definition completeConnection (plugin : Plugin.t) (newId : string) (point : Point)
    (source shape : Shape.t) (w : World) : World :=
  let tool := currentTool (controller w) in
  let validationResult := Plugin.validateConnection plugin source shape tool in
  let w :=
    if Js.truthy (isValid validationResult) then
      let conn := newConnection plugin newId tool source shape point in
      let w := onStore (withConnectionObjects (insert newId conn)) w in
      onCommands (CommandManager.execute (AddConnectionCommand newId)) w
    else warn (rejectionMessage validationResult) w in
  resetConnectionState w.

(** [handleConnectorToolClick], called with the active plugin; [newId] is
    the identity of the connection object, should one be made. *)
Definition handleConnectorToolClick (plugin : Plugin.t) (newId : string)
    (point : Point) (target : Dom.Target) (w : World) : World :=
  match Dom.closest "shape" target, Dom.closest "lifeline" target with
  | None, None => resetConnectionState w
  | _, _ =>
      match clickedShape w target with
      | None => w
      | Some shape =>
          match connectionSource (connection (controller w)) with
          | None =>
              (* Start connection *)
              let w := onController
                         (setConnection (mkConnectionState (Some (Shape.id shape))
                                                           (Some (py point)))) w in
              let w := onController (setState Connecting) w in
              setPreviewTooltip true w
          | Some sourceRef =>
              match shapeObjects (store w) !! sourceRef with
              | Some source =>
                  if negb (String.eqb (Shape.id source) (Shape.id shape))
                  then completeConnection plugin newId point source shape w
                  else w
              | None => w
              end
          end
      end
  end.

Definition startDrag (point : Point) (w : World) : World :=
  let selected :=
    shapeObjectsOf w (SelectionManager.getSelectedShapes (selectionManager w)) in
  match selected with
  | [] => w
  | _ =>
      let positions :=
        map (fun s => mkDragStart (Shape.id s) (Shape.x s) (Shape.y s)) selected in
      let w := onController (setDrag (mkDragState (Some point) true (Some positions))) w in
      let w := onController (setState Dragging) w in
      setCursor "move" w
  end.

(** [selected.forEach(shape => shape.move(dx, dy))]. *)
Definition moveAll (ids : list string) (dx dy : Z)
    (objects : gmap string Shape.t) : gmap string Shape.t :=
  foldl (fun h i => alter (Shape.move dx dy) i h) objects ids.

(** [doDrag] moves the shapes by the pointer's step since the last event,
    here on integer coordinates; [Doubles.doDrag] adds the steps in binary64
    numbers. *)
Definition doDrag (point : Point) (w : World) : World :=
  match dragStartPoint (drag (controller w)) with
  | None => w
  | Some start =>
      let dx := px point - px start in
      let dy := py point - py start in
      let w := onStore (withShapeObjects
                          (moveAll (SelectionManager.getSelectedShapes (selectionManager w))
                                   dx dy)) w in
      onController (setDragStartPoint (Some point)) w
  end.

Definition endDrag (w : World) : World :=
  let w :=
    match dragStartPositions (drag (controller w)) with
    | Some (originalPos :: rest) =>
        let shapes := map ds_shape (originalPos :: rest) in
        match shapeObjects (store w) !! ds_shape originalPos with
        | Some firstShape =>
            let totalDx := Shape.x firstShape - ds_x originalPos in
            let totalDy := Shape.y firstShape - ds_y originalPos in
            if (negb (Z.eqb totalDx 0) || negb (Z.eqb totalDy 0))%bool
            then onCommands (CommandManager.addToHistory
                               (MoveShapesCommand shapes totalDx totalDy)) w
            else w
        | None => w
        end
    | _ => w
    end in
  let w := onController (setDrag (mkDragState None false None)) w in
  let w := onController (setState Idle) w in
  if String.eqb (currentTool (controller w)) "select" then setCursor "select" w else w.

Definition handleSelectClick (point : Point) (target : Dom.Target)
    (shiftKey ctrlKey : bool) (w : World) : World :=
  (* resize handle first *)
  let resizing :=
    match Dom.closest "resize-handle" target with
    | Some resizeHandleEl =>
        let handleId := Dom.data "handle" resizeHandleEl in
        let shapeId := Dom.closest "resize-handles" resizeHandleEl ≫= Dom.data "shapeId" in
        let shape :=
          if truthyString shapeId then getShape (store w) shapeId
          else SelectionManager.getPrimarySelection (selectionManager w)
                 ≫= (fun i => shapeObjects (store w) !! i) in
        match shape, handleId with
        | Some s, Some h => if truthyString handleId then Some (s, h) else None
        | _, _ => None
        end
    | None => None
    end in
  (* then a connector endpoint *)
  let reconnecting :=
    match Dom.closest "connector__endpoint" target with
    | Some endpointHandle =>
        match Dom.closest "connector" endpointHandle with
        | Some connectorElement =>
            match getConnection (store w) (Dom.data "id" connectorElement) with
            | Some conn =>
                let isSource :=
                  match endpointHandle with
                  | e :: _ => Dom.hasClass "connector__endpoint--source" e
                  | [] => false
                  end in
                Some (conn, if isSource then SourceEnd else TargetEnd)
            | None => None
            end
        | None => None
        end
    | None => None
    end in
  match resizing, reconnecting with
  | Some (shape, handleId), _ => startResize shape handleId point w
  | None, Some (conn, endpointType) => startEndpointDrag conn endpointType point w
  | None, None =>
      match Dom.closest "shape" target, Dom.closest "connector" target with
      | Some shapeElement, _ =>
          match getShape (store w) (Dom.data "id" shapeElement) with
          | Some shape =>
              let w :=
                if (shiftKey || ctrlKey)%bool
                then onSelection (SelectionManager.toggleShape (Shape.id shape)) w
                else onSelection (SelectionManager.selectShape (Shape.id shape)) w in
              startDrag point w
          | None => w
          end
      | None, Some connectorElement =>
          match getConnection (store w) (Dom.data "id" connectorElement) with
          | Some conn =>
              onSelection (SelectionManager.selectConnection (Connection.id conn)) w
          | None => w
          end
      | None, None =>
          if (negb shiftKey && negb ctrlKey)%bool
          then onSelection SelectionManager.clearSelection w
          else w
      end
  end.

(** [handleCanvasClicked]; [active] is [this.pluginRegistry.getActive()]. *)
Definition handleCanvasClicked (active : option Plugin.t) (newId : string)
    (point : Point) (target : Dom.Target) (shiftKey ctrlKey : bool) (w : World) : World :=
  let tool := currentTool (controller w) in
  if String.eqb tool "select" then handleSelectClick point target shiftKey ctrlKey w
  else if String.eqb tool "delete" then handleDeleteClick point target w
  else
    match active with
    | Some plugin =>
        match Plugin.shapeDef tool (Plugin.getShapeDefinitions plugin),
              Plugin.connectorDef tool (Plugin.getConnectorTypes plugin) with
        | Some _, _ => handleShapeToolClick plugin newId point w
        | None, Some _ => handleConnectorToolClick plugin newId point target w
        | None, None => w
        end
    | None => w
    end.

(** [handleCanvasMouseMove]. Of the preview only its presence is kept, and
    of the highlighting only the class [shape--connecting]. *)
Definition handleCanvasMouseMove (point : Point) (target : Dom.Target) (w : World) : World :=
  let w :=
    if (isDragging (drag (controller w)) && bool_decide (state (controller w) = Dragging))%bool
    then doDrag point w else w in
  let w :=
    if (isResizing (resize (controller w))
        && bool_decide (state (controller w) = Resizing))%bool
    then doResize point w else w in
  let w :=
    if (draggingEndpoint (endpoint (controller w))
        && bool_decide (state (controller w) = DraggingEndpoint))%bool
    then doEndpointDrag point target w else w in
  match state (controller w), connectionSource (connection (controller w)) with
  | Connecting, Some sourceRef =>
      let w := setPreviewLine true w in
      let w := clearConnecting w in
      match Dom.closest "shape" target with
      | Some shapeElement =>
          if decide (Dom.data "id" shapeElement <> Some sourceRef)
          then addConnecting shapeElement w
          else w
      | None => w
      end
  | _, _ => w
  end.

(** [handleMouseUp]; [point] and [target] are what [screenToSVG] and
    [document.elementFromPoint] give for the event's position. *)
Definition handleMouseUp (point : Point) (target : option Dom.Target) (w : World) : World :=
  let w :=
    if (isDragging (drag (controller w)) && bool_decide (state (controller w) = Dragging))%bool
    then endDrag w else w in
  let w :=
    if (isResizing (resize (controller w))
        && bool_decide (state (controller w) = Resizing))%bool
    then endResize w else w in
  if (draggingEndpoint (endpoint (controller w))
      && bool_decide (state (controller w) = DraggingEndpoint))%bool
  then endEndpointDrag point target w else w.

Record KeyEvent : Type := mkKeyEvent {
  key : string;
  ctrlKey : bool;
  metaKey : bool;
  altKey : bool;
  shiftKey : bool
}.

Definition handleKeyDown (e : KeyEvent) (w : World) : World :=
  (* Delete selected *)
  let w :=
    if (String.eqb (key e) "Delete" || String.eqb (key e) "Backspace")%bool then
      let w := foldl (fun w shape =>
                        onCommands (CommandManager.execute (RemoveShapeCommand shape)) w)
                     w (SelectionManager.getSelectedShapes (selectionManager w)) in
      onSelection SelectionManager.clearSelection w
    else w in
  (* Undo *)
  let w :=
    if (String.eqb (key e) "z" && (ctrlKey e || metaKey e))%bool then
      if shiftKey e then onCommands CommandManager.redo w
      else onCommands CommandManager.undo w
    else w in
  (* Redo (Ctrl+Y) *)
  let w :=
    if (String.eqb (key e) "y" && (ctrlKey e || metaKey e))%bool
    then onCommands CommandManager.redo w
    else w in
  (* Escape *)
  let w :=
    if String.eqb (key e) "Escape"
    then onSelection SelectionManager.clearSelection (resetState w)
    else w in
  (* Tool shortcuts *)
  if (negb (ctrlKey e) && negb (metaKey e) && negb (altKey e))%bool then
    let k := Js.toLowerCase (key e) in
    if String.eqb k "v" then handleToolSelected "select" w
    else if String.eqb k "h" then handleToolSelected "pan" w
    else w
  else w.

(** [handleKeyDown] before its last statement, the tool shortcuts. *)
Definition beforeShortcuts (e : KeyEvent) (w : World) : World :=
  let w :=
    if (String.eqb (key e) "Delete" || String.eqb (key e) "Backspace")%bool then
      let w := foldl (fun w shape =>
                        onCommands (CommandManager.execute (RemoveShapeCommand shape)) w)
                     w (SelectionManager.getSelectedShapes (selectionManager w)) in
      onSelection SelectionManager.clearSelection w
    else w in
  let w :=
    if (String.eqb (key e) "z" && (ctrlKey e || metaKey e))%bool then
      if shiftKey e then onCommands CommandManager.redo w
      else onCommands CommandManager.undo w
    else w in
  let w :=
    if (String.eqb (key e) "y" && (ctrlKey e || metaKey e))%bool
    then onCommands CommandManager.redo w
    else w in
  if String.eqb (key e) "Escape"
  then onSelection SelectionManager.clearSelection (resetState w)
  else w.

(** The active tool. *)
Definition toolOf (w : World) : string := currentTool (controller w).

(** ** Gestures *)

(** A drag of the selected shapes: pointer-down at [p0], a pointer-move to
    each point of [moves]; the pointer-up then calls [endDrag]. *)
Definition dragging (p0 : Point) (moves : list Point) (w : World) : World :=
  foldl (fun w p => doDrag p w) (startDrag p0 w) moves.

Definition dragGesture (p0 : Point) (moves : list Point) (w : World) : World :=
  endDrag (dragging p0 moves w).

(** A drag of one end of a connection: pointer-down on the endpoint handle,
    pointer-moves over the given targets, pointer-up over [targetEnd]. *)
Definition endpointDragGesture (conn : Connection.t) (endpointType : EndpointType)
    (p0 : Point) (moves : list (Point * Dom.Target))
    (pEnd : Point) (targetEnd : option Dom.Target) (w : World) : World :=
  endEndpointDrag pEnd targetEnd
    (foldl (fun w m => doEndpointDrag (fst m) (snd m) w)
           (startEndpointDrag conn endpointType p0 w) moves).

(** ** Words of the design document *)

(** A validation result is accepted when it is the boolean [true] or an
    object whose [valid] field is truthy. *)
Definition accepted (validationResult : Js.value) : Prop :=
  validationResult = Js.VBool true \/
  exists fields, validationResult = Js.VObj fields /\
                 Js.truthy (Js.field "valid" fields) = true.

(** ** Scenarios

    Two lifelines A and B of a sequence diagram, a plugin with the "box"
    shape of the design document, and the controller at rest with a given
    tool. *)
Module Scenario.

Definition shapeA : Shape.t := Shape.mk "A" "object" 0 0 120 50.
Definition shapeB : Shape.t := Shape.mk "B" "object" 200 0 120 50.

Definition shapeElement (shapeId : string) : Dom.Element :=
  Dom.mkElement ["shape"]%string [("id", shapeId)]%string.

Definition onA : Dom.Target := [shapeElement "A"].
Definition onB : Dom.Target := [shapeElement "B"].
Definition onC : Dom.Target := [shapeElement "C"].
Definition onCanvas : Dom.Target := [Dom.mkElement ["canvas"]%string []].

Definition atRest (tool : string) : Controller :=
  mkController tool Idle (mkDragState None false None)
               (mkResizeState false None None None)
               (mkConnectionState None None)
               (mkEndpointState false None None).

Definition twoShapes : Store :=
  mkStore (<["A" := shapeA]> (<["B" := shapeB]> ∅)) ∅ (mkDiagram {["A"; "B"]} ∅).

Definition world (tool : string) : World :=
  mkWorld (atRest tool) twoShapes (SelectionManager.mk [] []) (CommandManager.mk [] 0)
          (Dom.mkView "crosshair" [] false false) [].

(** The select tool with A and B selected. *)
Definition bothSelected : World :=
  mkWorld (atRest "select") twoShapes (SelectionManager.mk ["A"; "B"]%string [])
          (CommandManager.mk [] 0) (Dom.mkView "select" [] false false) [].

(** A connection from A to B, already in the diagram. *)
Definition connAB : Connection.t :=
  Connection.setShapes "A" "B"
    (Connection.new "c0"
       (Connection.mkOptions "syncMessage" "A" "B" "sequence"
          (Connection.mkStyle "solid" "none" "filled") (Some 80) (Some 80))).

Definition shapeC : Shape.t := Shape.mk "C" "actor" 400 0 60 80.

Definition connected : World :=
  mkWorld (atRest "select")
          (mkStore (<["A" := shapeA]> (<["B" := shapeB]> (<["C" := shapeC]> ∅)))
                   (<["c0" := connAB]> ∅)
                   (mkDiagram {["A"; "B"; "C"]} {["c0"]}))
          (SelectionManager.mk [] []) (CommandManager.mk [] 0)
          (Dom.mkView "select" [] false false) [].


(** A plugin whose validation answers with a given value. *)
Definition answering (answer : Js.value) : Plugin.t :=
  Plugin.mk "sequence" SequencePlugin.getShapeDefinitions
            SequencePlugin.getConnectorTypes (fun _ _ _ => answer).

End Scenario.

(** ** The sequence plugin: catalog, shape classes and messages *)
Module SequenceCatalog.

(** A tool of the toolbar: the arguments the plugin gives [ToolDefinition]
    (the icon apart). *)
Record ToolDefinition : Type := mkTool {
  tool_id : string;
  tool_name : string;
  tool_type : string;
  shortcut : option string
}.

Definition getShapeTools : list ToolDefinition :=
  [ mkTool "object" "Lifeline" "shape" (Some "L");
    mkTool "actor" "Actor" "shape" (Some "A");
    mkTool "activation" "Activation" "shape" (Some "B");
    mkTool "fragment" "Fragment" "shape" (Some "F");
    mkTool "destroy" "Destroy" "shape" (Some "X");
    mkTool "endpoint" "Found/Lost" "shape" (Some "E");
    mkTool "boundary" "Boundary" "shape" None ]%string.

Definition getConnectorTools : list ToolDefinition :=
  [ mkTool "syncMessage" "Sync Message" "connector" (Some "M");
    mkTool "asyncMessage" "Async Message" "connector" (Some "N");
    mkTool "returnMessage" "Return" "connector" (Some "R");
    mkTool "selfMessage" "Self Call" "connector" (Some "S") ]%string.

(** [v || fallback] on numbers. *)
Definition orNumber (v fallback : Z) : Z := if Z.eqb v 0 then fallback else v.

(** What the constructor of a shape class passes on: the type it forces, the
    sizes it falls back to and the minimum sizes it sets. *)
Record ShapeClass : Type := mkShapeClass {
  cls_type : string;
  fallbackWidth : Z;
  fallbackHeight : Z;
  minWidth : Z;
  minHeight : Z
}.

Definition SequenceObject : ShapeClass := mkShapeClass "object" 120 50 60 30.
Definition SequenceActor : ShapeClass := mkShapeClass "actor" 60 80 40 60.
Definition ActivationBar : ShapeClass := mkShapeClass "activation" 16 60 10 20.
Definition CombinedFragment : ShapeClass := mkShapeClass "fragment" 200 120 100 60.
Definition DestroyMarker : ShapeClass := mkShapeClass "destroy" 24 24 16 16.
Definition MessageEndpoint : ShapeClass := mkShapeClass "endpoint" 16 16 10 10.
Definition BoundaryObject : ShapeClass := mkShapeClass "boundary" 100 50 60 30.

(** The size a constructor gives: [options.width || fallback] and
    [options.height || fallback]. *)
Definition constructedWidth (c : ShapeClass) (optionsWidth : Z) : Z :=
  orNumber optionsWidth (fallbackWidth c).

Definition constructedHeight (c : ShapeClass) (optionsHeight : Z) : Z :=
  orNumber optionsHeight (fallbackHeight c).

(** The calls [ShapeFactory.register(type, class, {width, height})] at the end
    of the file. *)
Definition registrations : list (string * (ShapeClass * (Z * Z))) :=
  [ ("object", (SequenceObject, (120, 50)));
    ("actor", (SequenceActor, (60, 80)));
    ("activation", (ActivationBar, (16, 60)));
    ("fragment", (CombinedFragment, (200, 120)));
    ("destroy", (DestroyMarker, (24, 24)));
    ("endpoint", (MessageEndpoint, (16, 16)));
    ("boundary", (BoundaryObject, (100, 50))) ]%string.

(** [getLifelineConnectionPoint(targetY)] of the lifeline classes: the
    point of the lifeline nearest to the height [targetY]. The half
    [width / 2] is exact for an even width. *)
Definition getLifelineConnectionPoint (s : Shape.t) (lifelineLength targetY : Z) : Point :=
  let centerX := Shape.x s + Shape.width s / 2 in
  let lifelineStart := Shape.y s + Shape.height s in
  let lifelineEnd := lifelineStart + lifelineLength in
  let clampedY := Z.max lifelineStart (Z.min targetY lifelineEnd) in
  mkPoint centerX clampedY.

(** [ActivationBar.getConnectionPointAtY(targetY, side)]. *)
Definition getConnectionPointAtY (s : Shape.t) (targetY : Z) (side : string) : Point :=
  let clampedY := Z.max (Shape.y s) (Z.min targetY (Shape.y s + Shape.height s)) in
  let x := if String.eqb side "left" then Shape.x s else Shape.x s + Shape.width s in
  mkPoint x clampedY.

(** The constructor of [SequenceMessage]: the type is [options.type ||
    'syncMessage'], and the [switch] on it overwrites two fields of the
    style the base class has set up. *)
Definition messageType (optionsType : option string) : string :=
  match optionsType with
  | Some t => if String.eqb t "" then "syncMessage" else t
  | None => "syncMessage"
  end.

Definition messageStyle (base : Connection.Style) (type : string) : Connection.Style :=
  let restyle (line arrow : string) :=
    Connection.mkStyle line (Connection.sourceArrow base) arrow in
  if String.eqb type "syncMessage" then restyle "solid" "filled"
  else if String.eqb type "asyncMessage" then restyle "solid" "open"
  else if String.eqb type "returnMessage" then restyle "dashed" "open"
  else if String.eqb type "createMessage" then restyle "dashed" "open"
  else if String.eqb type "destroyMessage" then restyle "solid" "filled"
  else base.

(** The bounds of a shape of default size at a position. *)
Definition defaultBounds (d : Plugin.ShapeDefinition) (x y : Z) : Bounds :=
  mkBounds x y (Plugin.defaultWidth d) (Plugin.defaultHeight d).

End SequenceCatalog.

(** ** InteractionController: the remaining handler and the event loop *)

(** [handleToolDropped]. [active] is [this.pluginRegistry.getActive()],
    [shapeTools] its [getShapeTools()], and [factoryDefaults toolId] the size
    of the shape [ShapeFactory.create(toolId, {x: 0, y: 0})] makes when
    [ShapeFactory.has(toolId)]. *)
Definition handleToolDropped (active : option Plugin.t)
    (shapeTools : list SequenceCatalog.ToolDefinition)
    (factoryDefaults : string -> option (Z * Z))
    (newId toolId : string) (x y : Z) (w : World) : World :=
  match active with
  | None => w
  | Some plugin =>
      let shapeTool :=
        find (fun t => String.eqb (SequenceCatalog.tool_id t) toolId) shapeTools in
      let shapeDef := Plugin.shapeDef toolId (Plugin.getShapeDefinitions plugin) in
      let isConnector :=
        existsb (fun c => String.eqb (Plugin.cd_type c) toolId)
                (Plugin.getConnectorTypes plugin) in
      if isConnector then w
      else
        match shapeTool, shapeDef with
        | None, None => w
        | _, _ =>
            let snappedX := snapToGrid x 20 in
            let snappedY := snapToGrid y 20 in
            let size :=
              match shapeDef with
              | Some d =>
                  (SequenceCatalog.orNumber (Plugin.defaultWidth d) 100,
                   SequenceCatalog.orNumber (Plugin.defaultHeight d) 60)
              | None =>
                  match factoryDefaults toolId with
                  | Some (tempWidth, tempHeight) =>
                      (SequenceCatalog.orNumber tempWidth 100,
                       SequenceCatalog.orNumber tempHeight 60)
                  | None => (100, 60)
                  end
              end in
            let shape :=
              createShape newId toolId
                (mkBounds (snappedX - fst size / 2) (snappedY - snd size / 2)
                          (fst size) (snd size)) in
            let w := onStore (withShapeObjects (insert newId shape)) w in
            let w := onCommands (CommandManager.execute (AddShapeCommand newId)) w in
            onSelection (SelectionManager.selectShape newId) w
        end
  end.

(** A resize of a shape: pointer-down on the handle at [p0], a pointer-move
    to each point of [moves]; the pointer-up then calls [endResize]. *)
Definition resizing (shape : Shape.t) (handleId : string) (p0 : Point)
    (moves : list Point) (w : World) : World :=
  foldl (fun w p => doResize p w) (startResize shape handleId p0 w) moves.

(** The bounds a resize has given the shape after the pointer-moves
    [moves]. *)
Definition resizedBounds (shape : Shape.t) (handleId : string) (p0 : Point)
    (moves : list Point) : Bounds :=
  match last moves with
  | Some p => calculateNewBounds (Shape.bounds shape) handleId
                                 (px p - px p0) (py p - py p0)
  | None => Shape.bounds shape
  end.

(** The events the controller listens to in [init], with what the
    environment supplies at each: the active plugin and the identity of an
    object the handler may create. *)
Inductive Event : Type :=
| CanvasClicked (active : option Plugin.t) (newId : string) (point : Point)
                (target : Dom.Target) (shiftKey ctrlKey : bool)
| CanvasMouseMove (point : Point) (target : Dom.Target)
| MouseUp (point : Point) (target : option Dom.Target)
| KeyDown (e : KeyEvent)
| ToolSelected (toolId : string)
| ToolDropped (active : option Plugin.t)
              (shapeTools : list SequenceCatalog.ToolDefinition)
              (factoryDefaults : string -> option (Z * Z))
              (newId toolId : string) (x y : Z).

Definition dispatch (ev : Event) (w : World) : World :=
  match ev with
  | CanvasClicked active newId point target shiftKey ctrlKey =>
      handleCanvasClicked active newId point target shiftKey ctrlKey w
  | CanvasMouseMove point target => handleCanvasMouseMove point target w
  | MouseUp point target => handleMouseUp point target w
  | KeyDown e => handleKeyDown e w
  | ToolSelected toolId => handleToolSelected toolId w
  | ToolDropped active shapeTools factoryDefaults newId toolId x y =>
      handleToolDropped active shapeTools factoryDefaults newId toolId x y w
  end.

Definition run (events : list Event) (w : World) : World :=
  foldl (fun w ev => dispatch ev w) w events.

(** The fields as the constructor sets them. *)
Definition constructed : Controller :=
  mkController "select" Idle (mkDragState None false None)
               (mkResizeState false None None None)
               (mkConnectionState None None)
               (mkEndpointState false None None).

(** In each gesture state the fields of that gesture are set: the flag that
    gates its handlers is up and what they read is there. *)
Definition gated (c : Controller) : Prop :=
  (state c = Dragging ->
     isDragging (drag c) = true /\ is_Some (dragStartPoint (drag c)) /\
     is_Some (dragStartPositions (drag c))) /\
  (state c = Resizing ->
     isResizing (resize c) = true /\ is_Some (dragStartPoint (drag c)) /\
     is_Some (resizingShape (resize c)) /\ is_Some (resizeStartBounds (resize c)) /\
     is_Some (resizeHandle (resize c))) /\
  (state c = DraggingEndpoint ->
     draggingEndpoint (endpoint c) = true /\ is_Some (draggingConnection (endpoint c)) /\
     is_Some (draggingEndpointType (endpoint c))) /\
  (state c = Connecting -> is_Some (connectionSource (connection c))).

(** ** Further scenarios *)
Module Handles.

(** The south-east resize handle of A, inside A's group of handles. *)
Definition onHandleOfA : Dom.Target :=
  [ Dom.mkElement ["resize-handle"]%string [("handle", "se")]%string;
    Dom.mkElement ["resize-handles"]%string [("shapeId", "A")]%string ].

End Handles.



(** ** The arithmetic on JavaScript numbers

    [calculateNewBounds] and the drag of shapes once more, over the binary64
    numbers of the code: [+], [-], [<] and [!==] are the IEEE 754 operations.
    The handlers are the ones above with their fields of other gestures left
    out. *)
Module Doubles.

Local Open Scope float_scope.

Record Bounds : Type := mkBounds {
  x : float;
  y : float;
  width : float;
  height : float
}.

Definition minW : float := 40.
Definition minH : float := 30.

(** The [switch (handleId)] of [calculateNewBounds]. *)
Definition applyHandle (original : Bounds) (handleId : string) (dx dy : float) : Bounds :=
  let x0 := x original in
  let y0 := y original in
  let width0 := width original in
  let height0 := height original in
  if String.eqb handleId "nw" then mkBounds (x0 + dx) (y0 + dy) (width0 - dx) (height0 - dy)
  else if String.eqb handleId "n" then mkBounds x0 (y0 + dy) width0 (height0 - dy)
  else if String.eqb handleId "ne" then mkBounds x0 (y0 + dy) (width0 + dx) (height0 - dy)
  else if String.eqb handleId "e" then mkBounds x0 y0 (width0 + dx) height0
  else if String.eqb handleId "se" then mkBounds x0 y0 (width0 + dx) (height0 + dy)
  else if String.eqb handleId "s" then mkBounds x0 y0 width0 (height0 + dy)
  else if String.eqb handleId "sw" then mkBounds (x0 + dx) y0 (width0 - dx) (height0 + dy)
  else if String.eqb handleId "w" then mkBounds (x0 + dx) y0 (width0 - dx) height0
  else original.

Definition calculateNewBounds (original : Bounds) (handleId : string) (dx dy : float) : Bounds :=
  let b := applyHandle original handleId dx dy in
  (* if (width < minW) { if (handleId.includes('w')) x -= (minW - width); width = minW; } *)
  let x1 := if PrimFloat.ltb (width b) minW
            then (if Js.includes "w" handleId then x b - (minW - width b) else x b)
            else x b in
  let width1 := if PrimFloat.ltb (width b) minW then minW else width b in
  (* if (height < minH) { if (handleId.includes('n')) y -= (minH - height); height = minH; } *)
  let y1 := if PrimFloat.ltb (height b) minH
            then (if Js.includes "n" handleId then y b - (minH - height b) else y b)
            else y b in
  let height1 := if PrimFloat.ltb (height b) minH then minH else height b in
  mkBounds x1 y1 width1 height1.

(** Pointer coordinates that are not integers, each the binary64 number
    nearest to the decimal in its name. *)
Definition minus_209_2 : float := -0x1.a266666666666p+7.
Definition d2_4 : float := 0x1.3333333333333p+1.
Definition d3_2 : float := 0x1.999999999999ap+1.
Definition d0_8 : float := 0x1.999999999999ap-1.

(** *** The drag of shapes *)

Record Point : Type := mkPoint { px : float; py : float }.

Record Shape : Type := mkShape { id : string; sx : float; sy : float }.

(** Modelled from the spec: [Shape.move(dx, dy)] adds the delta to the
    position. *)
Definition move (dx dy : float) (s : Shape) : Shape :=
  mkShape (id s) (sx s + dx) (sy s + dy).

(** An entry of [dragStartPositions]: the shape, by identity, and where it
    was. *)
Record DragStart : Type := mkDragStart {
  ds_shape : string;
  ds_x : float;
  ds_y : float
}.

Inductive Command : Type :=
  | MoveShapesCommand (shapes : list string) (dx dy : float).

(** The shape objects, the selection in its order, the fields of the drag
    and the commands of the history. *)
Record World : Type := mkWorld {
  shapeObjects : gmap string Shape;
  selected : list string;
  currentTool : string;
  state : InteractionState;
  isDragging : bool;
  dragStartPoint : option Point;
  dragStartPositions : option (list DragStart);
  history : list Command;
  cursor : string
}.

Definition getSelectedShapes (w : World) : list Shape :=
  omap (fun i => shapeObjects w !! i) (selected w).

Definition startDrag (point : Point) (w : World) : World :=
  match getSelectedShapes w with
  | [] => w
  | shapes =>
      mkWorld (shapeObjects w) (selected w) (currentTool w) Dragging true (Some point)
              (Some (map (fun s => mkDragStart (id s) (sx s) (sy s)) shapes))
              (history w) "move"
  end.

(** [selected.forEach(shape => shape.move(dx, dy))]. *)
Definition moveAll (ids : list string) (dx dy : float)
    (objects : gmap string Shape) : gmap string Shape :=
  foldl (fun h i => alter (move dx dy) i h) objects ids.

Definition doDrag (point : Point) (w : World) : World :=
  match dragStartPoint w with
  | None => w
  | Some start =>
      let dx := px point - px start in
      let dy := py point - py start in
      mkWorld (moveAll (map id (getSelectedShapes w)) dx dy (shapeObjects w))
              (selected w) (currentTool w) (state w) (isDragging w) (Some point)
              (dragStartPositions w) (history w) (cursor w)
  end.

Definition endDrag (w : World) : World :=
  let history' :=
    match dragStartPositions w with
    | Some (originalPos :: rest) =>
        let shapes := map ds_shape (originalPos :: rest) in
        match shapeObjects w !! ds_shape originalPos with
        | Some firstShape =>
            let totalDx := sx firstShape - ds_x originalPos in
            let totalDy := sy firstShape - ds_y originalPos in
            (* totalDx !== 0 || totalDy !== 0 *)
            if (negb (PrimFloat.eqb totalDx 0) || negb (PrimFloat.eqb totalDy 0))%bool
            then (history w ++ [MoveShapesCommand shapes totalDx totalDy])%list
            else history w
        | None => history w
        end
    | _ => history w
    end in
  mkWorld (shapeObjects w) (selected w) (currentTool w) Idle false None None history'
          (if String.eqb (currentTool w) "select" then "select"%string else cursor w).

(** Pointer down on a selected shape at [p0], then the pointer through
    [moves]. *)
Definition dragging (p0 : Point) (moves : list Point) (w : World) : World :=
  foldl (fun w p => doDrag p w) (startDrag p0 w) moves.

(** The whole gesture, pointer up included. *)
Definition dragGesture (p0 : Point) (moves : list Point) (w : World) : World :=
  endDrag (dragging p0 moves w).

(** Two shapes, selected in the order given; the select tool, at rest. *)
Definition twoShapes (first second : Shape) : World :=
  mkWorld (<[id first := first]> (<[id second := second]> ∅))
          [id first; id second] "select" Idle false None None [] "select".

End Doubles.
(** * Properties *)

(** ** Resizing *)

Lemma calculateNewBounds_floor original handleId dx dy :
  minW <= bwidth (calculateNewBounds original handleId dx dy) /\
  minH <= bheight (calculateNewBounds original handleId dx dy).
Proof.
  unfold calculateNewBounds; cbn [bwidth bheight].
  split.
  - destruct (Z.ltb_spec (bwidth (applyHandle original handleId dx dy)) minW); lia.
  - destruct (Z.ltb_spec (bheight (applyHandle original handleId dx dy)) minH); lia.
Qed.

Ltac each_handle H :=
  repeat (destruct H as [H | H]; [subst | ]); [ .. | destruct H ].

Ltac clamp_cases :=
  unfold calculateNewBounds, minW, minH; cbn;
  repeat match goal with
         | |- context [Z.ltb ?a ?b] => destruct (Z.ltb_spec a b)
         end; cbn; lia.

(** On the integers the floor holds and the edge opposite the dragged handle
    stays where it was: the right edge for the w/nw/sw handles, the left edge
    for e/ne/se, the bottom edge for n/ne/nw, the top edge for s/se/sw. *)
Lemma calculateNewBounds_opposite_edge (original : Bounds) (handleId : string) (dx dy : Z) :
  handleId ∈ resizeHandles ->
  let b := calculateNewBounds original handleId dx dy in
  40 <= bwidth b /\ 30 <= bheight b /\
  (handleId ∈ ["w"; "nw"; "sw"]%string ->
     bx b + bwidth b = bx original + bwidth original) /\
  (handleId ∈ ["e"; "ne"; "se"]%string -> bx b = bx original) /\
  (handleId ∈ ["n"; "ne"; "nw"]%string ->
     by_ b + bheight b = by_ original + bheight original) /\
  (handleId ∈ ["s"; "se"; "sw"]%string -> by_ b = by_ original).
Proof.
  intros Hin b.
  destruct (calculateNewBounds_floor original handleId dx dy) as [Hw Hh].
  split; [exact Hw | split; [exact Hh | ]].
  subst b. destruct original as [x y w h].
  apply list_elem_of_In in Hin. unfold resizeHandles in Hin. cbn [In] in Hin.
  each_handle Hin;
    (repeat split; intros Hop; apply list_elem_of_In in Hop; cbn [In] in Hop;
     each_handle Hop; try discriminate; clamp_cases).
Qed.

(** On binary64 numbers the result is never narrower than 40 nor lower than
    30, whatever the bounds, the handle and the delta. *)
Lemma doubles_calculateNewBounds_floor original handleId dx dy :
  let b := Doubles.calculateNewBounds original handleId dx dy in
  PrimFloat.ltb (Doubles.width b) 40 = false /\
  PrimFloat.ltb (Doubles.height b) 30 = false.
Proof.
  unfold Doubles.calculateNewBounds, Doubles.minW, Doubles.minH.
  cbn [Doubles.width Doubles.height].
  split.
  - destruct (PrimFloat.ltb (Doubles.width (Doubles.applyHandle original handleId dx dy)) 40)
      eqn:Hlt; [reflexivity | exact Hlt].
  - destruct (PrimFloat.ltb (Doubles.height (Doubles.applyHandle original handleId dx dy)) 30)
      eqn:Hlt; [reflexivity | exact Hlt].
Qed.

(** A handle without "w" never writes [x], one without "n" never writes
    [y]. *)
Lemma doubles_calculateNewBounds_left_top original handleId dx dy :
  let b := Doubles.calculateNewBounds original handleId dx dy in
  (handleId ∈ ["e"; "ne"; "se"]%string -> Doubles.x b = Doubles.x original) /\
  (handleId ∈ ["s"; "se"; "sw"]%string -> Doubles.y b = Doubles.y original).
Proof.
  cbv zeta. split; intros Hin; apply list_elem_of_In in Hin; cbn [In] in Hin;
    each_handle Hin;
    unfold Doubles.calculateNewBounds, Doubles.applyHandle;
    cbn [String.eqb Ascii.eqb Bool.eqb Js.includes
         Doubles.x Doubles.y Doubles.width Doubles.height];
    repeat match goal with
           | |- context [if ?c then _ else _] => destruct c
           end; reflexivity.
Qed.

(** C2, as the code has it. On the binary64 numbers of the code, for every
    bounds, each of the eight resize handles and every pointer delta, the
    bounds computed by [calculateNewBounds] are not narrower than 40 nor
    lower than 30, the left edge is where it was for the e/ne/se handles and
    the top edge for the s/se/sw handles. When the bounds and the delta are
    integers of magnitude at most 2^50, where the code's sums are exact, the
    right edge [x + width] is where it was for the w/nw/sw handles and the
    bottom edge [y + height] for the n/ne/nw handles as well. *)
Theorem calculateNewBounds_min_size_and_fixed_edges :
  (forall (original : Doubles.Bounds) (handleId : string) (dx dy : float),
     handleId ∈ resizeHandles ->
     let b := Doubles.calculateNewBounds original handleId dx dy in
     PrimFloat.ltb (Doubles.width b) 40 = false /\
     PrimFloat.ltb (Doubles.height b) 30 = false /\
     (handleId ∈ ["e"; "ne"; "se"]%string -> Doubles.x b = Doubles.x original) /\
     (handleId ∈ ["s"; "se"; "sw"]%string -> Doubles.y b = Doubles.y original)) /\
  (forall (original : Bounds) (handleId : string) (dx dy : Z),
     handleId ∈ resizeHandles ->
     exactRange (bx original) -> exactRange (by_ original) ->
     exactRange (bwidth original) -> exactRange (bheight original) ->
     exactRange dx -> exactRange dy ->
     let b := calculateNewBounds original handleId dx dy in
     40 <= bwidth b /\ 30 <= bheight b /\
     (handleId ∈ ["w"; "nw"; "sw"]%string ->
        bx b + bwidth b = bx original + bwidth original) /\
     (handleId ∈ ["e"; "ne"; "se"]%string -> bx b = bx original) /\
     (handleId ∈ ["n"; "ne"; "nw"]%string ->
        by_ b + bheight b = by_ original + bheight original) /\
     (handleId ∈ ["s"; "se"; "sw"]%string -> by_ b = by_ original)).
Proof.
  split.
  - intros original handleId dx dy _ b.
    destruct (doubles_calculateNewBounds_floor original handleId dx dy) as [Hw Hh].
    destruct (doubles_calculateNewBounds_left_top original handleId dx dy) as [Hx Hy].
    auto.
  - intros original handleId dx dy Hin _ _ _ _ _ _.
    apply calculateNewBounds_opposite_edge. exact Hin.
Qed.

Lemma calculateNewBounds_min_size_and_fixed_edges_witness :
  (let b := Doubles.calculateNewBounds (Doubles.mkBounds 10 10 100 50) "se"
                                        Doubles.minus_209_2 0 in
   PrimFloat.ltb (Doubles.width b) 40 = false /\
   PrimFloat.ltb (Doubles.height b) 30 = false /\
   Doubles.x b = 10%float /\ Doubles.y b = 10%float) /\
  (let b := calculateNewBounds (mkBounds 10 10 100 50) "nw" 80 30 in
   40 <= bwidth b /\ 30 <= bheight b /\
   bx b + bwidth b = 10 + 100 /\ by_ b + bheight b = 10 + 50).
Proof.
  assert (Hse : ("se" : string) ∈ resizeHandles)
    by (unfold resizeHandles; apply list_elem_of_In; cbn; tauto).
  assert (Hnw : ("nw" : string) ∈ resizeHandles)
    by (unfold resizeHandles; apply list_elem_of_In; cbn; tauto).
  assert (Hrange : forall v, Z.abs v <= 100 -> exactRange v)
    by (unfold exactRange; intros v Hv; change (2 ^ 50) with 1125899906842624; lia).
  destruct calculateNewBounds_min_size_and_fixed_edges as [Hdoubles Hintegers].
  split.
  - destruct (Hdoubles (Doubles.mkBounds 10 10 100 50) "se" Doubles.minus_209_2 0%float Hse)
      as (Hw & Hh & Hx & Hy).
    split; [exact Hw | split; [exact Hh | split ]].
    + apply Hx. apply list_elem_of_In; cbn; tauto.
    + apply Hy. apply list_elem_of_In; cbn; tauto.
  - destruct (Hintegers (mkBounds 10 10 100 50) "nw" 80 30 Hnw) as (Hw & Hh & Hr & _ & Hb & _);
      try (apply Hrange; cbn; lia).
    split; [exact Hw | split; [exact Hh | split ]].
    + apply Hr. apply list_elem_of_In; cbn; tauto.
    + apply Hb. apply list_elem_of_In; cbn; tauto.
Defined.

(** C2 as stated fails on the numbers of the code: the bounds (0, 0, 330, 50)
    resized by the handle "w" with the pointer 209.2 to the left come out
    with the right edge at 330.00000000000006. *)
Lemma calculateNewBounds_right_edge_moves_by_rounding :
  let original := Doubles.mkBounds 0 0 330 50 in
  let b := Doubles.calculateNewBounds original "w" Doubles.minus_209_2 0 in
  ("w" : string) ∈ resizeHandles /\
  ("w" : string) ∈ ["w"; "nw"; "sw"]%string /\
  PrimFloat.eqb (Doubles.x b + Doubles.width b)
                (Doubles.x original + Doubles.width original) = false.
Proof.
  split; [apply list_elem_of_In; cbn; tauto | ].
  split; [apply list_elem_of_In; cbn; tauto | ].
  vm_compute. reflexivity.
Qed.

(** C6. From the bounds (10, 10, 100, 50), the handle "se" dragged by
    (30, 10) gives the bounds (10, 10, 130, 60); dragged by (-90, 0) it gives
    a width clamped to 40 with x still 10. *)
Theorem calculateNewBounds_se_scenario :
  calculateNewBounds (mkBounds 10 10 100 50) "se" 30 10 = mkBounds 10 10 130 60 /\
  bwidth (calculateNewBounds (mkBounds 10 10 100 50) "se" (-90) 0) = 40 /\
  bx (calculateNewBounds (mkBounds 10 10 100 50) "se" (-90) 0) = 10.
Proof. repeat split; reflexivity. Qed.

(** ** The sequence plugin's validation *)

Lemma validateConnection_cases (sourceShape targetShape : Shape.t) (connectorType : string) :
  (connectorType <> "selfMessage" /\ Shape.id sourceShape = Shape.id targetShape /\
   SequencePlugin.validateConnection sourceShape targetShape connectorType
   = SequencePlugin.rejection) \/
  ((connectorType = "selfMessage" \/ Shape.id sourceShape <> Shape.id targetShape) /\
   SequencePlugin.validateConnection sourceShape targetShape connectorType
   = SequencePlugin.acceptance).
Proof.
  unfold SequencePlugin.validateConnection.
  destruct (String.eqb_spec connectorType "selfMessage") as [Hself | Hself];
    destruct (String.eqb_spec (Shape.id sourceShape) (Shape.id targetShape)) as [Hid | Hid];
    cbn; auto.
Qed.

(** C10. [SequencePlugin.validateConnection] answers [{valid: true}] for
    every two shapes with distinct ids and every connector type, whatever the
    shapes' type tags: also for a connector type of [getConnectorTypes] whose
    [validSources] and [validTargets] do not list them. It answers
    [{valid: false}] with a message exactly when the ids are equal and the
    connector type is not 'selfMessage'. The answer is always an object. *)
Theorem validateConnection_ignores_types :
  forall (sourceShape targetShape : Shape.t) (connectorType : string),
    let answer :=
      SequencePlugin.validateConnection sourceShape targetShape connectorType in
    (Shape.id sourceShape <> Shape.id targetShape ->
       answer = Js.VObj [("valid", Js.VBool true)]%string) /\
    (forall d : Plugin.ConnectorDefinition,
       d ∈ SequencePlugin.getConnectorTypes ->
       Shape.id sourceShape <> Shape.id targetShape ->
       SequencePlugin.validateConnection sourceShape targetShape (Plugin.cd_type d)
       = Js.VObj [("valid", Js.VBool true)]%string) /\
    (Js.get answer "valid" = Js.VBool false <->
       Shape.id sourceShape = Shape.id targetShape /\ connectorType <> "selfMessage") /\
    (Js.get answer "valid" = Js.VBool false ->
       exists message : string, Js.get answer "message" = Js.VStr message) /\
    (Js.get answer "valid" = Js.VBool false \/ Js.get answer "valid" = Js.VBool true) /\
    (exists fields, answer = Js.VObj fields).
Proof.
  intros sourceShape targetShape connectorType answer.
  assert (Hdistinct : forall ct, Shape.id sourceShape <> Shape.id targetShape ->
            SequencePlugin.validateConnection sourceShape targetShape ct
            = Js.VObj [("valid", Js.VBool true)]%string).
  { intros ct Hne.
    destruct (validateConnection_cases sourceShape targetShape ct)
      as [(_ & Heq & _) | (_ & Hacc)]; [contradiction | exact Hacc]. }
  subst answer.
  split; [apply Hdistinct | ].
  split; [intros d _; apply Hdistinct | ].
  destruct (validateConnection_cases sourceShape targetShape connectorType)
    as [(Hself & Hid & Hans) | (Hor & Hans)]; rewrite Hans; cbn.
  - split; [tauto | ].
    split; [intros _; eexists; reflexivity | ].
    split; [left; reflexivity | eexists; reflexivity].
  - split.
    { split; [discriminate | ]. intros [Hid Hself]. destruct Hor; contradiction. }
    split; [discriminate | ].
    split; [right; reflexivity | eexists; reflexivity].
Qed.

(** The type lists of [getConnectorTypes] are not consulted: a combined
    fragment and a destroy marker, which none of them names, validate for
    each of the connector types. *)
Lemma validateConnection_outside_valid_lists :
  forall d : Plugin.ConnectorDefinition,
    d ∈ SequencePlugin.getConnectorTypes ->
    let fragment := Shape.mk "f1" "fragment" 0 0 200 120 in
    let marker := Shape.mk "d1" "destroy" 300 0 24 24 in
    (Shape.type fragment ∉ Plugin.validSources d) /\
    (Shape.type marker ∉ Plugin.validTargets d) /\
    SequencePlugin.validateConnection fragment marker (Plugin.cd_type d)
    = SequencePlugin.acceptance.
Proof.
  intros d Hd fragment marker.
  apply list_elem_of_In in Hd. cbn [In SequencePlugin.getConnectorTypes] in Hd.
  destruct Hd as [<- | [<- | [<- | []]]];
    (split; [ | split ]; [ | | reflexivity ]);
    cbn; unfold SequencePlugin.lifelineKinds; intros Hin;
    apply list_elem_of_In in Hin; cbn in Hin; intuition discriminate.
Qed.

(** ** The keyboard *)

Lemma toolOf_onCommands f w : toolOf (onCommands f w) = toolOf w.
Proof. reflexivity. Qed.

Lemma toolOf_onSelection f w : toolOf (onSelection f w) = toolOf w.
Proof. reflexivity. Qed.

Lemma toolOf_resetState w : toolOf (resetState w) = toolOf w.
Proof. reflexivity. Qed.

Lemma toolOf_removeAll (ids : list string) (w : World) :
  toolOf (foldl (fun w shape =>
                   onCommands (CommandManager.execute (RemoveShapeCommand shape)) w)
                w ids) = toolOf w.
Proof.
  revert w. induction ids as [| i ids IH]; intros w; cbn [foldl]; [reflexivity | ].
  rewrite IH. apply toolOf_onCommands.
Qed.

Lemma toolOf_handleToolSelected toolId w : toolOf (handleToolSelected toolId w) = toolId.
Proof. unfold handleToolSelected. repeat case_match; reflexivity. Qed.

Lemma handleKeyDown_shortcuts e w :
  handleKeyDown e w =
  if (negb (ctrlKey e) && negb (metaKey e) && negb (altKey e))%bool then
    if String.eqb (Js.toLowerCase (key e)) "v"
    then handleToolSelected "select" (beforeShortcuts e w)
    else if String.eqb (Js.toLowerCase (key e)) "h"
         then handleToolSelected "pan" (beforeShortcuts e w)
         else beforeShortcuts e w
  else beforeShortcuts e w.
Proof. reflexivity. Qed.

Lemma toolOf_beforeShortcuts e w : toolOf (beforeShortcuts e w) = toolOf w.
Proof.
  unfold beforeShortcuts. cbv zeta.
  repeat match goal with
         | |- context [if ?b then _ else _] => destruct b
         end;
    repeat first [ rewrite toolOf_onSelection
                 | rewrite toolOf_resetState
                 | rewrite toolOf_onCommands
                 | rewrite toolOf_removeAll ];
    reflexivity.
Qed.

(** C9, as the code has it. With Ctrl, Meta or Alt held, no key changes the
    active tool. With none of the three held, whether Shift is held or not,
    a key that lower-cases to "v" selects the select tool and one that
    lower-cases to "h" the pan tool; any other key leaves the tool as it
    is. *)
Theorem handleKeyDown_tool_shortcuts :
  forall (e : KeyEvent) (w : World),
    let w' := handleKeyDown e w in
    ((ctrlKey e = true \/ metaKey e = true \/ altKey e = true) ->
       currentTool (controller w') = currentTool (controller w)) /\
    ((ctrlKey e = false /\ metaKey e = false /\ altKey e = false) ->
       (Js.toLowerCase (key e) = "v" -> currentTool (controller w') = "select") /\
       (Js.toLowerCase (key e) = "h" -> currentTool (controller w') = "pan") /\
       (Js.toLowerCase (key e) <> "v" -> Js.toLowerCase (key e) <> "h" ->
          currentTool (controller w') = currentTool (controller w))).
Proof.
  intros e w w'. subst w'. rewrite handleKeyDown_shortcuts.
  fold (toolOf w).
  split.
  - intros Hmod.
    assert (Hguard : (negb (ctrlKey e) && negb (metaKey e) && negb (altKey e))%bool = false)
      by (destruct (ctrlKey e), (metaKey e), (altKey e); cbn in *;
          try reflexivity; intuition discriminate).
    rewrite Hguard. apply toolOf_beforeShortcuts.
  - intros (-> & -> & ->). cbn [negb andb].
    destruct (String.eqb_spec (Js.toLowerCase (key e)) "v") as [Hv | Hv];
      [ | destruct (String.eqb_spec (Js.toLowerCase (key e)) "h") as [Hh | Hh] ].
    + split; [intros _; apply toolOf_handleToolSelected | ].
      split; [rewrite Hv; discriminate | contradiction].
    + split; [contradiction | ].
      split; [intros _; apply toolOf_handleToolSelected | contradiction].
    + split; [contradiction | ].
      split; [contradiction | intros _ _; apply toolOf_beforeShortcuts].
Qed.

(** C9 as stated fails for Shift: with only Shift held, "V" switches from the
    pan tool to the select tool. *)
Lemma shift_does_not_block_tool_shortcut :
  ~ (forall (e : KeyEvent) (w : World),
       (ctrlKey e || metaKey e || altKey e || shiftKey e)%bool = true ->
       Js.toLowerCase (key e) = "v" \/ Js.toLowerCase (key e) = "h" ->
       currentTool (controller (handleKeyDown e w)) = currentTool (controller w)).
Proof.
  intros Hclaim.
  specialize (Hclaim (mkKeyEvent "V" false false false true) (Scenario.world "pan")
                     eq_refl (or_introl eq_refl)).
  vm_compute in Hclaim. discriminate Hclaim.
Qed.

(** ** The shape tool *)

Lemma store_handleToolSelected toolId w : store (handleToolSelected toolId w) = store w.
Proof. unfold handleToolSelected. repeat case_match; reflexivity. Qed.

Lemma selection_handleToolSelected toolId w :
  selectionManager (handleToolSelected toolId w) = selectionManager w.
Proof. unfold handleToolSelected. repeat case_match; reflexivity. Qed.

Lemma commands_handleToolSelected toolId w :
  commandManager (handleToolSelected toolId w) = commandManager w.
Proof. unfold handleToolSelected. repeat case_match; reflexivity. Qed.

Lemma state_handleToolSelected toolId w :
  state (controller (handleToolSelected toolId w)) = Idle.
Proof. unfold handleToolSelected. repeat case_match; reflexivity. Qed.

Lemma done_record c m : CommandManager.done (CommandManager.record c m)
                        = CommandManager.done m ++ [c].
Proof.
  unfold CommandManager.done at 1, CommandManager.record.
  cbn [CommandManager.cursor CommandManager.history].
  apply take_ge. rewrite length_app. cbn. lia.
Qed.





(** ** The connector tool *)

(** The code's test of a validation result is the design document's. *)
Lemma isValid_accepted (validationResult : Js.value) :
  Js.truthy (isValid validationResult) = true <-> accepted validationResult.
Proof.
  unfold accepted, isValid, Js.and_then.
  destruct validationResult as [ | | [ | ] | [ | n | n ] | [ | a s ] | fields ]; cbn.
  1-2, 4-9: split; [discriminate | intros [H | (f & H & _)]; discriminate].
  - split; [auto | reflexivity].
  - split.
    + intros H. right. exists fields. auto.
    + intros [H | (f & H & Ht)]; [discriminate | ]. injection H as <-. exact Ht.
Qed.

Lemma store_resetConnectionState w : store (resetConnectionState w) = store w.
Proof. reflexivity. Qed.

Lemma commands_resetConnectionState w :
  commandManager (resetConnectionState w) = commandManager w.
Proof. reflexivity. Qed.

Lemma console_resetConnectionState w : console (resetConnectionState w) = console w.
Proof. reflexivity. Qed.

Lemma state_resetConnectionState w : state (controller (resetConnectionState w)) = Idle.
Proof. reflexivity. Qed.

Lemma source_resetConnectionState w :
  connectionSource (connection (controller (resetConnectionState w))) = None.
Proof. reflexivity. Qed.

(** A click that resolves to a shape is on a shape element or a lifeline. *)
Lemma clickedShape_hit w target shape :
  clickedShape w target = Some shape ->
  Dom.closest "shape" target <> None \/ Dom.closest "lifeline" target <> None.
Proof.
  unfold clickedShape. intros H.
  destruct (Dom.closest "shape" target); [left; discriminate | ].
  destruct (Dom.closest "lifeline" target); [right; discriminate | discriminate].
Qed.

(** The second click of the gesture, on a shape, with a source pending. *)
Lemma handleConnectorToolClick_pending plugin newId point target w sourceRef source shape :
  connectionSource (connection (controller w)) = Some sourceRef ->
  shapeObjects (store w) !! sourceRef = Some source ->
  clickedShape w target = Some shape ->
  handleConnectorToolClick plugin newId point target w =
  if negb (String.eqb (Shape.id source) (Shape.id shape))
  then completeConnection plugin newId point source shape w
  else w.
Proof.
  intros Hsrc Hobj Hshape. unfold handleConnectorToolClick.
  rewrite Hshape, Hsrc, Hobj.
  destruct (clickedShape_hit w target shape Hshape) as [Hhit | Hhit].
  - destruct (Dom.closest "shape" target); [reflexivity | contradiction].
  - destruct (Dom.closest "shape" target); [reflexivity | ].
    destruct (Dom.closest "lifeline" target); [reflexivity | contradiction].
Qed.

(** The first click of the gesture, on a shape, with no source pending. *)
Lemma handleConnectorToolClick_first plugin newId point target w shape :
  connectionSource (connection (controller w)) = None ->
  clickedShape w target = Some shape ->
  let w' := handleConnectorToolClick plugin newId point target w in
  connectionSource (connection (controller w')) = Some (Shape.id shape) /\
  state (controller w') = Connecting /\
  store w' = store w /\
  commandManager w' = commandManager w /\
  currentTool (controller w') = currentTool (controller w).
Proof.
  intros Hsrc Hshape w'. subst w'. unfold handleConnectorToolClick.
  rewrite Hshape, Hsrc.
  destruct (clickedShape_hit w target shape Hshape) as [Hhit | Hhit].
  - destruct (Dom.closest "shape" target); [ | contradiction].
    repeat split; reflexivity.
  - destruct (Dom.closest "shape" target); [repeat split; reflexivity | ].
    destruct (Dom.closest "lifeline" target); [ | contradiction].
    repeat split; reflexivity.
Qed.

Lemma completeConnection_accepted plugin newId point source shape w :
  Js.truthy (isValid (Plugin.validateConnection plugin source shape
                        (currentTool (controller w)))) = true ->
  let w' := completeConnection plugin newId point source shape w in
  let conn := newConnection plugin newId (currentTool (controller w)) source shape point in
  store w' = mkStore (shapeObjects (store w))
                     (<[newId := conn]> (connectionObjects (store w)))
                     (mkDiagram (shapes (diagram (store w)))
                                ({[newId]} ∪ connections (diagram (store w)))) /\
  commandManager w' = CommandManager.record (AddConnectionCommand newId) (commandManager w) /\
  console w' = console w /\
  state (controller w') = Idle /\
  connectionSource (connection (controller w')) = None.
Proof.
  intros Hvalid w' conn. subst w'. unfold completeConnection. cbv zeta.
  rewrite Hvalid. repeat split; reflexivity.
Qed.

Lemma completeConnection_rejected plugin newId point source shape w :
  Js.truthy (isValid (Plugin.validateConnection plugin source shape
                        (currentTool (controller w)))) = false ->
  let w' := completeConnection plugin newId point source shape w in
  store w' = store w /\
  commandManager w' = commandManager w /\
  console w' = console w ++ [rejectionMessage
                               (Plugin.validateConnection plugin source shape
                                  (currentTool (controller w)))] /\
  state (controller w') = Idle /\
  connectionSource (connection (controller w')) = None.
Proof.
  intros Hvalid w'. subst w'. unfold completeConnection. cbv zeta.
  rewrite Hvalid. repeat split; reflexivity.
Qed.

Lemma connectionCount_added newId (s : Store) conn :
  newId ∉ connections (diagram s) ->
  connectionCount (mkStore (shapeObjects s) (<[newId := conn]> (connectionObjects s))
                           (mkDiagram (shapes (diagram s))
                                      ({[newId]} ∪ connections (diagram s))))
  = S (connectionCount s).
Proof.
  intros Hfresh. unfold connectionCount. cbn.
  rewrite size_union by set_solver. rewrite size_singleton. reflexivity.
Qed.

(** The diagnostic is the message of the validation result when it has
    one. *)
(** The diagnostic of a rejection: the answer's [message] when the answer is
    an object with a truthy [message], the text "Invalid connection" for
    every other answer. *)
Lemma rejectionMessage_cases (validationResult : Js.value) :
  rejectionMessage validationResult =
  match validationResult with
  | Js.VObj fields =>
      if Js.truthy (Js.field "message" fields) then Js.field "message" fields
      else Js.VStr "Invalid connection"
  | _ => Js.VStr "Invalid connection"
  end.
Proof. destruct validationResult; reflexivity. Qed.

(** C1. With a source shape recorded, a connector-tool click on a different
    shape makes a connection exactly when the plugin's [validateConnection]
    answers the boolean [true] or an object whose [valid] field is truthy:
    then the connection from the source to the clicked shape is in the
    diagram and one AddConnection command is recorded. Otherwise no command
    is executed, the model and its connection count are as before, the
    controller is back in [idle] with no pending source, and one line goes
    to the console: the answer's [message] if the answer is an object that
    has a truthy one, the text "Invalid connection" if not. *)
Theorem connector_click_connects_iff_accepted :
  forall (plugin : Plugin.t) (newId : string) (point : Point) (target : Dom.Target)
         (w : World) (sourceRef : string) (source shape : Shape.t),
    connectionSource (connection (controller w)) = Some sourceRef ->
    shapeObjects (store w) !! sourceRef = Some source ->
    clickedShape w target = Some shape ->
    Shape.id source <> Shape.id shape ->
    newId ∉ connections (diagram (store w)) ->
    let answer :=
      Plugin.validateConnection plugin source shape (currentTool (controller w)) in
    let w' := handleConnectorToolClick plugin newId point target w in
    (connectionCount (store w') = S (connectionCount (store w)) <-> accepted answer) /\
    (accepted answer ->
       (exists conn : Connection.t,
          getConnection (store w') (Some newId) = Some conn /\
          Connection.shapeId (Connection.source conn) = Shape.id source /\
          Connection.shapeId (Connection.target conn) = Shape.id shape) /\
       CommandManager.done (commandManager w')
       = CommandManager.done (commandManager w) ++ [AddConnectionCommand newId] /\
       console w' = console w /\
       state (controller w') = Idle) /\
    (~ accepted answer ->
       store w' = store w /\
       commandManager w' = commandManager w /\
       connectionCount (store w') = connectionCount (store w) /\
       state (controller w') = Idle /\
       connectionSource (connection (controller w')) = None /\
       console w' = console w ++
         [ match answer with
           | Js.VObj fields =>
               if Js.truthy (Js.field "message" fields) then Js.field "message" fields
               else Js.VStr "Invalid connection"
           | _ => Js.VStr "Invalid connection"
           end ]).
Proof.
  intros plugin newId point target w sourceRef source shape
         Hsrc Hobj Hshape Hne Hfresh answer w'.
  subst w'.
  rewrite (handleConnectorToolClick_pending plugin newId point target w
             sourceRef source shape Hsrc Hobj Hshape).
  destruct (String.eqb_spec (Shape.id source) (Shape.id shape)) as [Heq | _];
    [contradiction | ].
  cbn [negb].
  destruct (Js.truthy (isValid answer)) eqn:Hvalid.
  - assert (Hacc : accepted answer) by (apply isValid_accepted; exact Hvalid).
    destruct (completeConnection_accepted plugin newId point source shape w Hvalid)
      as (Hstore & Hcmd & Hcons & Hstate & _).
    split; [ | split ].
    + split; [intros _; exact Hacc | ].
      intros _. rewrite Hstore. apply connectionCount_added. exact Hfresh.
    + intros _. split; [ | split; [ | split ]].
      * eexists. split; [ | split ].
        -- rewrite Hstore. unfold getConnection. cbn.
           rewrite decide_True by set_solver. apply lookup_insert_eq.
        -- reflexivity.
        -- reflexivity.
      * rewrite Hcmd. apply done_record.
      * exact Hcons.
      * exact Hstate.
    + intros Hrej. contradiction.
  - assert (Hrej : ~ accepted answer).
    { intros Hacc. apply isValid_accepted in Hacc. congruence. }
    destruct (completeConnection_rejected plugin newId point source shape w Hvalid)
      as (Hstore & Hcmd & Hcons & Hstate & Hpending).
    split; [ | split ].
    + split; [ | intros Hacc; contradiction ].
      rewrite Hstore. intros Hcount. lia.
    + intros Hacc. contradiction.
    + intros _. rewrite <- rejectionMessage_cases. rewrite Hstore. auto 10.
Qed.

Lemma connector_click_connects_iff_accepted_witness :
  let plugin :=
    Scenario.answering (Js.VObj [("valid", Js.VBool false); ("message", Js.VStr "X")]%string) in
  let w := handleConnectorToolClick plugin "c1" (mkPoint 10 10) Scenario.onA
                                    (Scenario.world "syncMessage") in
  let answer :=
    Plugin.validateConnection plugin Scenario.shapeA Scenario.shapeB
                              (currentTool (controller w)) in
  let w' := handleConnectorToolClick plugin "c1" (mkPoint 210 77) Scenario.onB w in
  connectionSource (connection (controller w)) = Some "A"%string /\
  clickedShape w Scenario.onB = Some Scenario.shapeB /\
  ~ accepted answer /\
  store w' = store w /\
  commandManager w' = commandManager w /\
  state (controller w') = Idle /\
  connectionSource (connection (controller w')) = None /\
  console w = [] /\
  console w' = [Js.VStr "X"].
Proof.
  intros plugin w answer w'.
  assert (Hrej : ~ accepted answer).
  { intros [Htrue | (fields & Hobj & Hvalid)]; [discriminate Htrue | ].
    injection Hobj as <-. discriminate Hvalid. }
  destruct (connector_click_connects_iff_accepted plugin "c1" (mkPoint 210 77) Scenario.onB w
              "A" Scenario.shapeA Scenario.shapeB) as (_ & _ & Hrejected).
  - reflexivity.
  - reflexivity.
  - reflexivity.
  - cbn. discriminate.
  - vm_compute. set_solver.
  - destruct (Hrejected Hrej) as (Hstore & Hcmd & _ & Hstate & Hpending & Hconsole).
    split; [reflexivity | split; [reflexivity | split; [exact Hrej | ]]].
    split; [exact Hstore | split; [exact Hcmd | split; [exact Hstate | ]]].
    split; [exact Hpending | split; [reflexivity | exact Hconsole]].
Defined.

(** A connector-tool click either leaves the model as it is or completes a
    connection between the pending source and the clicked shape. *)
Lemma handleConnectorToolClick_store plugin newId point target w :
  let w' := handleConnectorToolClick plugin newId point target w in
  store w' = store w \/
  exists source shape : Shape.t,
    store w' =
    mkStore (shapeObjects (store w))
            (<[newId := newConnection plugin newId (currentTool (controller w))
                                      source shape point]> (connectionObjects (store w)))
            (mkDiagram (shapes (diagram (store w)))
                       ({[newId]} ∪ connections (diagram (store w)))).
Proof.
  intros w'. subst w'. unfold handleConnectorToolClick.
  assert (Hinner :
    let r :=
      match clickedShape w target with
      | None => w
      | Some shape =>
          match connectionSource (connection (controller w)) with
          | None =>
              let w := onController
                         (setConnection (mkConnectionState (Some (Shape.id shape))
                                                           (Some (py point)))) w in
              let w := onController (setState Connecting) w in
              setPreviewTooltip true w
          | Some sourceRef =>
              match shapeObjects (store w) !! sourceRef with
              | Some source =>
                  if negb (String.eqb (Shape.id source) (Shape.id shape))
                  then completeConnection plugin newId point source shape w
                  else w
              | None => w
              end
          end
      end in
    store r = store w \/
    exists source shape : Shape.t,
      store r =
      mkStore (shapeObjects (store w))
              (<[newId := newConnection plugin newId (currentTool (controller w))
                                        source shape point]> (connectionObjects (store w)))
              (mkDiagram (shapes (diagram (store w)))
                         ({[newId]} ∪ connections (diagram (store w))))).
  { cbv zeta.
    destruct (clickedShape w target) as [shape | ]; [ | left; reflexivity].
    destruct (connectionSource (connection (controller w))) as [sourceRef | ];
      [ | left; reflexivity].
    destruct (shapeObjects (store w) !! sourceRef) as [source | ]; [ | left; reflexivity].
    destruct (negb (String.eqb (Shape.id source) (Shape.id shape))); [ | left; reflexivity].
    destruct (Js.truthy (isValid (Plugin.validateConnection plugin source shape
                                    (currentTool (controller w))))) eqn:Hvalid.
    - right. exists source, shape.
      apply (completeConnection_accepted plugin newId point source shape w Hvalid).
    - left. apply (completeConnection_rejected plugin newId point source shape w Hvalid). }
  cbv zeta in Hinner.
  destruct (Dom.closest "shape" target), (Dom.closest "lifeline" target);
    first [exact Hinner | left; reflexivity].
Qed.

(** C7. With a plugin whose id is "sequence", every connection a
    connector-tool click adds to the diagram has the Y coordinate of that
    click as its source attachment offset and as its target attachment
    offset, which are therefore equal. *)
Theorem sequence_connection_is_horizontal :
  forall (plugin : Plugin.t) (newId : string) (point : Point) (target : Dom.Target)
         (w : World) (added : string),
    Plugin.id plugin = "sequence" ->
    let w' := handleConnectorToolClick plugin newId point target w in
    added ∉ connections (diagram (store w)) ->
    added ∈ connections (diagram (store w')) ->
    exists conn : Connection.t,
      getConnection (store w') (Some added) = Some conn /\
      Connection.sourceY conn = Some (py point) /\
      Connection.targetY conn = Some (py point) /\
      Connection.sourceY conn = Connection.targetY conn.
Proof.
  intros plugin newId point target w added Hseq w' Hbefore Hafter. subst w'.
  destruct (handleConnectorToolClick_store plugin newId point target w)
    as [Hsame | (source & shape & Hstore)].
  - rewrite Hsame in Hafter. contradiction.
  - rewrite Hstore in Hafter. cbn in Hafter.
    apply elem_of_union in Hafter as [Hadded | Hold]; [ | contradiction].
    apply elem_of_singleton in Hadded. subst added.
    exists (newConnection plugin newId (currentTool (controller w)) source shape point).
    split; [ | split; [ | split ]].
    + rewrite Hstore. unfold getConnection. cbn.
      rewrite decide_True by set_solver. apply lookup_insert_eq.
    + cbn. rewrite Hseq. reflexivity.
    + cbn. rewrite Hseq. reflexivity.
    + reflexivity.
Qed.

Lemma sequence_connection_is_horizontal_witness :
  let plugin := SequencePlugin.plugin in
  let w := handleConnectorToolClick plugin "c0" (mkPoint 10 10) Scenario.onA
                                    (Scenario.world "syncMessage") in
  let w' := handleConnectorToolClick plugin "c1" (mkPoint 210 77) Scenario.onB w in
  Plugin.id plugin = "sequence" /\
  (("c1" : string) ∉ connections (diagram (store w))) /\
  (("c1" : string) ∈ connections (diagram (store w'))) /\
  exists conn : Connection.t,
    getConnection (store w') (Some "c1"%string) = Some conn /\
    Connection.sourceY conn = Some 77 /\
    Connection.targetY conn = Some 77 /\
    Connection.sourceY conn = Connection.targetY conn.
Proof.
  intros plugin w w'.
  assert (Hbefore : ("c1" : string) ∉ connections (diagram (store w)))
    by (vm_compute; set_solver).
  assert (Hafter : ("c1" : string) ∈ connections (diagram (store w')))
    by (vm_compute; set_solver).
  split; [reflexivity | split; [exact Hbefore | split; [exact Hafter | ]]].
  exact (sequence_connection_is_horizontal plugin "c1" (mkPoint 210 77) Scenario.onB w
           "c1" eq_refl Hbefore Hafter).
Defined.

Lemma clickedShape_store w1 w2 target :
  store w1 = store w2 -> clickedShape w1 target = clickedShape w2 target.
Proof. intros H. unfold clickedShape. rewrite H. reflexivity. Qed.

(** C4, as the code has it. With the connector tool, a click on shape A
    followed by a second click on A makes no connection: the second click is
    ignored, whatever the plugin's validation would say, and the controller
    stays in [connecting] with A as the pending source. *)
Theorem connector_click_same_shape_is_ignored :
  forall (plugin : Plugin.t) (newId1 newId2 : string) (point1 point2 : Point)
         (target1 target2 : Dom.Target) (w : World) (shapeA : Shape.t),
    connectionSource (connection (controller w)) = None ->
    shapeObjects (store w) !! Shape.id shapeA = Some shapeA ->
    clickedShape w target1 = Some shapeA ->
    clickedShape w target2 = Some shapeA ->
    let w1 := handleConnectorToolClick plugin newId1 point1 target1 w in
    let w2 := handleConnectorToolClick plugin newId2 point2 target2 w1 in
    w2 = w1 /\
    state (controller w2) = Connecting /\
    connectionSource (connection (controller w2)) = Some (Shape.id shapeA) /\
    store w2 = store w /\
    connectionCount (store w2) = connectionCount (store w) /\
    commandManager w2 = commandManager w.
Proof.
  intros plugin newId1 newId2 point1 point2 target1 target2 w shapeA
         Hnone Hobj Hclick1 Hclick2 w1 w2.
  destruct (handleConnectorToolClick_first plugin newId1 point1 target1 w shapeA
              Hnone Hclick1) as (Hsrc & Hstate & Hstore & Hcmd & _).
  fold w1 in Hsrc, Hstate, Hstore, Hcmd.
  assert (Hsame : w2 = w1).
  { subst w2.
    rewrite (handleConnectorToolClick_pending plugin newId2 point2 target2 w1
               (Shape.id shapeA) shapeA shapeA Hsrc).
    - rewrite String.eqb_refl. reflexivity.
    - rewrite Hstore. exact Hobj.
    - rewrite (clickedShape_store w1 w target2 Hstore). exact Hclick2. }
  rewrite Hsame. rewrite Hstore.
  repeat split; assumption || reflexivity.
Qed.

Lemma connector_click_same_shape_is_ignored_witness :
  let plugin := SequencePlugin.plugin in
  let w := Scenario.world "syncMessage" in
  let w1 := handleConnectorToolClick plugin "c1" (mkPoint 10 10) Scenario.onA w in
  let w2 := handleConnectorToolClick plugin "c2" (mkPoint 10 90) Scenario.onA w1 in
  w2 = w1 /\
  state (controller w2) = Connecting /\
  connectionSource (connection (controller w2)) = Some (Shape.id Scenario.shapeA) /\
  store w2 = store w /\
  connectionCount (store w2) = connectionCount (store w) /\
  commandManager w2 = commandManager w.
Proof.
  exact (connector_click_same_shape_is_ignored SequencePlugin.plugin "c1" "c2"
           (mkPoint 10 10) (mkPoint 10 90) Scenario.onA Scenario.onA
           (Scenario.world "syncMessage") Scenario.shapeA
           eq_refl eq_refl eq_refl eq_refl).
Defined.

(** C4 as stated fails: with the sequence plugin, which rejects a
    synchronous message from a lifeline to itself, two clicks on A leave the
    controller in [connecting], not in [idle]. *)
Lemma same_shape_click_does_not_return_to_idle :
  let plugin := SequencePlugin.plugin in
  let w := Scenario.world "syncMessage" in
  let w1 := handleCanvasClicked (Some plugin) "c1" (mkPoint 10 10) Scenario.onA
                                false false w in
  let w2 := handleCanvasClicked (Some plugin) "c2" (mkPoint 10 90) Scenario.onA
                                false false w1 in
  Plugin.validateConnection plugin Scenario.shapeA Scenario.shapeA "syncMessage"
  = SequencePlugin.rejection /\
  ~ (connectionCount (store w2) = connectionCount (store w) /\
     state (controller w2) = Idle).
Proof.
  cbv zeta. split; [reflexivity | ].
  intros [_ Hidle]. vm_compute in Hidle. discriminate Hidle.
Qed.

(** ** Dragging the end of a connection *)

Lemma doEndpointDrag_frame point target w :
  controller (doEndpointDrag point target w) = controller w /\
  store (doEndpointDrag point target w) = store w /\
  commandManager (doEndpointDrag point target w) = commandManager w.
Proof.
  unfold doEndpointDrag, addConnecting.
  repeat case_match; repeat split; reflexivity.
Qed.

Lemma endpoint_moves_frame (moves : list (Point * Dom.Target)) (w : World) :
  let w' := foldl (fun w m => doEndpointDrag (fst m) (snd m) w) w moves in
  controller w' = controller w /\ store w' = store w /\
  commandManager w' = commandManager w.
Proof.
  revert w. induction moves as [ | m moves IH]; intros w; cbn [foldl].
  - repeat split; reflexivity.
  - destruct (IH (doEndpointDrag (fst m) (snd m) w)) as (Hc & Hs & Hm).
    destruct (doEndpointDrag_frame (fst m) (snd m) w) as (Hc' & Hs' & Hm').
    cbv zeta in *. rewrite Hc, Hs, Hm. auto.
Qed.

(** What [endEndpointDrag] does to the model, for a connection being
    dragged. *)
Lemma endEndpointDrag_store point target w connRef conn endpointType :
  draggingConnection (endpoint (controller w)) = Some connRef ->
  draggingEndpointType (endpoint (controller w)) = Some endpointType ->
  connectionObjects (store w) !! connRef = Some conn ->
  let w' := endEndpointDrag point target w in
  commandManager w' = commandManager w /\
  state (controller w') = Idle /\
  store w' =
  match target ≫= Dom.closest "shape" with
  | Some shapeElement =>
      match getShape (store w) (Dom.data "id" shapeElement) with
      | Some newShape =>
          if decide (Dom.data "id" shapeElement
                     <> Some (otherShapeId (Some endpointType) conn))
          then withConnectionObjects
                 (alter (reconnect (Some endpointType) newShape) connRef) (store w)
          else store w
      | None => store w
      end
  | None => store w
  end.
Proof.
  intros Hconn Htype Hobj w'. subst w'. unfold endEndpointDrag.
  rewrite Hconn, Htype, Hobj.
  destruct (target ≫= Dom.closest "shape") as [shapeElement | ];
    [ | repeat split; reflexivity].
  destruct (getShape (store w) (Dom.data "id" shapeElement)) as [newShape | ];
    [ | repeat split; reflexivity].
  destruct (decide (Dom.data "id" shapeElement
                    <> Some (otherShapeId (Some endpointType) conn)));
    repeat split; reflexivity.
Qed.

(** C8. An endpoint drag that ends over a shape of the diagram whose id is
    not that of the shape at the connection's other end reattaches the
    dragged end, source or target, to that shape and leaves the other end as
    it was. One that ends over no shape, or over the other end's shape,
    leaves the model, and so the connection's source and target, as they were
    before the drag. In every case the command history is as before. *)
Theorem endpoint_drag_reassigns_or_reverts :
  forall (conn : Connection.t) (endpointType : EndpointType) (p0 pEnd : Point)
         (moves : list (Point * Dom.Target)) (targetEnd : option Dom.Target) (w : World),
    connectionObjects (store w) !! Connection.id conn = Some conn ->
    let w' := endpointDragGesture conn endpointType p0 moves pEnd targetEnd w in
    let other :=
      match endpointType with
      | SourceEnd => Connection.shapeId (Connection.target conn)
      | TargetEnd => Connection.shapeId (Connection.source conn)
      end in
    commandManager w' = commandManager w /\
    state (controller w') = Idle /\
    (forall (shapeElement : Dom.Target) (newShape : Shape.t),
       targetEnd ≫= Dom.closest "shape" = Some shapeElement ->
       getShape (store w) (Dom.data "id" shapeElement) = Some newShape ->
       Dom.data "id" shapeElement <> Some other ->
       exists conn' : Connection.t,
         connectionObjects (store w') !! Connection.id conn = Some conn' /\
         match endpointType with
         | SourceEnd =>
             Connection.source conn' = Connection.mkEndpoint (Shape.id newShape) "auto" /\
             Connection.target conn' = Connection.target conn
         | TargetEnd =>
             Connection.target conn' = Connection.mkEndpoint (Shape.id newShape) "auto" /\
             Connection.source conn' = Connection.source conn
         end) /\
    (targetEnd ≫= Dom.closest "shape" = None \/
     (exists shapeElement : Dom.Target,
        targetEnd ≫= Dom.closest "shape" = Some shapeElement /\
        Dom.data "id" shapeElement = Some other) ->
     store w' = store w /\
     connectionObjects (store w') !! Connection.id conn = Some conn).
Proof.
  intros conn endpointType p0 pEnd moves targetEnd w Hobj w' other.
  subst w'. unfold endpointDragGesture.
  set (started := startEndpointDrag conn endpointType p0 w).
  destruct (endpoint_moves_frame moves started) as (Hc & Hs & Hm).
  set (moved := foldl (fun w m => doEndpointDrag (fst m) (snd m) w) started moves) in *.
  cbv zeta in Hc, Hs, Hm.
  assert (Hstore : store moved = store w) by (rewrite Hs; reflexivity).
  assert (Hcmd : commandManager moved = commandManager w) by (rewrite Hm; reflexivity).
  destruct (endEndpointDrag_store pEnd targetEnd moved (Connection.id conn) conn
              endpointType) as (Hcmd' & Hstate & Hend).
  { rewrite Hc. reflexivity. }
  { rewrite Hc. reflexivity. }
  { rewrite Hstore. exact Hobj. }
  rewrite Hstore in Hend.
  assert (Hhelper : otherShapeId (Some endpointType) conn = other)
    by (destruct endpointType; reflexivity).
  rewrite Hhelper in Hend. clear Hhelper.
  split; [rewrite Hcmd'; exact Hcmd | ].
  split; [exact Hstate | ].
  split.
  - intros shapeElement newShape Hover Hshape Hdiffers.
    rewrite Hend, Hover, Hshape. rewrite decide_True by exact Hdiffers.
    exists (reconnect (Some endpointType) newShape conn).
    split.
    + cbn. rewrite lookup_alter_eq, Hobj. reflexivity.
    + destruct endpointType; split; reflexivity.
  - intros [Hnone | (shapeElement & Hover & Hother)].
    + rewrite Hend, Hnone. split; [reflexivity | exact Hobj].
    + rewrite Hend, Hover.
      destruct (getShape (store w) (Dom.data "id" shapeElement));
        [ | split; [reflexivity | exact Hobj]].
      rewrite decide_False by (intros Hne; apply Hne; exact Hother).
      split; [reflexivity | exact Hobj].
Qed.

Lemma endpoint_drag_reassigns_or_reverts_witness :
  let w := Scenario.connected in
  let moves := [(mkPoint 300 80, Scenario.onCanvas); (mkPoint 410 80, Scenario.onC)] in
  let targetToC := endpointDragGesture Scenario.connAB TargetEnd (mkPoint 200 80) moves
                     (mkPoint 410 80) (Some Scenario.onC) w in
  let sourceToC := endpointDragGesture Scenario.connAB SourceEnd (mkPoint 0 80) moves
                     (mkPoint 410 80) (Some Scenario.onC) w in
  let sourceToB := endpointDragGesture Scenario.connAB SourceEnd (mkPoint 0 80) moves
                     (mkPoint 210 80) (Some Scenario.onB) w in
  connectionObjects (store w) !! Connection.id Scenario.connAB = Some Scenario.connAB /\
  Connection.source Scenario.connAB = Connection.mkEndpoint "A" "auto" /\
  Connection.target Scenario.connAB = Connection.mkEndpoint "B" "auto" /\
  commandManager targetToC = commandManager w /\
  (exists conn' : Connection.t,
     connectionObjects (store targetToC) !! Connection.id Scenario.connAB = Some conn' /\
     Connection.target conn' = Connection.mkEndpoint "C" "auto" /\
     Connection.source conn' = Connection.mkEndpoint "A" "auto") /\
  (exists conn' : Connection.t,
     connectionObjects (store sourceToC) !! Connection.id Scenario.connAB = Some conn' /\
     Connection.source conn' = Connection.mkEndpoint "C" "auto" /\
     Connection.target conn' = Connection.mkEndpoint "B" "auto") /\
  store sourceToB = store w.
Proof.
  intros w moves targetToC sourceToC sourceToB.
  assert (Hobj : connectionObjects (store w) !! Connection.id Scenario.connAB
                 = Some Scenario.connAB) by reflexivity.
  split; [exact Hobj | split; [reflexivity | split; [reflexivity | ]]].
  destruct (endpoint_drag_reassigns_or_reverts Scenario.connAB TargetEnd
              (mkPoint 200 80) (mkPoint 410 80) moves (Some Scenario.onC) w Hobj)
    as (Hcmd & _ & HtargetOver & _).
  destruct (endpoint_drag_reassigns_or_reverts Scenario.connAB SourceEnd
              (mkPoint 0 80) (mkPoint 410 80) moves (Some Scenario.onC) w Hobj)
    as (_ & _ & HsourceOver & _).
  destruct (endpoint_drag_reassigns_or_reverts Scenario.connAB SourceEnd
              (mkPoint 0 80) (mkPoint 210 80) moves (Some Scenario.onB) w Hobj)
    as (_ & _ & _ & Hreverts).
  split; [exact Hcmd | split; [ | split ]].
  - apply (HtargetOver Scenario.onC Scenario.shapeC).
    + reflexivity.
    + reflexivity.
    + cbn. discriminate.
  - apply (HsourceOver Scenario.onC Scenario.shapeC).
    + reflexivity.
    + reflexivity.
    + cbn. discriminate.
  - apply Hreverts. right. exists Scenario.onB. split; reflexivity.
Defined.

(** ** Dragging shapes *)

Lemma move_move dx1 dy1 dx2 dy2 (s : Shape.t) :
  Shape.move dx2 dy2 (Shape.move dx1 dy1 s) = Shape.move (dx1 + dx2) (dy1 + dy2) s.
Proof. destruct s. unfold Shape.move. cbn. f_equal; lia. Qed.

Lemma move_zero (s : Shape.t) : Shape.move 0 0 s = s.
Proof. destruct s. unfold Shape.move. cbn. f_equal; lia. Qed.

(** Moving the shapes of a duplicate-free list moves each of them once. *)
Lemma moveAll_lookup (ids : list string) dx dy (objects : gmap string Shape.t) k :
  NoDup ids ->
  moveAll ids dx dy objects !! k =
  if decide (k ∈ ids) then Shape.move dx dy <$> objects !! k else objects !! k.
Proof.
  unfold moveAll. revert objects.
  induction ids as [ | i ids IH]; intros objects Hnodup; cbn [foldl].
  - rewrite decide_False by apply not_elem_of_nil. reflexivity.
  - apply NoDup_cons in Hnodup as [Hfresh Hnodup].
    rewrite IH by exact Hnodup.
    destruct (decide (k = i)) as [-> | Hne].
    + rewrite decide_False by exact Hfresh.
      rewrite decide_True by apply list_elem_of_here.
      apply lookup_alter_eq.
    + rewrite lookup_alter_ne by congruence.
      destruct (decide (k ∈ ids)) as [Hin | Hout].
      * rewrite decide_True by (apply list_elem_of_further; exact Hin). reflexivity.
      * rewrite decide_False; [reflexivity | ].
        intros Hin. apply elem_of_cons in Hin as [Heq | Hin]; contradiction.
Qed.

(** The entries of [dragStartPositions] name the selected shapes, when each
    selected shape is an object stored under its own id. *)
Lemma positions_name_selection (objects : gmap string Shape.t) (sel : list string) :
  (forall i, i ∈ sel -> exists s, objects !! i = Some s /\ Shape.id s = i) ->
  map ds_shape
      (map (fun s => mkDragStart (Shape.id s) (Shape.x s) (Shape.y s))
           (omap (fun i => objects !! i) sel)) = sel.
Proof.
  induction sel as [ | i sel IH]; intros Hobjs; [reflexivity | ].
  destruct (Hobjs i) as (s & Hs & Hid); [apply list_elem_of_here | ].
  cbn. rewrite Hs. cbn. rewrite Hid. f_equal.
  apply IH. intros j Hj. apply Hobjs. apply list_elem_of_further. exact Hj.
Qed.

Lemma store_endDrag w : store (endDrag w) = store w.
Proof.
  unfold endDrag. cbv zeta.
  repeat case_match; reflexivity.
Qed.

(** The state of a drag after any number of pointer-moves: the controller
    remembers the last pointer position and the starting positions, and each
    selected shape has moved by the total pointer delta. *)
Lemma dragging_invariant (p0 : Point) (moves : list Point) (w : World)
      (first : string) (rest : list string) (s0 : Shape.t) :
  SelectionManager.getSelectedShapes (selectionManager w) = first :: rest ->
  NoDup (first :: rest) ->
  (forall i, i ∈ first :: rest ->
             exists s, shapeObjects (store w) !! i = Some s /\ Shape.id s = i) ->
  shapeObjects (store w) !! first = Some s0 ->
  let dragged := dragging p0 moves w in
  let pEnd := default p0 (last moves) in
  selectionManager dragged = selectionManager w /\
  commandManager dragged = commandManager w /\
  currentTool (controller dragged) = currentTool (controller w) /\
  dragStartPoint (drag (controller dragged)) = Some pEnd /\
  (exists others,
     dragStartPositions (drag (controller dragged))
     = Some (mkDragStart first (Shape.x s0) (Shape.y s0) :: others) /\
     first :: map ds_shape others = first :: rest) /\
  (forall k,
     shapeObjects (store dragged) !! k =
     if decide (k ∈ first :: rest)
     then Shape.move (px pEnd - px p0) (py pEnd - py p0) <$> shapeObjects (store w) !! k
     else shapeObjects (store w) !! k).
Proof.
  intros Hsel Hnodup Hobjs Hfirst.
  induction moves as [ | p moves IH] using rev_ind; intros dragged pEnd.
  - subst dragged pEnd. unfold dragging. cbn [foldl last default].
    pose proof (positions_name_selection (shapeObjects (store w)) (first :: rest) Hobjs)
      as Hnames.
    destruct (Hobjs first) as (s & Hs & Hid); [apply list_elem_of_here | ].
    assert (s = s0) as -> by congruence.
    unfold startDrag, shapeObjectsOf. rewrite Hsel.
    cbn [omap] in Hnames |- *. unfold omap in Hnames |- *.
    cbn [list_omap] in Hnames |- *. rewrite Hfirst in Hnames |- *.
    cbn in Hnames |- *. rewrite Hid in Hnames |- *.
    split; [reflexivity | split; [reflexivity | split; [reflexivity | ]]].
    split; [reflexivity | split ].
    + eexists. split; [reflexivity | ]. exact Hnames.
    + intros k. rewrite !Z.sub_diag.
      destruct (decide (k ∈ first :: rest)); [ | reflexivity].
      destruct (shapeObjects (store w) !! k); cbn; [ | reflexivity].
      rewrite move_zero. reflexivity.
  - destruct IH as (Hselm & Hcmd & Htool & Hpoint & Hpos & Hlookup).
    subst dragged pEnd. unfold dragging in *. rewrite foldl_snoc, last_snoc.
    set (prev := foldl (fun w p => doDrag p w) (startDrag p0 w) moves) in *.
    cbn [default]. unfold doDrag. rewrite Hpoint. cbv zeta.
    split; [exact Hselm | split; [exact Hcmd | split; [exact Htool | ]]].
    split; [reflexivity | split ].
    + exact Hpos.
    + intros k. cbn. rewrite Hselm, Hsel.
      rewrite moveAll_lookup by exact Hnodup. rewrite Hlookup.
      destruct (decide (k ∈ first :: rest)); [ | reflexivity].
      destruct (shapeObjects (store w) !! k); cbn; [ | reflexivity].
      rewrite move_move. do 2 f_equal; lia.
Qed.

Lemma endDrag_state w : state (controller (endDrag w)) = Idle.
Proof. unfold endDrag. cbv zeta. repeat case_match; reflexivity. Qed.

(** On the integers a drag displaces every selected shape by the total
    pointer delta; [endDrag] leaves the shapes where they are, appends one
    MoveShapes command with that delta when it is not zero and leaves the
    history as it was when it is zero. *)
Lemma integer_drag_records_total_delta (p0 : Point) (moves : list Point) (w : World) :
  let sel := SelectionManager.getSelectedShapes (selectionManager w) in
  sel <> [] ->
  NoDup sel ->
  (forall i, i ∈ sel -> exists s, shapeObjects (store w) !! i = Some s /\ Shape.id s = i) ->
  let pEnd := default p0 (last moves) in
  let dx := px pEnd - px p0 in
  let dy := py pEnd - py p0 in
  let dragged := dragging p0 moves w in
  let w' := endDrag dragged in
  (forall i s, i ∈ sel -> shapeObjects (store w) !! i = Some s ->
               shapeObjects (store dragged) !! i = Some (Shape.move dx dy s)) /\
  store w' = store dragged /\
  (dx <> 0 \/ dy <> 0 ->
     CommandManager.done (commandManager w')
     = CommandManager.done (commandManager w) ++ [MoveShapesCommand sel dx dy]) /\
  (dx = 0 /\ dy = 0 -> commandManager w' = commandManager w) /\
  state (controller w') = Idle.
Proof.
  intros sel Hne Hnodup Hobjs pEnd dx dy dragged w'.
  destruct sel as [ | first rest] eqn:Hsel; [contradiction | ].
  destruct (Hobjs first) as (s0 & Hfirst & Hid); [apply list_elem_of_here | ].
  destruct (dragging_invariant p0 moves w first rest s0 Hsel Hnodup Hobjs Hfirst)
    as (Hselm & Hcmd & Htool & Hpoint & (others & Hpos & Hnames) & Hlookup).
  fold dragged in Hselm, Hcmd, Htool, Hpoint, Hpos, Hlookup.
  fold pEnd in Hpoint, Hlookup. fold dx dy in Hlookup.
  assert (Hmoved : shapeObjects (store dragged) !! first = Some (Shape.move dx dy s0)).
  { rewrite Hlookup, decide_True by apply list_elem_of_here.
    rewrite Hfirst. reflexivity. }
  split; [ | split; [ | split; [ | split ]]].
  - intros i s Hi Hs. rewrite Hlookup, decide_True by exact Hi.
    rewrite Hs. reflexivity.
  - apply store_endDrag.
  - intros Hnonzero. subst w'. unfold endDrag. rewrite Hpos. cbv zeta.
    cbn [ds_shape ds_x ds_y]. rewrite Hmoved.
    cbn [Shape.x Shape.y Shape.move]. rewrite !Z.add_simpl_l.
    assert (Htest : (negb (Z.eqb dx 0) || negb (Z.eqb dy 0))%bool = true).
    { destruct (Z.eqb_spec dx 0), (Z.eqb_spec dy 0); cbn; try reflexivity.
      destruct Hnonzero; contradiction. }
    rewrite Htest.
    assert (Hshapes : map ds_shape (mkDragStart first (Shape.x s0) (Shape.y s0) :: others)
                      = first :: rest) by exact Hnames.
    rewrite Hshapes.
    match goal with
    | |- context [if ?b then _ else _] => destruct b
    end; cbn [commandManager onController setCursor onView onCommands
              CommandManager.addToHistory fst snd];
      rewrite done_record, Hcmd; reflexivity.
  - intros [Hdx Hdy]. subst w'. unfold endDrag. rewrite Hpos. cbv zeta.
    cbn [ds_shape ds_x ds_y]. rewrite Hmoved.
    cbn [Shape.x Shape.y Shape.move]. rewrite !Z.add_simpl_l.
    rewrite Hdx, Hdy. cbn [Z.eqb negb orb].
    match goal with
    | |- context [if ?b then _ else _] => destruct b
    end; exact Hcmd.
  - apply endDrag_state.
Qed.

(** On binary64 numbers: a pointer-move touches neither the starting
    positions nor the history. *)
Lemma doubles_dragging_frame (moves : list Doubles.Point) (w : Doubles.World) :
  let moved := foldl (fun w p => Doubles.doDrag p w) w moves in
  Doubles.dragStartPositions moved = Doubles.dragStartPositions w /\
  Doubles.history moved = Doubles.history w.
Proof.
  induction moves as [ | p moves IH] using rev_ind; [split; reflexivity | ].
  cbv zeta in IH |- *. rewrite foldl_snoc.
  destruct IH as [Hpos Hhist]. rewrite <- Hpos, <- Hhist.
  unfold Doubles.doDrag. case_match; split; reflexivity.
Qed.

Lemma doubles_startDrag_positions (p0 : Doubles.Point) (w : Doubles.World) first rest :
  Doubles.getSelectedShapes w = first :: rest ->
  Doubles.dragStartPositions (Doubles.startDrag p0 w)
  = Some (map (fun s => Doubles.mkDragStart (Doubles.id s) (Doubles.sx s) (Doubles.sy s))
              (first :: rest)) /\
  Doubles.history (Doubles.startDrag p0 w) = Doubles.history w.
Proof.
  intros Hsel. unfold Doubles.startDrag. rewrite Hsel. split; reflexivity.
Qed.

(** C3, as the code has it. On pointer-up [endDrag] leaves the shapes where
    the pointer-moves put them, and the first dragged shape decides about
    the history: if its position differs from the one it had at pointer-down
    in x or in y, exactly one MoveShapes command for the dragged shapes, with
    that difference as delta, is appended; if not, the history is as it was
    before the drag. This holds on the binary64 numbers of the code. When
    the coordinates of the pointer and of the shapes are integers of
    magnitude at most 2^50, where the code's sums are exact, every dragged
    shape is displaced by the total pointer delta: the command is recorded
    exactly when that displacement is not zero and carries it. *)
Theorem drag_gesture_records_move_of_first_shape :
  (forall (p0 : Doubles.Point) (moves : list Doubles.Point) (w : Doubles.World)
          (first : Doubles.Shape) (rest : list Doubles.Shape),
     Doubles.getSelectedShapes w = first :: rest ->
     let dragged := Doubles.dragging p0 moves w in
     let w' := Doubles.endDrag dragged in
     Doubles.shapeObjects w' = Doubles.shapeObjects dragged /\
     Doubles.state w' = Idle /\
     (forall s : Doubles.Shape,
        Doubles.shapeObjects dragged !! Doubles.id first = Some s ->
        let totalDx := PrimFloat.sub (Doubles.sx s) (Doubles.sx first) in
        let totalDy := PrimFloat.sub (Doubles.sy s) (Doubles.sy first) in
        Doubles.history w' =
        if (PrimFloat.eqb totalDx 0 && PrimFloat.eqb totalDy 0)%bool
        then Doubles.history w
        else Doubles.history w ++
             [Doubles.MoveShapesCommand (map Doubles.id (first :: rest)) totalDx totalDy])) /\
  (forall (p0 : Point) (moves : list Point) (w : World),
     let sel := SelectionManager.getSelectedShapes (selectionManager w) in
     sel <> [] ->
     NoDup sel ->
     (forall i, i ∈ sel ->
        exists s, shapeObjects (store w) !! i = Some s /\ Shape.id s = i /\
                  exactRange (Shape.x s) /\ exactRange (Shape.y s)) ->
     Forall (fun p => exactRange (px p) /\ exactRange (py p)) (p0 :: moves) ->
     let pEnd := default p0 (last moves) in
     let dx := px pEnd - px p0 in
     let dy := py pEnd - py p0 in
     let dragged := dragging p0 moves w in
     let w' := endDrag dragged in
     (forall i s, i ∈ sel -> shapeObjects (store w) !! i = Some s ->
                  shapeObjects (store dragged) !! i = Some (Shape.move dx dy s)) /\
     store w' = store dragged /\
     (dx <> 0 \/ dy <> 0 ->
        CommandManager.done (commandManager w')
        = CommandManager.done (commandManager w) ++ [MoveShapesCommand sel dx dy]) /\
     (dx = 0 /\ dy = 0 -> commandManager w' = commandManager w) /\
     state (controller w') = Idle).
Proof.
  split.
  - intros p0 moves w first rest Hsel dragged w'.
    destruct (doubles_startDrag_positions p0 w first rest Hsel) as [Hstart Hhist0].
    destruct (doubles_dragging_frame moves (Doubles.startDrag p0 w)) as [Hpos Hhist].
    cbv zeta in Hpos, Hhist. fold (Doubles.dragging p0 moves w) in Hpos, Hhist.
    fold dragged in Hpos, Hhist. rewrite Hstart in Hpos. rewrite Hhist0 in Hhist.
    split; [reflexivity | split; [reflexivity | ]].
    intros s Hs totalDx totalDy. subst w'. unfold Doubles.endDrag.
    rewrite Hpos. cbn [map Doubles.ds_shape Doubles.ds_x Doubles.ds_y Doubles.history].
    rewrite Hs, Hhist. fold totalDx totalDy.
    rewrite map_map. cbn [Doubles.ds_shape].
    destruct (PrimFloat.eqb totalDx 0), (PrimFloat.eqb totalDy 0); reflexivity.
  - intros p0 moves w sel Hne Hnodup Hobjs _.
    apply integer_drag_records_total_delta; [exact Hne | exact Hnodup | ].
    intros i Hi. destruct (Hobjs i Hi) as (s & Hs & Hid & _). exists s. split; assumption.
Qed.

Lemma drag_gesture_records_move_of_first_shape_witness :
  (let w := Doubles.twoShapes (Doubles.mkShape "A" 0 0) (Doubles.mkShape "B" 200 0) in
   let w' := Doubles.dragGesture (Doubles.mkPoint 10 10)
               [Doubles.mkPoint 15 12; Doubles.mkPoint 40 30] w in
   Doubles.getSelectedShapes w
   = [Doubles.mkShape "A" 0 0; Doubles.mkShape "B" 200 0] /\
   Doubles.shapeObjects w' !! ("A" : string) = Some (Doubles.mkShape "A" 30 20) /\
   Doubles.history w' = [Doubles.MoveShapesCommand ["A"; "B"]%string 30 20]) /\
  (let w := Scenario.bothSelected in
   let dragged := dragging (mkPoint 10 10) [mkPoint 15 12; mkPoint 40 30] w in
   let w' := endDrag dragged in
   SelectionManager.getSelectedShapes (selectionManager w) <> [] /\
   shapeObjects (store dragged) !! ("A" : string) = Some (Shape.move 30 20 Scenario.shapeA) /\
   store w' = store dragged /\
   CommandManager.done (commandManager w')
   = CommandManager.done (commandManager w) ++ [MoveShapesCommand ["A"; "B"]%string 30 20]).
Proof.
  destruct drag_gesture_records_move_of_first_shape as [Hdoubles Hintegers].
  split.
  - intros w w'.
    assert (Hsel : Doubles.getSelectedShapes w
                   = [Doubles.mkShape "A" 0 0; Doubles.mkShape "B" 200 0]) by reflexivity.
    destruct (Hdoubles (Doubles.mkPoint 10 10) [Doubles.mkPoint 15 12; Doubles.mkPoint 40 30]
                       w _ _ Hsel) as (_ & _ & Hhistory).
    split; [exact Hsel | ].
    assert (Hmoved : Doubles.shapeObjects w' !! ("A" : string)
                     = Some (Doubles.mkShape "A" 30 20)) by (vm_compute; reflexivity).
    split; [exact Hmoved | ].
    exact (Hhistory (Doubles.mkShape "A" 30 20) Hmoved).
  - intros w dragged w'.
    assert (Hne : SelectionManager.getSelectedShapes (selectionManager w) <> [])
      by discriminate.
    assert (Hnodup : NoDup (SelectionManager.getSelectedShapes (selectionManager w))).
    { apply (bool_decide_unpack _). vm_compute. exact I. }
    assert (Hrange : forall v, Z.abs v <= 1000 -> exactRange v)
      by (unfold exactRange; intros v Hv; change (2 ^ 50) with 1125899906842624; lia).
    assert (Hobjs : forall i,
               i ∈ SelectionManager.getSelectedShapes (selectionManager w) ->
               exists s, shapeObjects (store w) !! i = Some s /\ Shape.id s = i /\
                         exactRange (Shape.x s) /\ exactRange (Shape.y s)).
    { intros i Hi. cbn in Hi.
      apply elem_of_cons in Hi as [-> | Hi];
        [exists Scenario.shapeA; repeat split; try reflexivity; apply Hrange; cbn; lia | ].
      apply elem_of_cons in Hi as [-> | Hi];
        [exists Scenario.shapeB; repeat split; try reflexivity; apply Hrange; cbn; lia | ].
      apply not_elem_of_nil in Hi. destruct Hi. }
    assert (Hpoints : Forall (fun p => exactRange (px p) /\ exactRange (py p))
                             [mkPoint 10 10; mkPoint 15 12; mkPoint 40 30]).
    { repeat (apply Forall_cons; split; [split; apply Hrange; cbn; lia | ]).
      apply Forall_nil. exact I. }
    split; [exact Hne | ].
    destruct (Hintegers (mkPoint 10 10) [mkPoint 15 12; mkPoint 40 30] w
                Hne Hnodup Hobjs Hpoints) as (Hmoved & Hstore & Hrecord & _ & _).
    split; [ | split; [exact Hstore | ]].
    + apply (Hmoved "A" Scenario.shapeA); [apply list_elem_of_here | reflexivity].
    + apply Hrecord. left. cbn. discriminate.
Defined.

(** C3 as stated fails on the numbers of the code. Two shapes A at x = 0 and
    B at x = 200 are dragged along x = 2.4, 3.2, 0.8 and back to 2.4. B is
    where it was, A is not: it ends at -2.2e-16. With B the first of the
    dragged shapes no command is recorded although A is displaced; with A
    the first a command is recorded whose delta is not B's displacement. *)
Lemma drag_of_two_shapes_drifts_by_rounding :
  let A := Doubles.mkShape "A" 0 0 in
  let B := Doubles.mkShape "B" 200 0 in
  let p0 := Doubles.mkPoint Doubles.d2_4 0 in
  let moves := [Doubles.mkPoint Doubles.d3_2 0; Doubles.mkPoint Doubles.d0_8 0;
                Doubles.mkPoint Doubles.d2_4 0] in
  let firstB := Doubles.dragGesture p0 moves (Doubles.twoShapes B A) in
  let firstA := Doubles.dragGesture p0 moves (Doubles.twoShapes A B) in
  (Doubles.history firstB = [] /\
   exists s, Doubles.shapeObjects firstB !! ("A" : string) = Some s /\
             PrimFloat.eqb (Doubles.sx s) (Doubles.sx A) = false) /\
  (exists dx, Doubles.history firstA = [Doubles.MoveShapesCommand ["A"; "B"]%string dx 0] /\
              PrimFloat.eqb dx 0 = false /\
              Doubles.shapeObjects firstA !! ("B" : string) = Some B).
Proof.
  split.
  - split; [vm_compute; reflexivity | ].
    eexists. split; vm_compute; reflexivity.
  - eexists. split; [vm_compute; reflexivity | split; vm_compute; reflexivity].
Qed.

(** ** Pointer events during a gesture *)

Lemma controller_doDrag_state point w :
  state (controller (doDrag point w)) = state (controller w) /\
  isDragging (drag (controller (doDrag point w))) = isDragging (drag (controller w)).
Proof. unfold doDrag. case_match; split; reflexivity. Qed.

(** While shapes are dragged, a pointer-move is [doDrag]. *)
Lemma handleCanvasMouseMove_dragging point target w :
  isDragging (drag (controller w)) = true ->
  state (controller w) = Dragging ->
  handleCanvasMouseMove point target w = doDrag point w.
Proof.
  intros Hflag Hstate. unfold handleCanvasMouseMove.
  rewrite Hflag, Hstate. cbn [andb]. rewrite bool_decide_eq_true_2 by reflexivity.
  cbv zeta.
  destruct (controller_doDrag_state point w) as [Hs _].
  repeat (first [ rewrite Hs | rewrite Hstate
                | rewrite bool_decide_eq_false_2 by discriminate
                | rewrite andb_false_r ]; cbv beta iota).
  reflexivity.
Qed.

(** While shapes are dragged, the pointer-up is [endDrag]. *)
Lemma handleMouseUp_dragging point target w :
  isDragging (drag (controller w)) = true ->
  state (controller w) = Dragging ->
  handleMouseUp point target w = endDrag w.
Proof.
  intros Hflag Hstate. unfold handleMouseUp.
  rewrite Hflag, Hstate. cbn [andb]. rewrite bool_decide_eq_true_2 by reflexivity.
  cbv zeta.
  repeat (first [ rewrite endDrag_state
                | rewrite bool_decide_eq_false_2 by discriminate
                | rewrite andb_false_r ]; cbv beta iota).
  reflexivity.
Qed.

(** While an end of a connection is dragged, the pointer-up is
    [endEndpointDrag]. *)
Lemma handleMouseUp_draggingEndpoint point target w :
  draggingEndpoint (endpoint (controller w)) = true ->
  state (controller w) = DraggingEndpoint ->
  handleMouseUp point target w = endEndpointDrag point target w.
Proof.
  intros Hflag Hstate. unfold handleMouseUp.
  cbv zeta.
  repeat (first [ rewrite Hstate | rewrite Hflag
                | rewrite bool_decide_eq_false_2 by discriminate
                | rewrite bool_decide_eq_true_2 by reflexivity
                | rewrite andb_false_r ]; cbv beta iota).
  reflexivity.
Qed.

(** With the connector tool of the active plugin, a canvas click is
    [handleConnectorToolClick]. *)
Lemma handleCanvasClicked_connector plugin newId point target shiftKey ctrlKey w def :
  currentTool (controller w) <> "select"%string ->
  currentTool (controller w) <> "delete"%string ->
  Plugin.shapeDef (currentTool (controller w)) (Plugin.getShapeDefinitions plugin) = None ->
  Plugin.connectorDef (currentTool (controller w)) (Plugin.getConnectorTypes plugin)
  = Some def ->
  handleCanvasClicked (Some plugin) newId point target shiftKey ctrlKey w
  = handleConnectorToolClick plugin newId point target w.
Proof.
  intros Hselect Hdelete Hshape Hconn. unfold handleCanvasClicked. cbv zeta.
  destruct (String.eqb_spec (currentTool (controller w)) "select"); [contradiction | ].
  destruct (String.eqb_spec (currentTool (controller w)) "delete"); [contradiction | ].
  rewrite Hshape, Hconn. reflexivity.
Qed.

(** * Further properties *)

(** ** Resizing a shape *)

Lemma setBounds_bounds (s : Shape.t) : Shape.setBounds (Shape.bounds s) s = s.
Proof. destruct s. reflexivity. Qed.

Lemma boundsDiffer_false (a b : Bounds) : boundsDiffer a b = false <-> a = b.
Proof.
  destruct a as [ax ay aw ah], b as [x y w h]. unfold boundsDiffer. cbn.
  destruct (Z.eqb_spec ax x), (Z.eqb_spec ay y), (Z.eqb_spec aw w), (Z.eqb_spec ah h);
    cbn; split; intros H; try discriminate; try congruence.
Qed.

Lemma resizing_invariant (shape : Shape.t) (handleId : string) (p0 : Point)
      (moves : list Point) (w : World) :
  shapeObjects (store w) !! Shape.id shape = Some shape ->
  let resized := resizing shape handleId p0 moves w in
  resize (controller resized)
  = mkResizeState true (Some handleId) (Some (Shape.bounds shape)) (Some (Shape.id shape)) /\
  dragStartPoint (drag (controller resized)) = Some p0 /\
  state (controller resized) = Resizing /\
  commandManager resized = commandManager w /\
  selectionManager resized = selectionManager w /\
  connectionObjects (store resized) = connectionObjects (store w) /\
  diagram (store resized) = diagram (store w) /\
  shapeObjects (store resized)
  = <[Shape.id shape := Shape.setBounds (resizedBounds shape handleId p0 moves) shape]>
      (shapeObjects (store w)).
Proof.
  intros Hobj.
  induction moves as [ | p moves IH] using rev_ind; intros resized.
  - subst resized. unfold resizing, resizedBounds. cbn [foldl last].
    repeat split; try reflexivity.
    rewrite setBounds_bounds. cbn. symmetry. apply insert_id. exact Hobj.
  - destruct IH as (Hres & Hpoint & Hstate & Hcmd & Hsel & Hconn & Hdiag & Hshapes).
    subst resized. unfold resizing in *. rewrite foldl_snoc.
    set (prev := foldl (fun w p => doResize p w) (startResize shape handleId p0 w) moves) in *.
    unfold doResize. rewrite Hres, Hpoint. cbn [resizingShape resizeStartBounds resizeHandle].
    cbv zeta. unfold resizedBounds. rewrite last_snoc.
    repeat split; try assumption.
    cbn. rewrite Hshapes. apply map_eq. intros k.
    destruct (decide (k = Shape.id shape)) as [-> | Hne].
    + rewrite lookup_alter_eq, !lookup_insert_eq. reflexivity.
    + rewrite lookup_alter_ne by congruence.
      rewrite !lookup_insert_ne by congruence. reflexivity.
Qed.

(** X1. During a resize the shape's bounds are always those
    [calculateNewBounds] gives from the bounds at pointer-down and the
    pointer's total offset: earlier pointer-moves leave no trace, the
    minimum size holds, and no other shape and no history entry changes. *)
Theorem resize_applies_bounds_from_original :
  forall (shape : Shape.t) (handleId : string) (p0 p : Point) (moves : list Point)
         (w : World),
    shapeObjects (store w) !! Shape.id shape = Some shape ->
    last moves = Some p ->
    let resized := resizing shape handleId p0 moves w in
    let b := calculateNewBounds (Shape.bounds shape) handleId
                                (px p - px p0) (py p - py p0) in
    shapeObjects (store resized) !! Shape.id shape = Some (Shape.setBounds b shape) /\
    40 <= bwidth b /\ 30 <= bheight b /\
    (forall k, k <> Shape.id shape ->
               shapeObjects (store resized) !! k = shapeObjects (store w) !! k) /\
    commandManager resized = commandManager w.
Proof.
  intros shape handleId p0 p moves w Hobj Hlast resized b.
  destruct (resizing_invariant shape handleId p0 moves w Hobj)
    as (_ & _ & _ & Hcmd & _ & _ & _ & Hshapes).
  fold resized in Hcmd, Hshapes.
  unfold resizedBounds in Hshapes. rewrite Hlast in Hshapes. fold b in Hshapes.
  destruct (calculateNewBounds_floor (Shape.bounds shape) handleId
              (px p - px p0) (py p - py p0)) as [Hw Hh].
  split; [rewrite Hshapes; apply lookup_insert_eq | ].
  split; [exact Hw | split; [exact Hh | split; [ | exact Hcmd]]].
  intros k Hne. rewrite Hshapes. apply lookup_insert_ne. congruence.
Qed.

Lemma resize_applies_bounds_from_original_witness :
  let w := Scenario.world "select" in
  let resized := resizing Scenario.shapeA "se" (mkPoint 120 50)
                          [mkPoint 500 500; mkPoint 150 60] w in
  shapeObjects (store w) !! Shape.id Scenario.shapeA = Some Scenario.shapeA /\
  shapeObjects (store resized) !! ("A" : string)
  = Some (Shape.mk "A" "object" 0 0 150 60).
Proof.
  intros w resized.
  assert (Hobj : shapeObjects (store w) !! Shape.id Scenario.shapeA = Some Scenario.shapeA)
    by reflexivity.
  split; [exact Hobj | ].
  exact (proj1 (resize_applies_bounds_from_original Scenario.shapeA "se" (mkPoint 120 50)
                  (mkPoint 150 60) [mkPoint 500 500; mkPoint 150 60] w Hobj eq_refl)).
Defined.

(** X2. The pointer-up of a resize leaves the shape as the last pointer-move
    made it. If those bounds differ from the bounds at pointer-down, exactly
    one ResizeShape command with the two is appended to the done history; if
    they are the same, the history is as before. The controller is idle and
    its resize fields are cleared. *)
Theorem resize_gesture_records_one_resize :
  forall (shape : Shape.t) (handleId : string) (p0 : Point) (moves : list Point)
         (w : World),
    shapeObjects (store w) !! Shape.id shape = Some shape ->
    let resized := resizing shape handleId p0 moves w in
    let final := resizedBounds shape handleId p0 moves in
    let w' := endResize resized in
    store w' = store resized /\
    (final <> Shape.bounds shape ->
       CommandManager.done (commandManager w')
       = CommandManager.done (commandManager w)
         ++ [ResizeShapeCommand (Shape.id shape) (Shape.bounds shape) final]) /\
    (final = Shape.bounds shape -> commandManager w' = commandManager w) /\
    state (controller w') = Idle /\
    resize (controller w') = mkResizeState false None None None.
Proof.
  intros shape handleId p0 moves w Hobj resized final w'.
  destruct (resizing_invariant shape handleId p0 moves w Hobj)
    as (Hres & _ & _ & Hcmd & _ & _ & _ & Hshapes).
  fold resized in Hres, Hcmd, Hshapes. fold final in Hshapes.
  assert (Hnow : shapeObjects (store resized) !! Shape.id shape
                 = Some (Shape.setBounds final shape))
    by (rewrite Hshapes; apply lookup_insert_eq).
  subst w'. unfold endResize. rewrite Hres.
  cbn [resizingShape resizeStartBounds]. rewrite Hnow. cbv zeta.
  change (Shape.bounds (Shape.setBounds final shape)) with
    (mkBounds (bx final) (by_ final) (bwidth final) (bheight final)).
  replace (mkBounds (bx final) (by_ final) (bwidth final) (bheight final))
    with final by (destruct final; reflexivity).
  destruct (boundsDiffer final (Shape.bounds shape)) eqn:Hdiff.
  - assert (Hne : final <> Shape.bounds shape).
    { intros Heq. apply boundsDiffer_false in Heq. congruence. }
    split; [reflexivity | split; [ | split; [ | split ]]]; try reflexivity.
    + intros _. cbn [commandManager onController setCursor onView onCommands
                     CommandManager.addToHistory fst snd].
      rewrite done_record, Hcmd. reflexivity.
    + intros Heq. contradiction.
  - apply boundsDiffer_false in Hdiff.
    split; [reflexivity | split; [ | split; [ | split ]]]; try reflexivity.
    + intros Hne. contradiction.
    + intros _. exact Hcmd.
Qed.

Lemma resize_gesture_records_one_resize_witness :
  let w := Scenario.world "select" in
  let resized := resizing Scenario.shapeA "se" (mkPoint 120 50)
                          [mkPoint 500 500; mkPoint 150 60] w in
  let w' := endResize resized in
  shapeObjects (store w) !! Shape.id Scenario.shapeA = Some Scenario.shapeA /\
  CommandManager.done (commandManager w')
  = [ResizeShapeCommand "A" (mkBounds 0 0 120 50) (mkBounds 0 0 150 60)].
Proof.
  intros w resized w'.
  assert (Hobj : shapeObjects (store w) !! Shape.id Scenario.shapeA = Some Scenario.shapeA)
    by reflexivity.
  split; [exact Hobj | ].
  destruct (resize_gesture_records_one_resize Scenario.shapeA "se" (mkPoint 120 50)
              [mkPoint 500 500; mkPoint 150 60] w Hobj) as (_ & Hrecord & _).
  apply Hrecord. cbn. discriminate.
Defined.

Lemma calculateNewBounds_above_floor original handleId dx dy :
  40 <= bwidth (applyHandle original handleId dx dy) ->
  30 <= bheight (applyHandle original handleId dx dy) ->
  calculateNewBounds original handleId dx dy = applyHandle original handleId dx dy.
Proof.
  intros Hw Hh. unfold calculateNewBounds, minW, minH. cbv zeta.
  destruct (Z.ltb_spec (bwidth (applyHandle original handleId dx dy)) 40); [lia | ].
  destruct (Z.ltb_spec (bheight (applyHandle original handleId dx dy)) 30); [lia | ].
  destruct (applyHandle original handleId dx dy). reflexivity.
Qed.

Lemma applyHandle_zero original handleId : applyHandle original handleId 0 0 = original.
Proof.
  unfold applyHandle. destruct original as [x y w h]. cbn.
  repeat match goal with
         | |- context [String.eqb ?a ?b] => destruct (String.eqb a b)
         end;
    f_equal; lia.
Qed.

Lemma applyHandle_unknown original handleId dx dy :
  handleId ∉ resizeHandles -> applyHandle original handleId dx dy = original.
Proof.
  intros Hout. unfold applyHandle.
  repeat match goal with
         | |- context [String.eqb handleId ?b] =>
             destruct (String.eqb_spec handleId b) as [-> | _];
             [exfalso; apply Hout; unfold resizeHandles; apply list_elem_of_In;
              cbn; tauto | ]
         end.
  reflexivity.
Qed.

(** X3. For bounds that meet the minimum size, [calculateNewBounds] gives
    the same bounds back when the pointer has not moved, whatever the handle,
    and when the handle id is none of the eight, whatever the pointer
    delta. *)
Theorem calculateNewBounds_fixed_points :
  forall (original : Bounds) (handleId : string) (dx dy : Z),
    40 <= bwidth original ->
    30 <= bheight original ->
    (dx = 0 /\ dy = 0) \/ handleId ∉ resizeHandles ->
    calculateNewBounds original handleId dx dy = original.
Proof.
  intros original handleId dx dy Hw Hh Hcase.
  assert (Hsame : applyHandle original handleId dx dy = original).
  { destruct Hcase as [[-> ->] | Hout];
      [apply applyHandle_zero | apply applyHandle_unknown; exact Hout]. }
  rewrite calculateNewBounds_above_floor; rewrite Hsame; assumption || reflexivity.
Qed.

Lemma calculateNewBounds_fixed_points_witness :
  40 <= bwidth (mkBounds 10 10 100 50) /\
  30 <= bheight (mkBounds 10 10 100 50) /\
  calculateNewBounds (mkBounds 10 10 100 50) "nw" 0 0 = mkBounds 10 10 100 50.
Proof.
  assert (Hw : 40 <= bwidth (mkBounds 10 10 100 50)) by (cbn; lia).
  assert (Hh : 30 <= bheight (mkBounds 10 10 100 50)) by (cbn; lia).
  split; [exact Hw | split; [exact Hh | ]].
  exact (calculateNewBounds_fixed_points (mkBounds 10 10 100 50) "nw" 0 0 Hw Hh
           (or_introl (conj eq_refl eq_refl))).
Defined.

(** X4. The floor of 40 by 30 is the controller's own: it does not read the
    minimum size a shape class sets. Of the sequence plugin's shapes, the
    activation bar, the destroy marker and the message endpoint are smaller
    than the floor at their default size, so no resize, with any handle and
    any pointer delta, leaves them at that size; the other shapes keep their
    default size when the pointer has not moved. *)
Theorem resize_floor_overrides_small_defaults :
  forall (type : string) (d : Plugin.ShapeDefinition),
    (type, d) ∈ SequencePlugin.getShapeDefinitions ->
    forall (x y : Z) (handleId : string),
      (type ∈ ["activation"; "destroy"; "endpoint"]%string ->
       forall dx dy : Z,
         calculateNewBounds (SequenceCatalog.defaultBounds d x y) handleId dx dy
         <> SequenceCatalog.defaultBounds d x y) /\
      (type ∉ ["activation"; "destroy"; "endpoint"]%string ->
       calculateNewBounds (SequenceCatalog.defaultBounds d x y) handleId 0 0
       = SequenceCatalog.defaultBounds d x y).
Proof.
  intros type d Hin x y handleId.
  assert (Hsmall : forall dx dy,
            Plugin.defaultWidth d < 40 ->
            calculateNewBounds (SequenceCatalog.defaultBounds d x y) handleId dx dy
            <> SequenceCatalog.defaultBounds d x y).
  { intros dx dy Hlt Heq.
    destruct (calculateNewBounds_floor (SequenceCatalog.defaultBounds d x y)
                handleId dx dy) as [Hw _].
    rewrite Heq in Hw. unfold minW in Hw. cbn in Hw. lia. }
  apply list_elem_of_In in Hin. cbn [In SequencePlugin.getShapeDefinitions] in Hin.
  repeat (destruct Hin as [Hin | Hin]; [injection Hin as <- <- | ]); [ .. | destruct Hin].
  all: split; intros Hkind.
  all: try (intros dx dy; apply Hsmall; cbn; lia).
  all: try (rewrite calculateNewBounds_above_floor; rewrite applyHandle_zero;
            first [reflexivity | cbn; lia]).
  all: exfalso.
  all: try (apply list_elem_of_In in Hkind; cbn in Hkind; intuition discriminate).
  all: apply Hkind; apply list_elem_of_In; cbn; tauto.
Qed.

Lemma resize_floor_overrides_small_defaults_witness :
  let d := Plugin.mkShapeDefinition "activation" "Activation Bar" 16 60
             ["left"; "right"]%string in
  (("activation" : string), d) ∈ SequencePlugin.getShapeDefinitions /\
  calculateNewBounds (SequenceCatalog.defaultBounds d 100 100) "s" 0 0
  <> SequenceCatalog.defaultBounds d 100 100.
Proof.
  intros d.
  assert (Hin : (("activation" : string), d) ∈ SequencePlugin.getShapeDefinitions)
    by (apply list_elem_of_In; cbn; tauto).
  split; [exact Hin | ].
  apply (proj1 (resize_floor_overrides_small_defaults "activation" d Hin 100 100 "s")).
  apply list_elem_of_In. cbn. tauto.
Defined.

(** ** The select tool *)

Lemma startDrag_frame point w :
  store (startDrag point w) = store w /\
  commandManager (startDrag point w) = commandManager w /\
  selectionManager (startDrag point w) = selectionManager w /\
  console (startDrag point w) = console w /\
  currentTool (controller (startDrag point w)) = currentTool (controller w).
Proof. unfold startDrag. case_match; repeat split; reflexivity. Qed.

(** X5. A click with the select tool changes neither the model nor the
    command history, whatever is under the pointer: selecting, and starting a
    drag, a resize or an endpoint drag, are not recorded and move nothing. *)
Theorem handleSelectClick_never_mutates :
  forall (point : Point) (target : Dom.Target) (shiftKey ctrlKey : bool) (w : World),
    let w' := handleSelectClick point target shiftKey ctrlKey w in
    store w' = store w /\
    commandManager w' = commandManager w /\
    console w' = console w /\
    currentTool (controller w') = currentTool (controller w).
Proof.
  intros point target shiftKey ctrlKey w w'. subst w'.
  unfold handleSelectClick. cbv zeta.
  repeat case_match;
    repeat match goal with
           | |- context [startDrag ?p ?v] =>
               let H := fresh in
               pose proof (startDrag_frame p v) as H;
               destruct H as (-> & -> & _ & -> & ->)
           end;
    repeat split; reflexivity.
Qed.

Lemma handleSelectClick_body point target shiftKey ctrlKey w shapeElement shape :
  Dom.closest "resize-handle" target = None ->
  Dom.closest "connector__endpoint" target = None ->
  Dom.closest "shape" target = Some shapeElement ->
  getShape (store w) (Dom.data "id" shapeElement) = Some shape ->
  handleSelectClick point target shiftKey ctrlKey w =
  startDrag point
    (if (shiftKey || ctrlKey)%bool
     then onSelection (SelectionManager.toggleShape (Shape.id shape)) w
     else onSelection (SelectionManager.selectShape (Shape.id shape)) w).
Proof.
  intros Hhandle Hend Hshape Hget. unfold handleSelectClick.
  rewrite Hhandle, Hend, Hshape, Hget. reflexivity.
Qed.

(** X6. A plain click with the select tool on a shape of the diagram, away
    from resize and endpoint handles, makes that shape the whole selection
    and starts a drag: the controller is in [dragging], with the click point
    as the drag's start and the shape's position as its only starting
    position. *)
Theorem plain_click_on_shape_selects_and_drags :
  forall (point : Point) (target shapeElement : Dom.Target) (shape : Shape.t) (w : World),
    Dom.closest "resize-handle" target = None ->
    Dom.closest "connector__endpoint" target = None ->
    Dom.closest "shape" target = Some shapeElement ->
    getShape (store w) (Dom.data "id" shapeElement) = Some shape ->
    shapeObjects (store w) !! Shape.id shape = Some shape ->
    let w' := handleSelectClick point target false false w in
    selectionManager w' = SelectionManager.mk [Shape.id shape] [] /\
    state (controller w') = Dragging /\
    drag (controller w')
    = mkDragState (Some point) true
                  (Some [mkDragStart (Shape.id shape) (Shape.x shape) (Shape.y shape)]) /\
    Dom.cursor (view w') = "move"%string.
Proof.
  intros point target shapeElement shape w Hhandle Hend Hshape Hget Hobj w'. subst w'.
  rewrite (handleSelectClick_body point target false false w shapeElement shape
             Hhandle Hend Hshape Hget).
  cbn [orb]. unfold startDrag, shapeObjectsOf. cbn. rewrite Hobj. cbn.
  repeat split; reflexivity.
Qed.

Lemma plain_click_on_shape_selects_and_drags_witness :
  let w := Scenario.world "select" in
  let w' := handleSelectClick (mkPoint 230 20) Scenario.onB false false w in
  getShape (store w) (Dom.data "id" Scenario.onB) = Some Scenario.shapeB /\
  selectionManager w' = SelectionManager.mk ["B"%string] [] /\
  state (controller w') = Dragging /\
  drag (controller w')
  = mkDragState (Some (mkPoint 230 20)) true (Some [mkDragStart "B" 200 0]).
Proof.
  intros w w'.
  assert (Hget : getShape (store w) (Dom.data "id" Scenario.onB) = Some Scenario.shapeB)
    by reflexivity.
  split; [exact Hget | ].
  destruct (plain_click_on_shape_selects_and_drags (mkPoint 230 20) Scenario.onB
              Scenario.onB Scenario.shapeB w eq_refl eq_refl eq_refl Hget eq_refl)
    as (Hsel & Hstate & Hdrag & _).
  split; [exact Hsel | split; [exact Hstate | exact Hdrag]].
Defined.

(** X7. A click with Shift or Ctrl held on the one selected shape takes it
    out of the selection and starts no drag: [startDrag] returns at once for
    an empty selection, and the controller is as it was. *)
Theorem modifier_click_on_sole_selection_starts_no_drag :
  forall (point : Point) (target shapeElement : Dom.Target) (shape : Shape.t)
         (shiftKey ctrlKey : bool) (w : World),
    Dom.closest "resize-handle" target = None ->
    Dom.closest "connector__endpoint" target = None ->
    Dom.closest "shape" target = Some shapeElement ->
    getShape (store w) (Dom.data "id" shapeElement) = Some shape ->
    SelectionManager.selectedShapes (selectionManager w) = [Shape.id shape] ->
    (shiftKey || ctrlKey)%bool = true ->
    let w' := handleSelectClick point target shiftKey ctrlKey w in
    SelectionManager.getSelectedShapes (selectionManager w') = [] /\
    controller w' = controller w /\
    view w' = view w.
Proof.
  intros point target shapeElement shape shiftKey ctrlKey w
         Hhandle Hend Hshape Hget Hsel Hmod w'. subst w'.
  rewrite (handleSelectClick_body point target shiftKey ctrlKey w shapeElement shape
             Hhandle Hend Hshape Hget).
  rewrite Hmod. unfold startDrag, shapeObjectsOf.
  assert (Hoff : SelectionManager.toggleShape (Shape.id shape) (selectionManager w)
                 = SelectionManager.mk [] (SelectionManager.selectedConnections
                                             (selectionManager w))).
  { unfold SelectionManager.toggleShape. rewrite Hsel.
    rewrite decide_True by apply list_elem_of_here.
    cbn. rewrite decide_False by (intros Hne; apply Hne; reflexivity). reflexivity. }
  unfold onSelection. cbn [selectionManager store]. rewrite Hoff.
  cbn. repeat split; reflexivity.
Qed.

Lemma modifier_click_on_sole_selection_starts_no_drag_witness :
  let w := onSelection (SelectionManager.selectShape "B") (Scenario.world "select") in
  let w' := handleSelectClick (mkPoint 230 20) Scenario.onB true false w in
  SelectionManager.selectedShapes (selectionManager w) = ["B"%string] /\
  SelectionManager.getSelectedShapes (selectionManager w') = [] /\
  controller w' = controller w.
Proof.
  intros w w'.
  assert (Hsel : SelectionManager.selectedShapes (selectionManager w) = ["B"%string])
    by reflexivity.
  split; [exact Hsel | ].
  destruct (modifier_click_on_sole_selection_starts_no_drag (mkPoint 230 20) Scenario.onB
              Scenario.onB Scenario.shapeB true false w
              eq_refl eq_refl eq_refl eq_refl Hsel eq_refl) as (Hnone & Hctl & _).
  split; [exact Hnone | exact Hctl].
Defined.

(** X8. A resize handle has priority over everything else under the
    pointer. When the handle names its handle id and its shape is found,
    through the [data-shape-id] of the enclosing handle group or, without
    one, as the primary selection, the click starts a resize of that shape
    and leaves the selection as it is. *)
Theorem resize_handle_click_has_priority :
  forall (point : Point) (target handleElement : Dom.Target) (handleId : string)
         (shape : Shape.t) (shiftKey ctrlKey : bool) (w : World),
    Dom.closest "resize-handle" target = Some handleElement ->
    Dom.data "handle" handleElement = Some handleId ->
    handleId <> ""%string ->
    let owner := Dom.closest "resize-handles" handleElement ≫= Dom.data "shapeId" in
    (truthyString owner = true /\ getShape (store w) owner = Some shape) \/
    (truthyString owner = false /\
     exists primary,
       SelectionManager.getPrimarySelection (selectionManager w) = Some primary /\
       shapeObjects (store w) !! primary = Some shape) ->
    let w' := handleSelectClick point target shiftKey ctrlKey w in
    w' = startResize shape handleId point w /\
    state (controller w') = Resizing /\
    resize (controller w')
    = mkResizeState true (Some handleId) (Some (Shape.bounds shape)) (Some (Shape.id shape)) /\
    selectionManager w' = selectionManager w.
Proof.
  intros point target handleElement handleId shape shiftKey ctrlKey w
         Hhandle Hid Hne owner Hroute w'.
  assert (Heq : w' = startResize shape handleId point w).
  { subst w'. unfold handleSelectClick. rewrite Hhandle, Hid. fold owner.
    assert (Htruthy : truthyString (Some handleId) = true).
    { cbn. destruct (String.eqb_spec handleId ""); [contradiction | reflexivity]. }
    rewrite Htruthy.
    destruct Hroute as [(Hown & Hget) | (Hown & primary & Hprim & Hobj)]; rewrite Hown.
    - rewrite Hget. reflexivity.
    - rewrite Hprim. cbn. rewrite Hobj. reflexivity. }
  rewrite Heq. repeat split; reflexivity.
Qed.

Lemma resize_handle_click_has_priority_witness :
  let w := Scenario.world "select" in
  let w' := handleSelectClick (mkPoint 120 50) Handles.onHandleOfA false false w in
  Dom.closest "resize-handle" Handles.onHandleOfA = Some Handles.onHandleOfA /\
  state (controller w') = Resizing /\
  resize (controller w')
  = mkResizeState true (Some "se"%string) (Some (mkBounds 0 0 120 50)) (Some "A"%string).
Proof.
  intros w w'.
  assert (Hhit : Dom.closest "resize-handle" Handles.onHandleOfA
                 = Some Handles.onHandleOfA) by reflexivity.
  split; [exact Hhit | ].
  assert (Hne : ("se" : string) <> ""%string) by discriminate.
  destruct (resize_handle_click_has_priority (mkPoint 120 50) Handles.onHandleOfA
              Handles.onHandleOfA "se" Scenario.shapeA false false w Hhit eq_refl Hne
              (or_introl (conj eq_refl eq_refl))) as (_ & Hstate & Hresize & _).
  split; [exact Hstate | exact Hresize].
Defined.

(** ** More of the keyboard *)

(** X9. A key with no binding does nothing: unless the key is Delete,
    Backspace or Escape, or "z" or "y" with Ctrl or Meta, or lower-cases to
    "v" or "h" with none of Ctrl, Meta and Alt held, [handleKeyDown] leaves
    the controller, the model, the selection and the history as they are. *)
Theorem unbound_key_does_nothing :
  forall (e : KeyEvent) (w : World),
    key e ∉ ["Delete"; "Backspace"; "Escape"]%string ->
    (key e = "z"%string \/ key e = "y"%string -> ctrlKey e = false /\ metaKey e = false) ->
    (ctrlKey e = false /\ metaKey e = false /\ altKey e = false ->
     Js.toLowerCase (key e) <> "v"%string /\ Js.toLowerCase (key e) <> "h"%string) ->
    handleKeyDown e w = w.
Proof.
  intros e w Hkeys Hundo Htools.
  assert (Hbefore : beforeShortcuts e w = w).
  { unfold beforeShortcuts.
    destruct (String.eqb_spec (key e) "Delete") as [Hk | _];
      [exfalso; apply Hkeys; rewrite Hk; apply list_elem_of_In; cbn; tauto | ].
    destruct (String.eqb_spec (key e) "Backspace") as [Hk | _];
      [exfalso; apply Hkeys; rewrite Hk; apply list_elem_of_In; cbn; tauto | ].
    destruct (String.eqb_spec (key e) "Escape") as [Hk | _];
      [exfalso; apply Hkeys; rewrite Hk; apply list_elem_of_In; cbn; tauto | ].
    cbn [orb]. cbv zeta.
    destruct (String.eqb_spec (key e) "z") as [Hk | _];
      [destruct (Hundo (or_introl Hk)) as [Hc Hm]; rewrite ?Hc, ?Hm | ];
      (destruct (String.eqb_spec (key e) "y") as [Hk' | _];
       [destruct (Hundo (or_intror Hk')) as [Hc' Hm']; rewrite ?Hc', ?Hm' | ]);
      reflexivity. }
  rewrite handleKeyDown_shortcuts, Hbefore.
  destruct (ctrlKey e) eqn:Hc; [reflexivity | ].
  destruct (metaKey e) eqn:Hm; [reflexivity | ].
  destruct (altKey e) eqn:Ha; [reflexivity | ].
  cbn [negb andb].
  destruct (Htools (conj eq_refl (conj eq_refl eq_refl))) as [Hv Hh].
  destruct (String.eqb_spec (Js.toLowerCase (key e)) "v"); [contradiction | ].
  destruct (String.eqb_spec (Js.toLowerCase (key e)) "h"); [contradiction | ].
  reflexivity.
Qed.

Lemma unbound_key_does_nothing_witness :
  let e := mkKeyEvent "v" true false false false in
  (key e ∉ ["Delete"; "Backspace"; "Escape"]%string) /\
  handleKeyDown e (Scenario.world "pan") = Scenario.world "pan".
Proof.
  intros e.
  assert (Hkeys : key e ∉ ["Delete"; "Backspace"; "Escape"]%string).
  { intros Hin. apply list_elem_of_In in Hin. cbn in Hin. intuition discriminate. }
  split; [exact Hkeys | ].
  apply (unbound_key_does_nothing e (Scenario.world "pan") Hkeys).
  - cbn. intros [H | H]; discriminate H.
  - cbn. intros (H & _). discriminate H.
Defined.

Lemma removeAll_frame (ids : list string) (w : World) :
  let w' := foldl (fun w shape =>
                     onCommands (CommandManager.execute (RemoveShapeCommand shape)) w)
                  w ids in
  controller w' = controller w /\
  selectionManager w' = selectionManager w /\
  view w' = view w /\
  shapeObjects (store w') = shapeObjects (store w) /\
  CommandManager.done (commandManager w')
  = CommandManager.done (commandManager w) ++ map RemoveShapeCommand ids.
Proof.
  revert w. induction ids as [ | i ids IH]; intros w; cbn [foldl map].
  - rewrite app_nil_r. repeat split; reflexivity.
  - destruct (IH (onCommands (CommandManager.execute (RemoveShapeCommand i)) w))
      as (Hc & Hs & Hv & Ho & Hd).
    cbv zeta in *. rewrite Hc, Hs, Hv, Ho, Hd.
    repeat split; try reflexivity.
    cbn [onCommands commandManager CommandManager.execute fst].
    rewrite done_record, <- app_assoc. reflexivity.
Qed.



(** X11. Escape puts the controller in [idle], drops the pending connection
    source and the drag in progress, clears the selection and removes the
    connection preview. It changes neither the model nor the history nor the
    tool, and it leaves the resize and endpoint-drag fields as they are. *)
Theorem escape_resets_to_idle :
  forall (e : KeyEvent) (w : World),
    key e = "Escape"%string ->
    let w' := handleKeyDown e w in
    state (controller w') = Idle /\
    connection (controller w') = mkConnectionState None None /\
    isDragging (drag (controller w')) = false /\
    dragStartPoint (drag (controller w')) = None /\
    selectionManager w' = SelectionManager.mk [] [] /\
    Dom.previewLine (view w') = false /\
    Dom.connecting (view w') = [] /\
    store w' = store w /\
    commandManager w' = commandManager w /\
    currentTool (controller w') = currentTool (controller w) /\
    resize (controller w') = resize (controller w) /\
    endpoint (controller w') = endpoint (controller w).
Proof.
  intros e w Hkey w'. subst w'.
  assert (Hrun : handleKeyDown e w
                 = onSelection SelectionManager.clearSelection (resetState w)).
  { rewrite handleKeyDown_shortcuts. unfold beforeShortcuts.
    destruct e as [k c m a s]. cbn [key ctrlKey metaKey altKey shiftKey] in *. subst k.
    cbn [String.eqb Ascii.eqb Bool.eqb orb andb]. cbv zeta.
    replace (Js.toLowerCase "Escape") with "escape"%string by reflexivity.
    cbn [String.eqb Ascii.eqb Bool.eqb orb andb].
    destruct (negb c && negb m && negb a)%bool; reflexivity. }
  rewrite Hrun. repeat split; reflexivity.
Qed.

Lemma escape_resets_to_idle_witness :
  let e := mkKeyEvent "Escape" false false false false in
  let w := handleConnectorToolClick SequencePlugin.plugin "c1" (mkPoint 10 10)
             Scenario.onA (Scenario.world "syncMessage") in
  key e = "Escape"%string /\
  state (controller w) = Connecting /\
  state (controller (handleKeyDown e w)) = Idle /\
  connection (controller (handleKeyDown e w)) = mkConnectionState None None.
Proof.
  intros e w.
  assert (Hkey : key e = "Escape"%string) by reflexivity.
  split; [exact Hkey | split; [reflexivity | ]].
  destruct (escape_resets_to_idle e w Hkey) as (Hstate & Hconn & _).
  split; [exact Hstate | exact Hconn].
Defined.

Lemma handleKeyDown_escape (e : KeyEvent) (w : World) :
  key e = "Escape"%string ->
  handleKeyDown e w = onSelection SelectionManager.clearSelection (resetState w).
Proof.
  intros Hkey. rewrite handleKeyDown_shortcuts. unfold beforeShortcuts.
  destruct e as [k c m a s]. cbn [key ctrlKey metaKey altKey shiftKey] in *. subst k.
  cbn [String.eqb Ascii.eqb Bool.eqb orb andb]. cbv zeta.
  replace (Js.toLowerCase "Escape") with "escape"%string by reflexivity.
  cbn [String.eqb Ascii.eqb Bool.eqb orb andb].
  destruct (negb c && negb m && negb a)%bool; reflexivity.
Qed.

(** With no drag, resize or endpoint drag in progress, pointer-moves and the
    pointer-up find their gates closed. *)
Lemma handleMouseUp_no_gesture point target w :
  state (controller w) = Idle \/ state (controller w) = Connecting ->
  handleMouseUp point target w = w.
Proof.
  intros Hstate. unfold handleMouseUp.
  destruct Hstate as [Hs | Hs]; rewrite !Hs;
    rewrite !bool_decide_eq_false_2 by discriminate;
    rewrite !andb_false_r; cbv zeta; rewrite ?Hs;
    rewrite ?bool_decide_eq_false_2 by discriminate;
    rewrite ?andb_false_r; cbv beta iota; rewrite ?Hs;
    rewrite ?bool_decide_eq_false_2 by discriminate;
    rewrite ?andb_false_r; reflexivity.
Qed.

Lemma doDrag_frame point w :
  commandManager (doDrag point w) = commandManager w /\
  selectionManager (doDrag point w) = selectionManager w.
Proof. unfold doDrag. case_match; split; reflexivity. Qed.

Lemma dragging_commands p0 moves w :
  commandManager (dragging p0 moves w) = commandManager w.
Proof.
  unfold dragging.
  induction moves as [ | p moves IH] using rev_ind; cbn [foldl].
  - apply startDrag_frame.
  - rewrite foldl_snoc.
    destruct (doDrag_frame p (foldl (fun w p => doDrag p w) (startDrag p0 w) moves))
      as [-> _].
    exact IH.
Qed.

Lemma doResize_frame point w :
  commandManager (doResize point w) = commandManager w /\
  controller (doResize point w) = controller w.
Proof. unfold doResize. repeat case_match; split; reflexivity. Qed.

Lemma resizing_commands shape handleId p0 moves w :
  commandManager (resizing shape handleId p0 moves w) = commandManager w /\
  isResizing (resize (controller (resizing shape handleId p0 moves w))) = true.
Proof.
  unfold resizing.
  induction moves as [ | p moves IH] using rev_ind; cbn [foldl].
  - split; reflexivity.
  - rewrite foldl_snoc.
    destruct (doResize_frame p (foldl (fun w p => doResize p w)
                                      (startResize shape handleId p0 w) moves))
      as [-> ->].
    exact IH.
Qed.

(** X12. Escape in the middle of a drag or of a resize abandons the gesture
    without recording it and without undoing it: after the pointer-up that
    follows, the shapes are where the last pointer-move left them and the
    history is what it was before the gesture. After a resize the flag
    [isResizing] is still up, with the controller in [idle]. *)
Theorem escape_abandons_gesture_unrecorded :
  forall (e : KeyEvent) (pUp : Point) (tUp : option Dom.Target) (w : World),
    key e = "Escape"%string ->
    (forall (p0 : Point) (moves : list Point),
       let dragged := dragging p0 moves w in
       let w' := handleMouseUp pUp tUp (handleKeyDown e dragged) in
       store w' = store dragged /\
       commandManager w' = commandManager w /\
       state (controller w') = Idle) /\
    (forall (shape : Shape.t) (handleId : string) (p0 : Point) (moves : list Point),
       let resized := resizing shape handleId p0 moves w in
       let w' := handleMouseUp pUp tUp (handleKeyDown e resized) in
       store w' = store resized /\
       commandManager w' = commandManager w /\
       state (controller w') = Idle /\
       isResizing (resize (controller w')) = true).
Proof.
  intros e pUp tUp w Hkey. split.
  - intros p0 moves dragged w'. subst w'.
    rewrite (handleKeyDown_escape e dragged Hkey).
    rewrite handleMouseUp_no_gesture by (left; reflexivity).
    split; [reflexivity | split; [ | reflexivity]].
    apply dragging_commands.
  - intros shape handleId p0 moves resized w'. subst w'.
    rewrite (handleKeyDown_escape e resized Hkey).
    rewrite handleMouseUp_no_gesture by (left; reflexivity).
    destruct (resizing_commands shape handleId p0 moves w) as [Hcmd Hflag].
    split; [reflexivity | split; [exact Hcmd | split; [reflexivity | exact Hflag]]].
Qed.

Lemma escape_abandons_gesture_unrecorded_witness :
  let e := mkKeyEvent "Escape" false false false false in
  let dragged := dragging (mkPoint 10 10) [mkPoint 40 30] Scenario.bothSelected in
  let w' := handleMouseUp (mkPoint 40 30) None (handleKeyDown e dragged) in
  key e = "Escape"%string /\
  shapeObjects (store w') !! ("A" : string) = Some (Shape.move 30 20 Scenario.shapeA) /\
  commandManager w' = commandManager Scenario.bothSelected.
Proof.
  intros e dragged w'.
  assert (Hkey : key e = "Escape"%string) by reflexivity.
  split; [exact Hkey | ].
  destruct (proj1 (escape_abandons_gesture_unrecorded e (mkPoint 40 30) None
                     Scenario.bothSelected Hkey) (mkPoint 10 10) [mkPoint 40 30])
    as (Hstore & Hcmd & _).
  split; [ | exact Hcmd].
  fold dragged in Hstore. fold w' in Hstore. rewrite Hstore. reflexivity.
Defined.

(** ** The state machine over any sequence of events *)

Lemma gated_idle (c : Controller) : state c = Idle -> gated c.
Proof.
  intros Hidle. unfold gated. rewrite Hidle.
  repeat split; intros; congruence.
Qed.

Lemma gated_same (w w' : World) :
  controller w' = controller w -> gated (controller w) -> gated (controller w').
Proof. intros ->. auto. Qed.

Ltac gated_fields :=
  unfold gated in *; cbn in *;
  repeat match goal with
         | H : _ /\ _ |- _ => destruct H
         end;
  repeat split; intros; try congruence;
  repeat match goal with
         | H : ?s = ?s -> _ |- _ => specialize (H eq_refl)
         | H : ?a = ?b -> _, E : ?a = ?b |- _ => specialize (H E)
         | H : _ /\ _ |- _ => destruct H
         end;
  eauto.

Lemma gated_startDrag point w :
  gated (controller w) -> gated (controller (startDrag point w)).
Proof.
  intros Hg. unfold startDrag. case_match; [exact Hg | ].
  clear Hg. gated_fields.
Qed.

Lemma gated_startResize shape handleId point w :
  gated (controller (startResize shape handleId point w)).
Proof. gated_fields. Qed.

Lemma gated_startEndpointDrag conn endpointType point w :
  gated (controller (startEndpointDrag conn endpointType point w)).
Proof. gated_fields. Qed.

Lemma gated_handleToolSelected toolId w : gated (controller (handleToolSelected toolId w)).
Proof. apply gated_idle. apply state_handleToolSelected. Qed.

Lemma gated_handleSelectClick point target shiftKey ctrlKey w :
  gated (controller w) ->
  gated (controller (handleSelectClick point target shiftKey ctrlKey w)).
Proof.
  intros Hg. unfold handleSelectClick. cbv zeta.
  repeat case_match;
    lazymatch goal with
    | |- gated (controller (startResize _ _ _ _)) => apply gated_startResize
    | |- gated (controller (startEndpointDrag _ _ _ _)) => apply gated_startEndpointDrag
    | |- gated (controller (startDrag _ _)) => apply gated_startDrag; exact Hg
    | |- _ => exact Hg
    end.
Qed.

Lemma gated_handleDeleteClick point target w :
  gated (controller w) -> gated (controller (handleDeleteClick point target w)).
Proof. intros Hg. unfold handleDeleteClick. repeat case_match; exact Hg. Qed.

Lemma gated_handleShapeToolClick plugin newId point w :
  gated (controller w) -> gated (controller (handleShapeToolClick plugin newId point w)).
Proof.
  intros Hg. unfold handleShapeToolClick. case_match; [ | exact Hg].
  apply gated_handleToolSelected.
Qed.

Lemma state_completeConnection plugin newId point source shape w :
  state (controller (completeConnection plugin newId point source shape w)) = Idle.
Proof. unfold completeConnection. cbv zeta. case_match; reflexivity. Qed.

Lemma gated_handleConnectorToolClick plugin newId point target w :
  gated (controller w) ->
  gated (controller (handleConnectorToolClick plugin newId point target w)).
Proof.
  intros Hg. unfold handleConnectorToolClick.
  repeat case_match;
    lazymatch goal with
    | |- gated (controller (completeConnection _ _ _ _ _ _)) =>
        apply gated_idle; apply state_completeConnection
    | |- gated (controller (resetConnectionState _)) => apply gated_idle; reflexivity
    | |- gated (controller (setPreviewTooltip _ _)) => clear Hg; gated_fields
    | |- _ => exact Hg
    end.
Qed.

Lemma gated_handleCanvasClicked active newId point target shiftKey ctrlKey w :
  gated (controller w) ->
  gated (controller (handleCanvasClicked active newId point target shiftKey ctrlKey w)).
Proof.
  intros Hg. unfold handleCanvasClicked. cbv zeta.
  repeat case_match;
    lazymatch goal with
    | |- gated (controller (handleSelectClick _ _ _ _ _)) =>
        apply gated_handleSelectClick; exact Hg
    | |- gated (controller (handleDeleteClick _ _ _)) =>
        apply gated_handleDeleteClick; exact Hg
    | |- gated (controller (handleShapeToolClick _ _ _ _)) =>
        apply gated_handleShapeToolClick; exact Hg
    | |- gated (controller (handleConnectorToolClick _ _ _ _ _)) =>
        apply gated_handleConnectorToolClick; exact Hg
    | |- _ => exact Hg
    end.
Qed.

Lemma gated_doDrag point w : gated (controller w) -> gated (controller (doDrag point w)).
Proof.
  intros Hg. unfold doDrag. case_match; [ | exact Hg]. gated_fields.
Qed.

Lemma gated_doResize point w : gated (controller w) -> gated (controller (doResize point w)).
Proof. intros Hg. destruct (doResize_frame point w) as [_ ->]. exact Hg. Qed.

Lemma gated_doEndpointDrag point target w :
  gated (controller w) -> gated (controller (doEndpointDrag point target w)).
Proof. intros Hg. destruct (doEndpointDrag_frame point target w) as [-> _]. exact Hg. Qed.

Lemma gated_handleCanvasMouseMove point target w :
  gated (controller w) -> gated (controller (handleCanvasMouseMove point target w)).
Proof.
  intros Hg. unfold handleCanvasMouseMove.
  set (w1 := if (isDragging (drag (controller w))
                 && bool_decide (state (controller w) = Dragging))%bool
             then doDrag point w else w).
  assert (H1 : gated (controller w1))
    by (subst w1; case_match; [apply gated_doDrag | ]; exact Hg).
  clearbody w1. clear Hg.
  set (w2 := if (isResizing (resize (controller w1))
                 && bool_decide (state (controller w1) = Resizing))%bool
             then doResize point w1 else w1).
  assert (H2 : gated (controller w2))
    by (subst w2; case_match; [apply gated_doResize | ]; exact H1).
  clearbody w2. clear H1.
  set (w3 := if (draggingEndpoint (endpoint (controller w2))
                 && bool_decide (state (controller w2) = DraggingEndpoint))%bool
             then doEndpointDrag point target w2 else w2).
  assert (H3 : gated (controller w3))
    by (subst w3; case_match; [apply gated_doEndpointDrag | ]; exact H2).
  clearbody w3. clear H2. cbv zeta.
  unfold addConnecting. repeat case_match; exact H3.
Qed.

Lemma endEndpointDrag_state point target w :
  controller (endEndpointDrag point target w) = controller w \/
  state (controller (endEndpointDrag point target w)) = Idle.
Proof.
  unfold endEndpointDrag. destruct (draggingConnection (endpoint (controller w)));
    [right; reflexivity | left; reflexivity].
Qed.

Lemma endResize_state w : state (controller (endResize w)) = Idle.
Proof. reflexivity. Qed.

Lemma gated_handleMouseUp point target w :
  gated (controller w) -> gated (controller (handleMouseUp point target w)).
Proof.
  intros Hg. unfold handleMouseUp.
  set (w1 := if (isDragging (drag (controller w))
                 && bool_decide (state (controller w) = Dragging))%bool
             then endDrag w else w).
  assert (H1 : gated (controller w1))
    by (subst w1; case_match; [apply gated_idle, endDrag_state | exact Hg]).
  clearbody w1. clear Hg.
  set (w2 := if (isResizing (resize (controller w1))
                 && bool_decide (state (controller w1) = Resizing))%bool
             then endResize w1 else w1).
  assert (H2 : gated (controller w2))
    by (subst w2; case_match; [apply gated_idle, endResize_state | exact H1]).
  clearbody w2. clear H1. cbv zeta.
  case_match; [ | exact H2].
  destruct (endEndpointDrag_state point target w2) as [Hsame | Hidle].
  - rewrite Hsame. exact H2.
  - apply gated_idle. exact Hidle.
Qed.

Lemma controller_removeAll ids w :
  controller (foldl (fun w shape =>
                       onCommands (CommandManager.execute (RemoveShapeCommand shape)) w)
                    w ids) = controller w.
Proof. apply removeAll_frame. Qed.

Lemma gated_handleKeyDown e w :
  gated (controller w) -> gated (controller (handleKeyDown e w)).
Proof.
  intros Hg. rewrite handleKeyDown_shortcuts.
  assert (Hb : gated (controller (beforeShortcuts e w))).
  { unfold beforeShortcuts. cbv zeta.
    destruct (String.eqb (key e) "Escape"); [apply gated_idle; reflexivity | ].
    repeat case_match; cbn [controller onCommands onSelection];
      rewrite ?controller_removeAll; exact Hg. }
  repeat case_match; first [exact Hb | apply gated_handleToolSelected].
Qed.

Lemma gated_handleToolDropped active shapeTools factoryDefaults newId toolId x y w :
  gated (controller w) ->
  gated (controller (handleToolDropped active shapeTools factoryDefaults
                                       newId toolId x y w)).
Proof. intros Hg. unfold handleToolDropped. repeat case_match; exact Hg. Qed.

Lemma gated_dispatch ev w : gated (controller w) -> gated (controller (dispatch ev w)).
Proof.
  intros Hg. destruct ev; cbn [dispatch].
  - apply gated_handleCanvasClicked; exact Hg.
  - apply gated_handleCanvasMouseMove; exact Hg.
  - apply gated_handleMouseUp; exact Hg.
  - apply gated_handleKeyDown; exact Hg.
  - apply gated_handleToolSelected.
  - apply gated_handleToolDropped; exact Hg.
Qed.

Lemma gated_run events w : gated (controller w) -> gated (controller (run events w)).
Proof.
  unfold run. revert w.
  induction events as [ | ev events IH]; intros w Hg; cbn [foldl]; [exact Hg | ].
  apply IH. apply gated_dispatch. exact Hg.
Qed.

(** X13. After any sequence of events, starting from the controller as its
    constructor leaves it, the gesture state carries its fields: in
    [dragging] the flag [isDragging] is up and the drag's start point and
    starting positions are set; in [resizing] the flag [isResizing] is up
    and the shape, the handle, the starting bounds and the start point are
    set; in [dragging-endpoint] the flag, the connection and the end are set;
    in [connecting] the source is set. *)
Theorem gesture_state_carries_its_fields :
  forall (events : list Event) (w : World),
    controller w = constructed ->
    gated (controller (run events w)).
Proof.
  intros events w Hinit.
  apply gated_run. rewrite Hinit. apply gated_idle. reflexivity.
Qed.

Lemma gesture_state_carries_its_fields_witness :
  let events :=
    [ CanvasClicked (Some SequencePlugin.plugin) "c1" (mkPoint 230 20) Scenario.onB
                    false false;
      CanvasMouseMove (mkPoint 260 40) Scenario.onB ] in
  controller (Scenario.world "select") = constructed /\
  state (controller (run events (Scenario.world "select"))) = Dragging /\
  gated (controller (run events (Scenario.world "select"))).
Proof.
  intros events.
  assert (Hinit : controller (Scenario.world "select") = constructed) by reflexivity.
  split; [exact Hinit | split; [reflexivity | ]].
  exact (gesture_state_carries_its_fields events (Scenario.world "select") Hinit).
Defined.

(** While a shape is resized, the pointer-up is [endResize]. *)
Lemma handleMouseUp_resizing point target w :
  isResizing (resize (controller w)) = true ->
  state (controller w) = Resizing ->
  handleMouseUp point target w = endResize w.
Proof.
  intros Hflag Hstate. unfold handleMouseUp.
  rewrite Hstate. rewrite (bool_decide_eq_false_2 (Resizing = Dragging)) by discriminate.
  rewrite andb_false_r. cbv zeta. rewrite Hflag, Hstate.
  rewrite bool_decide_eq_true_2 by reflexivity. cbn [andb].
  rewrite endResize_state.
  rewrite bool_decide_eq_false_2 by discriminate.
  rewrite andb_false_r. reflexivity.
Qed.

(** X14. After any sequence of events, a pointer-up ends the drag, the
    resize or the endpoint drag in progress: the controller is then in [idle],
    or still in [connecting], the one state a pointer-up does not leave. *)
Theorem pointer_up_ends_the_gesture :
  forall (events : list Event) (point : Point) (target : option Dom.Target) (w : World),
    controller w = constructed ->
    let w' := handleMouseUp point target (run events w) in
    state (controller w') = Idle \/
    (state (controller w') = Connecting /\ w' = run events w).
Proof.
  intros events point target w Hinit w'. subst w'.
  assert (Hg : gated (controller (run events w)))
    by (apply gated_run; rewrite Hinit; apply gated_idle; reflexivity).
  set (now := run events w) in *. clearbody now.
  destruct Hg as (Hdrag & Hresize & Hend & _).
  destruct (state (controller now)) eqn:Hstate.
  - left. rewrite handleMouseUp_no_gesture by (left; exact Hstate). exact Hstate.
  - destruct (Hdrag eq_refl) as (Hflag & _).
    left. rewrite (handleMouseUp_dragging point target now Hflag Hstate).
    apply endDrag_state.
  - right. rewrite handleMouseUp_no_gesture by (right; exact Hstate).
    split; [exact Hstate | reflexivity].
  - destruct (Hresize eq_refl) as (Hflag & _).
    left. rewrite (handleMouseUp_resizing point target now Hflag Hstate).
    apply endResize_state.
  - destruct (Hend eq_refl) as (Hflag & [connRef Hconn] & _).
    left. rewrite (handleMouseUp_draggingEndpoint point target now Hflag Hstate).
    unfold endEndpointDrag. rewrite Hconn. reflexivity.
Qed.

Lemma pointer_up_ends_the_gesture_witness :
  let events :=
    [ CanvasClicked (Some SequencePlugin.plugin) "c1" (mkPoint 230 20) Scenario.onB
                    false false;
      CanvasMouseMove (mkPoint 260 40) Scenario.onB ] in
  let w := Scenario.world "select" in
  controller w = constructed /\
  state (controller (run events w)) = Dragging /\
  state (controller (handleMouseUp (mkPoint 260 40) (Some Scenario.onB) (run events w)))
  = Idle.
Proof.
  intros events w.
  assert (Hinit : controller w = constructed) by reflexivity.
  split; [exact Hinit | split; [reflexivity | ]].
  destruct (pointer_up_ends_the_gesture events (mkPoint 260 40) (Some Scenario.onB) w Hinit)
    as [Hidle | [Hconn _]].
  - exact Hidle.
  - vm_compute in Hconn. discriminate Hconn.
Defined.

(** X15. With no gesture in progress, in [idle], pointer-moves and
    pointer-ups change nothing at all. *)
Theorem idle_pointer_events_do_nothing :
  forall (point : Point) (target : Dom.Target) (upTarget : option Dom.Target) (w : World),
    state (controller w) = Idle ->
    handleCanvasMouseMove point target w = w /\
    handleMouseUp point upTarget w = w.
Proof.
  intros point target upTarget w Hidle.
  split; [ | apply handleMouseUp_no_gesture; left; exact Hidle].
  unfold handleCanvasMouseMove. rewrite Hidle.
  rewrite !bool_decide_eq_false_2 by discriminate.
  rewrite !andb_false_r. cbv zeta. rewrite Hidle.
  rewrite ?bool_decide_eq_false_2 by discriminate.
  rewrite ?andb_false_r. cbv beta iota. rewrite ?Hidle.
  rewrite ?bool_decide_eq_false_2 by discriminate.
  rewrite ?andb_false_r. cbv beta iota. rewrite ?Hidle. reflexivity.
Qed.

Lemma idle_pointer_events_do_nothing_witness :
  let w := Scenario.world "select" in
  state (controller w) = Idle /\
  handleCanvasMouseMove (mkPoint 5 5) Scenario.onA w = w /\
  handleMouseUp (mkPoint 5 5) None w = w.
Proof.
  intros w.
  assert (Hidle : state (controller w) = Idle) by reflexivity.
  split; [exact Hidle | ].
  exact (idle_pointer_events_do_nothing (mkPoint 5 5) Scenario.onA None w Hidle).
Defined.

(** ** Tools, clicks and drops *)

(** With a shape tool of the active plugin, a canvas click is
    [handleShapeToolClick]. *)
Lemma handleCanvasClicked_shape plugin newId point target shiftKey ctrlKey w def :
  currentTool (controller w) <> "select"%string ->
  currentTool (controller w) <> "delete"%string ->
  Plugin.shapeDef (currentTool (controller w)) (Plugin.getShapeDefinitions plugin)
  = Some def ->
  handleCanvasClicked (Some plugin) newId point target shiftKey ctrlKey w
  = handleShapeToolClick plugin newId point w.
Proof.
  intros Hselect Hdelete Hshape. unfold handleCanvasClicked. cbv zeta.
  destruct (String.eqb_spec (currentTool (controller w)) "select"); [contradiction | ].
  destruct (String.eqb_spec (currentTool (controller w)) "delete"); [contradiction | ].
  rewrite Hshape. reflexivity.
Qed.

(** X16. A click with a tool that is neither select nor delete does nothing
    when no plugin is active, and when the tool's name is not a property that
    objects inherit and the active plugin has neither a shape definition nor
    a connector type of that name; so it is for the pan tool. *)
Theorem click_with_unknown_tool_does_nothing :
  forall (active : option Plugin.t) (newId : string) (point : Point)
         (target : Dom.Target) (shiftKey ctrlKey : bool) (w : World),
    currentTool (controller w) <> "select"%string ->
    currentTool (controller w) <> "delete"%string ->
    (forall plugin, active = Some plugin ->
       (currentTool (controller w) ∉ Js.objectPrototypeKeys) /\
       Plugin.shapeDef (currentTool (controller w)) (Plugin.getShapeDefinitions plugin)
       = None /\
       Plugin.connectorDef (currentTool (controller w)) (Plugin.getConnectorTypes plugin)
       = None) ->
    handleCanvasClicked active newId point target shiftKey ctrlKey w = w.
Proof.
  intros active newId point target shiftKey ctrlKey w Hselect Hdelete Hnone.
  unfold handleCanvasClicked. cbv zeta.
  destruct (String.eqb_spec (currentTool (controller w)) "select"); [contradiction | ].
  destruct (String.eqb_spec (currentTool (controller w)) "delete"); [contradiction | ].
  destruct active as [plugin | ]; [ | reflexivity].
  destruct (Hnone plugin eq_refl) as (_ & -> & ->). reflexivity.
Qed.

Lemma click_with_unknown_tool_does_nothing_witness :
  let w := Scenario.world "pan" in
  currentTool (controller w) <> "select"%string /\
  (currentTool (controller w) ∉ Js.objectPrototypeKeys) /\
  handleCanvasClicked (Some SequencePlugin.plugin) "n1" (mkPoint 10 10) Scenario.onA
                      false false w = w.
Proof.
  intros w.
  assert (Hselect : currentTool (controller w) <> "select"%string) by discriminate.
  assert (Hdelete : currentTool (controller w) <> "delete"%string) by discriminate.
  assert (Hown : currentTool (controller w) ∉ Js.objectPrototypeKeys).
  { apply (bool_decide_unpack _). vm_compute. exact I. }
  split; [exact Hselect | split; [exact Hown | ]].
  apply (click_with_unknown_tool_does_nothing (Some SequencePlugin.plugin) "n1"
           (mkPoint 10 10) Scenario.onA false false w Hselect Hdelete).
  intros plugin Hplugin. injection Hplugin as <-.
  split; [exact Hown | split; reflexivity].
Defined.

(** X17. The sequence plugin offers the connector tool "selfMessage", but
    [getConnectorTypes] has no connector of that type: with this tool every
    canvas click leaves the controller, the model and the history as they
    are, so no gesture of the controller reaches the exemption for
    'selfMessage' in [validateConnection]. *)
Theorem sequence_self_message_tool_is_inert :
  ("selfMessage" : string)
    ∈ map SequenceCatalog.tool_id SequenceCatalog.getConnectorTools /\
  Plugin.connectorDef "selfMessage" SequencePlugin.getConnectorTypes = None /\
  forall (newId : string) (point : Point) (target : Dom.Target)
         (shiftKey ctrlKey : bool) (w : World),
    currentTool (controller w) = "selfMessage"%string ->
    handleCanvasClicked (Some SequencePlugin.plugin) newId point target
                        shiftKey ctrlKey w = w.
Proof.
  split; [apply list_elem_of_In; cbn; tauto | ].
  split; [reflexivity | ].
  intros newId point target shiftKey ctrlKey w Htool.
  unfold handleCanvasClicked. rewrite Htool. reflexivity.
Qed.

(** X18. Every other tool of the sequence plugin's catalog is served: with
    a tool of [getShapeTools] a canvas click is a shape-tool click, and with
    a tool of [getConnectorTools] other than "selfMessage" it is a
    connector-tool click. *)
Theorem sequence_catalog_tools_are_dispatched :
  forall (t : SequenceCatalog.ToolDefinition) (newId : string) (point : Point)
         (target : Dom.Target) (shiftKey ctrlKey : bool) (w : World),
    currentTool (controller w) = SequenceCatalog.tool_id t ->
    (t ∈ SequenceCatalog.getShapeTools ->
     handleCanvasClicked (Some SequencePlugin.plugin) newId point target shiftKey ctrlKey w
     = handleShapeToolClick SequencePlugin.plugin newId point w) /\
    (t ∈ SequenceCatalog.getConnectorTools ->
     SequenceCatalog.tool_id t <> "selfMessage"%string ->
     handleCanvasClicked (Some SequencePlugin.plugin) newId point target shiftKey ctrlKey w
     = handleConnectorToolClick SequencePlugin.plugin newId point target w).
Proof.
  intros t newId point target shiftKey ctrlKey w Htool. split.
  - intros Hin. apply list_elem_of_In in Hin.
    cbn [In SequenceCatalog.getShapeTools] in Hin.
    repeat (destruct Hin as [<- | Hin]); [ .. | destruct Hin];
      cbn [SequenceCatalog.tool_id] in Htool;
      (eapply handleCanvasClicked_shape;
       [ rewrite Htool; discriminate | rewrite Htool; discriminate
       | rewrite Htool; reflexivity ]).
  - intros Hin Hself. apply list_elem_of_In in Hin.
    cbn [In SequenceCatalog.getConnectorTools] in Hin.
    repeat (destruct Hin as [<- | Hin]); [ .. | destruct Hin];
      cbn [SequenceCatalog.tool_id] in Htool, Hself;
      try (exfalso; apply Hself; reflexivity);
      (eapply handleCanvasClicked_connector;
       [ rewrite Htool; discriminate | rewrite Htool; discriminate
       | rewrite Htool; reflexivity | rewrite Htool; reflexivity ]).
Qed.

Lemma sequence_catalog_tools_are_dispatched_witness :
  let t := SequenceCatalog.mkTool "actor" "Actor" "shape" (Some "A"%string) in
  let w := Scenario.world "actor" in
  currentTool (controller w) = SequenceCatalog.tool_id t /\
  handleCanvasClicked (Some SequencePlugin.plugin) "s1" (mkPoint 103 57) Scenario.onCanvas
                      false false w
  = handleShapeToolClick SequencePlugin.plugin "s1" (mkPoint 103 57) w.
Proof.
  intros t w.
  assert (Htool : currentTool (controller w) = SequenceCatalog.tool_id t) by reflexivity.
  split; [exact Htool | ].
  apply (proj1 (sequence_catalog_tools_are_dispatched t "s1" (mkPoint 103 57)
                  Scenario.onCanvas false false w Htool)).
  apply list_elem_of_In. cbn. tauto.
Defined.

Lemma existsb_find_none {A} (p : A -> bool) (l : list A) :
  find p l = None -> existsb p l = false.
Proof.
  induction l as [ | a l IH]; cbn; [reflexivity | ].
  destruct (p a); [discriminate | exact IH].
Qed.

Lemma existsb_find_some {A} (p : A -> bool) (l : list A) (a : A) :
  find p l = Some a -> existsb p l = true.
Proof.
  induction l as [ | b l IH]; cbn; [discriminate | ].
  destruct (p b); [reflexivity | exact IH].
Qed.

Lemma orNumber_nonzero v fallback : v <> 0 -> SequenceCatalog.orNumber v fallback = v.
Proof.
  intros Hne. unfold SequenceCatalog.orNumber.
  destruct (Z.eqb_spec v 0); [contradiction | reflexivity].
Qed.

(** X19. Dropping a shape tool on the canvas makes what a click with that
    tool at the same point makes, when the tool's shape definition gives
    non-zero default sizes: the same shape in the model, the same AddShape
    command and the same selection. Unlike the click, the drop leaves the
    controller, and so the active tool and the gesture state, as they
    are. *)
Theorem drop_creates_what_a_click_creates :
  forall (plugin : Plugin.t) (shapeTools : list SequenceCatalog.ToolDefinition)
         (factoryDefaults : string -> option (Z * Z)) (newId toolId : string)
         (x y : Z) (w : World) (d : Plugin.ShapeDefinition),
    Plugin.shapeDef toolId (Plugin.getShapeDefinitions plugin) = Some d ->
    Plugin.connectorDef toolId (Plugin.getConnectorTypes plugin) = None ->
    Plugin.defaultWidth d <> 0 ->
    Plugin.defaultHeight d <> 0 ->
    let dropped :=
      handleToolDropped (Some plugin) shapeTools factoryDefaults newId toolId x y w in
    let clicked :=
      handleShapeToolClick plugin newId (mkPoint x y) (onController (setTool toolId) w) in
    store dropped = store clicked /\
    commandManager dropped = commandManager clicked /\
    selectionManager dropped = selectionManager clicked /\
    controller dropped = controller w /\
    view dropped = view w.
Proof.
  intros plugin shapeTools factoryDefaults newId toolId x y w d
         Hdef Hconn Hw Hh dropped clicked.
  subst dropped clicked. unfold handleToolDropped, handleShapeToolClick.
  cbn [controller onController setTool currentTool].
  rewrite Hdef. unfold Plugin.connectorDef in Hconn.
  rewrite (existsb_find_none _ _ Hconn).
  rewrite store_handleToolSelected, commands_handleToolSelected,
    selection_handleToolSelected.
  cbv zeta. cbn [fst snd].
  rewrite (orNumber_nonzero _ 100 Hw), (orNumber_nonzero _ 60 Hh).
  destruct (find (fun t => String.eqb (SequenceCatalog.tool_id t) toolId) shapeTools);
    repeat split; reflexivity.
Qed.

Lemma drop_creates_what_a_click_creates_witness :
  let w := Scenario.world "select" in
  let dropped :=
    handleToolDropped (Some SequencePlugin.plugin) SequenceCatalog.getShapeTools
                      (fun _ => None) "s1" "actor" 103 57 w in
  Plugin.shapeDef "actor" (Plugin.getShapeDefinitions SequencePlugin.plugin)
  = Some (Plugin.mkShapeDefinition "actor" "Actor" 60 80 ["bottom"%string]) /\
  getShape (store dropped) (Some "s1"%string) = Some (Shape.mk "s1" "actor" 80 20 60 80) /\
  controller dropped = controller w.
Proof.
  intros w dropped.
  assert (Hdef : Plugin.shapeDef "actor" (Plugin.getShapeDefinitions SequencePlugin.plugin)
                 = Some (Plugin.mkShapeDefinition "actor" "Actor" 60 80 ["bottom"%string]))
    by reflexivity.
  split; [exact Hdef | ].
  destruct (drop_creates_what_a_click_creates SequencePlugin.plugin
              SequenceCatalog.getShapeTools (fun _ => None) "s1" "actor" 103 57 w _
              Hdef eq_refl) as (Hstore & _ & _ & Hctl & _).
  - cbn. discriminate.
  - cbn. discriminate.
  - split; [ | exact Hctl]. fold dropped in Hstore. rewrite Hstore. reflexivity.
Defined.

(** X20. A drop is ignored, leaving everything as it is, when no plugin is
    active, when the dropped tool is a connector type of the plugin, and when
    its name is not a property that objects inherit and it is neither a shape
    tool nor a shape definition of the plugin. *)
Theorem ignored_drops_do_nothing :
  forall (active : option Plugin.t) (shapeTools : list SequenceCatalog.ToolDefinition)
         (factoryDefaults : string -> option (Z * Z)) (newId toolId : string)
         (x y : Z) (w : World),
    active = None \/
    (exists plugin, active = Some plugin /\
       ((exists c, Plugin.connectorDef toolId (Plugin.getConnectorTypes plugin) = Some c) \/
        ((toolId ∉ Js.objectPrototypeKeys) /\
         find (fun t => String.eqb (SequenceCatalog.tool_id t) toolId) shapeTools = None /\
         Plugin.shapeDef toolId (Plugin.getShapeDefinitions plugin) = None))) ->
    handleToolDropped active shapeTools factoryDefaults newId toolId x y w = w.
Proof.
  intros active shapeTools factoryDefaults newId toolId x y w Hcase.
  unfold handleToolDropped.
  destruct Hcase as [-> | (plugin & -> & [(c & Hconn) | (_ & Htool & Hdef)])];
    [reflexivity | | ].
  - unfold Plugin.connectorDef in Hconn.
    rewrite (existsb_find_some _ _ _ Hconn). reflexivity.
  - rewrite Htool, Hdef. case_match; reflexivity.
Qed.

Lemma ignored_drops_do_nothing_witness :
  let w := Scenario.world "select" in
  (exists c, Plugin.connectorDef "syncMessage"
               (Plugin.getConnectorTypes SequencePlugin.plugin) = Some c) /\
  handleToolDropped (Some SequencePlugin.plugin) SequenceCatalog.getShapeTools
                    (fun _ => None) "c1" "syncMessage" 103 57 w = w /\
  (("pan" : string) ∉ Js.objectPrototypeKeys) /\
  handleToolDropped (Some SequencePlugin.plugin) SequenceCatalog.getShapeTools
                    (fun _ => None) "s1" "pan" 103 57 w = w.
Proof.
  intros w.
  assert (Hconn : exists c, Plugin.connectorDef "syncMessage"
                              (Plugin.getConnectorTypes SequencePlugin.plugin) = Some c)
    by (eexists; reflexivity).
  assert (Hown : ("pan" : string) ∉ Js.objectPrototypeKeys).
  { apply (bool_decide_unpack _). vm_compute. exact I. }
  split; [exact Hconn | split; [ | split; [exact Hown | ]]].
  - apply ignored_drops_do_nothing. right.
    exists SequencePlugin.plugin. split; [reflexivity | left; exact Hconn].
  - apply ignored_drops_do_nothing. right.
    exists SequencePlugin.plugin. split; [reflexivity | right].
    split; [exact Hown | split; reflexivity].
Defined.

(** ** The sequence plugin's shapes and messages *)

(** X21. For each connector type the plugin registers, the line style and
    the target arrow the [SequenceMessage] constructor sets are those the
    controller gives the connection it creates for that type, and the
    controller's source arrow is "none". A type outside the five of the
    constructor's switch keeps the style of the base class. *)
Theorem message_style_agrees_with_connector_types :
  forall (base : Connection.Style) (type : string),
    (forall (d : Plugin.ConnectorDefinition) (newId : string)
            (source shape : Shape.t) (point : Point),
       d ∈ SequencePlugin.getConnectorTypes ->
       type = Plugin.cd_type d ->
       let created :=
         Connection.style
           (newConnection SequencePlugin.plugin newId type source shape point) in
       Connection.lineStyle (SequenceCatalog.messageStyle base type)
       = Connection.lineStyle created /\
       Connection.targetArrow (SequenceCatalog.messageStyle base type)
       = Connection.targetArrow created /\
       Connection.sourceArrow created = "none"%string) /\
    Connection.sourceArrow (SequenceCatalog.messageStyle base type)
    = Connection.sourceArrow base /\
    (type ∉ ["syncMessage"; "asyncMessage"; "returnMessage"; "createMessage";
             "destroyMessage"]%string ->
     SequenceCatalog.messageStyle base type = base).
Proof.
  intros base type. split; [ | split ].
  - intros d newId source shape point Hin ->.
    apply list_elem_of_In in Hin. cbn [In SequencePlugin.getConnectorTypes] in Hin.
    destruct Hin as [<- | [<- | [<- | []]]]; repeat split; reflexivity.
  - unfold SequenceCatalog.messageStyle.
    repeat match goal with
           | |- context [String.eqb type ?b] => destruct (String.eqb type b)
           end; reflexivity.
  - intros Hout. unfold SequenceCatalog.messageStyle.
    repeat match goal with
           | |- context [String.eqb type ?b] =>
               destruct (String.eqb_spec type b) as [-> | _];
               [exfalso; apply Hout; apply list_elem_of_In; cbn; tauto | ]
           end.
    reflexivity.
Qed.

(** X22. The point [getLifelineConnectionPoint] gives lies on the lifeline,
    for a lifeline of non-negative length: its height is the requested
    height when that is within the lifeline, and the nearer end of the
    lifeline otherwise. Asking again at the height obtained gives the same
    point, and the x coordinate does not depend on the requested height. *)
Theorem lifeline_point_is_clamped_to_lifeline :
  forall (s : Shape.t) (lifelineLength targetY : Z),
    0 <= lifelineLength ->
    let lifelineStart := Shape.y s + Shape.height s in
    let lifelineEnd := lifelineStart + lifelineLength in
    let p := SequenceCatalog.getLifelineConnectionPoint s lifelineLength targetY in
    lifelineStart <= py p <= lifelineEnd /\
    (lifelineStart <= targetY <= lifelineEnd -> py p = targetY) /\
    (targetY < lifelineStart -> py p = lifelineStart) /\
    (lifelineEnd < targetY -> py p = lifelineEnd) /\
    SequenceCatalog.getLifelineConnectionPoint s lifelineLength (py p) = p /\
    (forall otherY,
       px (SequenceCatalog.getLifelineConnectionPoint s lifelineLength otherY) = px p).
Proof.
  intros s lifelineLength targetY Hlen lifelineStart lifelineEnd p.
  subst p lifelineStart lifelineEnd.
  unfold SequenceCatalog.getLifelineConnectionPoint. cbn [px py].
  repeat split; try lia.
  f_equal. lia.
Qed.

Lemma lifeline_point_is_clamped_to_lifeline_witness :
  0 <= 300 /\
  py (SequenceCatalog.getLifelineConnectionPoint Scenario.shapeA 300 20) = 50 /\
  py (SequenceCatalog.getLifelineConnectionPoint Scenario.shapeA 300 900) = 350.
Proof.
  assert (Hlen : 0 <= 300) by lia.
  split; [exact Hlen | ].
  destruct (lifeline_point_is_clamped_to_lifeline Scenario.shapeA 300 20 Hlen)
    as (_ & _ & Hbelow & _).
  destruct (lifeline_point_is_clamped_to_lifeline Scenario.shapeA 300 900 Hlen)
    as (_ & _ & _ & Habove & _).
  split; [apply Hbelow; cbn; lia | apply Habove; cbn; lia].
Defined.

(** X23. The point [ActivationBar.getConnectionPointAtY] gives lies on a
    vertical side of the bar, for a bar of non-negative height: on the left
    side for the side 'left' and on the right side for every other value of
    [side], at the requested height when that is within the bar and at the
    nearer end otherwise. *)
Theorem activation_point_is_on_a_side :
  forall (s : Shape.t) (targetY : Z) (side : string),
    0 <= Shape.height s ->
    let p := SequenceCatalog.getConnectionPointAtY s targetY side in
    (side = "left"%string -> px p = Shape.x s) /\
    (side <> "left"%string -> px p = Shape.x s + Shape.width s) /\
    Shape.y s <= py p <= Shape.y s + Shape.height s /\
    (Shape.y s <= targetY <= Shape.y s + Shape.height s -> py p = targetY) /\
    (targetY < Shape.y s -> py p = Shape.y s) /\
    (Shape.y s + Shape.height s < targetY -> py p = Shape.y s + Shape.height s) /\
    SequenceCatalog.getConnectionPointAtY s (py p) side = p.
Proof.
  intros s targetY side Hh p. subst p.
  unfold SequenceCatalog.getConnectionPointAtY. cbn [px py].
  destruct (String.eqb_spec side "left") as [Hleft | Hother].
  - repeat split; try lia; try contradiction. f_equal. lia.
  - repeat split; try lia; try contradiction. f_equal. lia.
Qed.

Lemma activation_point_is_on_a_side_witness :
  let bar := Shape.mk "bar" "activation" 52 100 16 60 in
  0 <= Shape.height bar /\
  SequenceCatalog.getConnectionPointAtY bar 400 "right" = mkPoint 68 160 /\
  px (SequenceCatalog.getConnectionPointAtY bar 120 "top") = 68.
Proof.
  intros bar.
  assert (Hh : 0 <= Shape.height bar) by (cbn; lia).
  split; [exact Hh | split; [reflexivity | ]].
  destruct (activation_point_is_on_a_side bar 120 "top" Hh) as (_ & Hright & _).
  apply Hright. discriminate.
Defined.

(** X24. The three tables of shape sizes agree. For every class registered
    with the shape factory, the registered size is the size the constructor
    falls back to and the default size of the shape definition of that type,
    and it respects the minimum size the constructor sets; a shape
    constructed with the definition's default size has exactly that size,
    and a constructed size is never zero. Every shape definition has a
    registered class. *)
Theorem shape_size_tables_agree :
  (forall (type : string) (c : SequenceCatalog.ShapeClass) (width height : Z),
     (type, (c, (width, height))) ∈ SequenceCatalog.registrations ->
     SequenceCatalog.cls_type c = type /\
     SequenceCatalog.fallbackWidth c = width /\
     SequenceCatalog.fallbackHeight c = height /\
     SequenceCatalog.minWidth c <= width /\
     SequenceCatalog.minHeight c <= height /\
     (exists d, Plugin.shapeDef type SequencePlugin.getShapeDefinitions = Some d /\
                Plugin.defaultWidth d = width /\ Plugin.defaultHeight d = height /\
                SequenceCatalog.constructedWidth c (Plugin.defaultWidth d) = width /\
                SequenceCatalog.constructedHeight c (Plugin.defaultHeight d) = height) /\
     (forall optionsWidth optionsHeight,
        SequenceCatalog.constructedWidth c optionsWidth <> 0 /\
        SequenceCatalog.constructedHeight c optionsHeight <> 0)) /\
  map fst SequencePlugin.getShapeDefinitions = map fst SequenceCatalog.registrations.
Proof.
  split; [ | reflexivity].
  intros type c width height Hin.
  apply list_elem_of_In in Hin. cbn [In SequenceCatalog.registrations] in Hin.
  repeat (destruct Hin as [Hin | Hin]; [injection Hin as <- <- <- <- | ]);
    [ .. | destruct Hin].
  all: repeat split; try reflexivity; try (cbn; lia).
  all: try (eexists; repeat split; reflexivity).
  all: unfold SequenceCatalog.constructedWidth, SequenceCatalog.constructedHeight,
         SequenceCatalog.orNumber;
       match goal with
       | |- context [Z.eqb ?v 0] => destruct (Z.eqb_spec v 0); cbn; lia
       end.
Qed.

(** ** More of the connector tool *)

(** X25. A connector-tool click that hits neither a shape element nor a
    lifeline cancels: the controller is in [idle] with no pending source, and
    the model, the history and the console are as before. A click on a shape
    element whose id is not a shape of the diagram is ignored altogether: a
    pending source stays pending. *)
Theorem connector_click_off_the_diagram :
  forall (plugin : Plugin.t) (newId : string) (point : Point) (target : Dom.Target)
         (w : World),
    let w' := handleConnectorToolClick plugin newId point target w in
    (Dom.closest "shape" target = None -> Dom.closest "lifeline" target = None ->
     state (controller w') = Idle /\
     connection (controller w') = mkConnectionState None None /\
     Dom.previewLine (view w') = false /\
     store w' = store w /\ commandManager w' = commandManager w /\
     console w' = console w) /\
    (forall shapeElement,
       Dom.closest "shape" target = Some shapeElement ->
       getShape (store w) (Dom.data "id" shapeElement) = None ->
       w' = w).
Proof.
  intros plugin newId point target w w'. subst w'. split.
  - intros Hshape Hlifeline. unfold handleConnectorToolClick.
    rewrite Hshape, Hlifeline. repeat split; reflexivity.
  - intros shapeElement Hshape Hget. unfold handleConnectorToolClick, clickedShape.
    rewrite Hshape, Hget. reflexivity.
Qed.

(** What a connector-tool click adds, when it adds: a connection between
    the pending source and the clicked shape, two shapes of different id, the
    clicked one a shape of the diagram. *)
Lemma handleConnectorToolClick_added plugin newId point target w :
  let w' := handleConnectorToolClick plugin newId point target w in
  store w' = store w \/
  exists source shape : Shape.t,
    Shape.id source <> Shape.id shape /\
    (exists shapeId, getShape (store w) shapeId = Some shape) /\
    connectionSource (connection (controller w)) <> None /\
    store w' =
    mkStore (shapeObjects (store w))
            (<[newId := newConnection plugin newId (currentTool (controller w))
                                      source shape point]> (connectionObjects (store w)))
            (mkDiagram (shapes (diagram (store w)))
                       ({[newId]} ∪ connections (diagram (store w)))).
Proof.
  intros w'. subst w'. unfold handleConnectorToolClick.
  assert (Hinner :
    let r :=
      match clickedShape w target with
      | None => w
      | Some shape =>
          match connectionSource (connection (controller w)) with
          | None =>
              let w := onController
                         (setConnection (mkConnectionState (Some (Shape.id shape))
                                                           (Some (py point)))) w in
              let w := onController (setState Connecting) w in
              setPreviewTooltip true w
          | Some sourceRef =>
              match shapeObjects (store w) !! sourceRef with
              | Some source =>
                  if negb (String.eqb (Shape.id source) (Shape.id shape))
                  then completeConnection plugin newId point source shape w
                  else w
              | None => w
              end
          end
      end in
    store r = store w \/
    exists source shape : Shape.t,
      Shape.id source <> Shape.id shape /\
      (exists shapeId, getShape (store w) shapeId = Some shape) /\
      connectionSource (connection (controller w)) <> None /\
      store r =
      mkStore (shapeObjects (store w))
              (<[newId := newConnection plugin newId (currentTool (controller w))
                                        source shape point]> (connectionObjects (store w)))
              (mkDiagram (shapes (diagram (store w)))
                         ({[newId]} ∪ connections (diagram (store w))))).
  { cbv zeta.
    destruct (clickedShape w target) as [shape | ] eqn:Hclick; [ | left; reflexivity].
    destruct (connectionSource (connection (controller w))) as [sourceRef | ];
      [ | left; reflexivity].
    destruct (shapeObjects (store w) !! sourceRef) as [source | ]; [ | left; reflexivity].
    destruct (String.eqb_spec (Shape.id source) (Shape.id shape)) as [Heq | Hne];
      cbn [negb]; [left; reflexivity | ].
    destruct (Js.truthy (isValid (Plugin.validateConnection plugin source shape
                                    (currentTool (controller w))))) eqn:Hvalid.
    - right. exists source, shape.
      split; [exact Hne | split; [ | split; [discriminate | ]]].
      + unfold clickedShape in Hclick. repeat case_match; try discriminate; eauto.
      + apply (completeConnection_accepted plugin newId point source shape w Hvalid).
    - left. apply (completeConnection_rejected plugin newId point source shape w Hvalid). }
  cbv zeta in Hinner.
  destruct (Dom.closest "shape" target), (Dom.closest "lifeline" target);
    first [exact Hinner | left; reflexivity].
Qed.

(** X26. The connector tool never connects a shape to itself: every
    connection a connector-tool click adds to the diagram runs between two
    different shape ids, its target a shape of the diagram at the time of the
    click. Its type is the active tool, its diagram type the plugin's id,
    and its [sourceShape] and [targetShape] are the shapes of its two
    ends. *)
Theorem added_connection_joins_two_shapes :
  forall (plugin : Plugin.t) (newId : string) (point : Point) (target : Dom.Target)
         (w : World) (added : string),
    let w' := handleConnectorToolClick plugin newId point target w in
    added ∉ connections (diagram (store w)) ->
    added ∈ connections (diagram (store w')) ->
    exists conn : Connection.t,
      getConnection (store w') (Some added) = Some conn /\
      Connection.shapeId (Connection.source conn)
      <> Connection.shapeId (Connection.target conn) /\
      (exists shapeId targetShape,
         getShape (store w) shapeId = Some targetShape /\
         Shape.id targetShape = Connection.shapeId (Connection.target conn)) /\
      Connection.type conn = currentTool (controller w) /\
      Connection.diagramType conn = Plugin.id plugin /\
      Connection.sourceShape conn = Some (Connection.shapeId (Connection.source conn)) /\
      Connection.targetShape conn = Some (Connection.shapeId (Connection.target conn)).
Proof.
  intros plugin newId point target w added w' Hbefore Hafter. subst w'.
  destruct (handleConnectorToolClick_added plugin newId point target w)
    as [Hsame | (source & shape & Hne & (shapeId & Hget) & _ & Hstore)].
  - rewrite Hsame in Hafter. contradiction.
  - rewrite Hstore in Hafter. cbn in Hafter.
    apply elem_of_union in Hafter as [Hadded | Hold]; [ | contradiction].
    apply elem_of_singleton in Hadded. subst added.
    exists (newConnection plugin newId (currentTool (controller w)) source shape point).
    split; [ | split; [exact Hne | split; [ | repeat split; reflexivity]]].
    + rewrite Hstore. unfold getConnection. cbn.
      rewrite decide_True by set_solver. apply lookup_insert_eq.
    + exists shapeId, shape. split; [exact Hget | reflexivity].
Qed.

Lemma added_connection_joins_two_shapes_witness :
  let plugin := SequencePlugin.plugin in
  let w := handleConnectorToolClick plugin "c0" (mkPoint 10 10) Scenario.onA
                                    (Scenario.world "asyncMessage") in
  let w' := handleConnectorToolClick plugin "c1" (mkPoint 210 77) Scenario.onB w in
  (("c1" : string) ∉ connections (diagram (store w))) /\
  (("c1" : string) ∈ connections (diagram (store w'))) /\
  exists conn : Connection.t,
    getConnection (store w') (Some "c1"%string) = Some conn /\
    Connection.shapeId (Connection.source conn)
    <> Connection.shapeId (Connection.target conn).
Proof.
  intros plugin w w'.
  assert (Hbefore : ("c1" : string) ∉ connections (diagram (store w)))
    by (vm_compute; set_solver).
  assert (Hafter : ("c1" : string) ∈ connections (diagram (store w')))
    by (vm_compute; set_solver).
  split; [exact Hbefore | split; [exact Hafter | ]].
  destruct (added_connection_joins_two_shapes plugin "c1" (mkPoint 210 77) Scenario.onB w
              "c1" Hbefore Hafter) as (conn & Hget & Hne & _).
  exists conn. split; [exact Hget | exact Hne].
Defined.

(** X27. With a plugin whose id is not "sequence", a connection the
    connector tool adds carries no attachment offsets: its [sourceY] and
    [targetY] are not set. *)
Theorem other_plugins_connect_without_offsets :
  forall (plugin : Plugin.t) (newId : string) (point : Point) (target : Dom.Target)
         (w : World) (added : string),
    Plugin.id plugin <> "sequence"%string ->
    let w' := handleConnectorToolClick plugin newId point target w in
    added ∉ connections (diagram (store w)) ->
    added ∈ connections (diagram (store w')) ->
    exists conn : Connection.t,
      getConnection (store w') (Some added) = Some conn /\
      Connection.sourceY conn = None /\
      Connection.targetY conn = None.
Proof.
  intros plugin newId point target w added Hother w' Hbefore Hafter. subst w'.
  destruct (handleConnectorToolClick_added plugin newId point target w)
    as [Hsame | (source & shape & _ & _ & _ & Hstore)].
  - rewrite Hsame in Hafter. contradiction.
  - rewrite Hstore in Hafter. cbn in Hafter.
    apply elem_of_union in Hafter as [Hadded | Hold]; [ | contradiction].
    apply elem_of_singleton in Hadded. subst added.
    exists (newConnection plugin newId (currentTool (controller w)) source shape point).
    split; [ | split ].
    + rewrite Hstore. unfold getConnection. cbn.
      rewrite decide_True by set_solver. apply lookup_insert_eq.
    + cbn. destruct (String.eqb_spec (Plugin.id plugin) "sequence");
        [contradiction | reflexivity].
    + cbn. destruct (String.eqb_spec (Plugin.id plugin) "sequence");
        [contradiction | reflexivity].
Qed.

Lemma other_plugins_connect_without_offsets_witness :
  let plugin :=
    Plugin.mk "class" [] [Plugin.mkConnectorDefinition "association" "Association"
                                                       None None None [] []]
              (fun _ _ _ => Js.VBool true) in
  let w := handleConnectorToolClick plugin "c0" (mkPoint 10 10) Scenario.onA
                                    (Scenario.world "association") in
  let w' := handleConnectorToolClick plugin "c1" (mkPoint 210 77) Scenario.onB w in
  Plugin.id plugin <> "sequence"%string /\
  (("c1" : string) ∈ connections (diagram (store w'))) /\
  exists conn : Connection.t,
    getConnection (store w') (Some "c1"%string) = Some conn /\
    Connection.sourceY conn = None /\
    Connection.targetY conn = None.
Proof.
  intros plugin w w'.
  assert (Hother : Plugin.id plugin <> "sequence"%string) by discriminate.
  assert (Hbefore : ("c1" : string) ∉ connections (diagram (store w)))
    by (vm_compute; set_solver).
  assert (Hafter : ("c1" : string) ∈ connections (diagram (store w')))
    by (vm_compute; set_solver).
  split; [exact Hother | split; [exact Hafter | ]].
  exact (other_plugins_connect_without_offsets plugin "c1" (mkPoint 210 77) Scenario.onB w
           "c1" Hother Hbefore Hafter).
Defined.

(** ** Highlighting, tool switches and the delete tool *)

(** X28. While an end of a connection is dragged, a pointer-move highlights
    at most one shape element, the one under the pointer, and never the shape
    at the connection's other end; over no shape nothing is highlighted. The
    controller, the model and the history are not touched. *)
Theorem endpoint_drag_highlights_only_candidates :
  forall (point : Point) (target : Dom.Target) (w : World)
         (connRef : string) (conn : Connection.t),
    draggingConnection (endpoint (controller w)) = Some connRef ->
    connectionObjects (store w) !! connRef = Some conn ->
    let other :=
      match draggingEndpointType (endpoint (controller w)) with
      | Some SourceEnd => Connection.shapeId (Connection.target conn)
      | Some TargetEnd | None => Connection.shapeId (Connection.source conn)
      end in
    let w' := doEndpointDrag point target w in
    (other ∉ Dom.connecting (view w')) /\
    (length (Dom.connecting (view w')) <= 1)%nat /\
    (forall shapeElement i,
       Dom.closest "shape" target = Some shapeElement ->
       Dom.data "id" shapeElement = Some i ->
       i <> other -> Dom.connecting (view w') = [i]) /\
    (Dom.closest "shape" target = None -> Dom.connecting (view w') = []) /\
    controller w' = controller w /\ store w' = store w /\
    commandManager w' = commandManager w.
Proof.
  intros point target w connRef conn Hconn Hobj other w'. subst w'.
  unfold doEndpointDrag. rewrite Hconn.
  cbv zeta. cbn [store clearConnecting onView]. rewrite Hobj.
  assert (Hother : otherShapeId (draggingEndpointType (endpoint (controller w))) conn = other)
    by (subst other; destruct (draggingEndpointType (endpoint (controller w))) as [[ | ] | ];
        reflexivity).
  cbn [controller] in Hother |- *. rewrite Hother.
  destruct (Dom.closest "shape" target) as [shapeElement | ].
  - destruct (decide (Dom.data "id" shapeElement <> Some other)) as [Hne | Heq].
    + unfold addConnecting.
      destruct (Dom.data "id" shapeElement) as [i | ] eqn:Hdata; cbn.
      * split; [ | split; [lia | split; [ | split; [discriminate | ]]]].
        -- intros Hin. apply list_elem_of_In in Hin. cbn in Hin.
           destruct Hin as [-> | []]. apply Hne. reflexivity.
        -- intros el j Hel Hj _. injection Hel as Hel. subst el.
           rewrite Hdata in Hj. injection Hj as <-. reflexivity.
        -- repeat split; reflexivity.
      * split; [apply not_elem_of_nil | ].
        split; [lia | split; [ | split; [discriminate | ]]].
        -- intros el j Hel Hj _. injection Hel as Hel. subst el.
           rewrite Hdata in Hj. discriminate Hj.
        -- repeat split; reflexivity.
    + cbn. split; [apply not_elem_of_nil | ].
      split; [lia | split; [ | split; [discriminate | ]]].
      * intros el j Hel Hj Hdiff. injection Hel as Hel. subst el.
        exfalso. apply Heq. rewrite Hj. intros Hsome. injection Hsome as Hsome.
        contradiction.
      * repeat split; reflexivity.
  - cbn. split; [apply not_elem_of_nil | ].
    split; [lia | split; [ | split; [reflexivity | ]]].
    + intros el j Hel. discriminate Hel.
    + repeat split; reflexivity.
Qed.

Lemma endpoint_drag_highlights_only_candidates_witness :
  let target := startEndpointDrag Scenario.connAB TargetEnd (mkPoint 200 80)
                                  Scenario.connected in
  let source := startEndpointDrag Scenario.connAB SourceEnd (mkPoint 0 80)
                                  Scenario.connected in
  draggingConnection (endpoint (controller target)) = Some "c0"%string /\
  draggingConnection (endpoint (controller source)) = Some "c0"%string /\
  Dom.connecting (view (doEndpointDrag (mkPoint 410 80) Scenario.onC target)) = ["C"%string] /\
  (("A" : string) ∉ Dom.connecting (view (doEndpointDrag (mkPoint 10 10) Scenario.onA target))) /\
  Dom.connecting (view (doEndpointDrag (mkPoint 10 10) Scenario.onA source)) = ["A"%string] /\
  (("B" : string) ∉ Dom.connecting (view (doEndpointDrag (mkPoint 210 10) Scenario.onB source))).
Proof.
  intros target source.
  assert (Htarget : draggingConnection (endpoint (controller target)) = Some "c0"%string)
    by reflexivity.
  assert (Hsource : draggingConnection (endpoint (controller source)) = Some "c0"%string)
    by reflexivity.
  split; [exact Htarget | split; [exact Hsource | ]].
  destruct (endpoint_drag_highlights_only_candidates (mkPoint 410 80) Scenario.onC target
              "c0" Scenario.connAB Htarget eq_refl) as (_ & _ & HoverC & _).
  destruct (endpoint_drag_highlights_only_candidates (mkPoint 10 10) Scenario.onA target
              "c0" Scenario.connAB Htarget eq_refl) as (HneverA & _).
  destruct (endpoint_drag_highlights_only_candidates (mkPoint 10 10) Scenario.onA source
              "c0" Scenario.connAB Hsource eq_refl) as (_ & _ & HoverA & _).
  destruct (endpoint_drag_highlights_only_candidates (mkPoint 210 10) Scenario.onB source
              "c0" Scenario.connAB Hsource eq_refl) as (HneverB & _).
  split; [ | split; [exact HneverA | split; [ | exact HneverB]]].
  - apply (HoverC Scenario.onC "C"); [reflexivity | reflexivity | cbn; discriminate].
  - apply (HoverA Scenario.onA "A"); [reflexivity | reflexivity | cbn; discriminate].
Defined.

(** X29. Selecting a tool makes it the active tool and cancels what was in
    progress: the controller is in [idle], a pending connection source and
    the drag are dropped, and the model, the history and the selection are as
    before. Selecting the same tool again changes nothing more. A connector
    click on a shape after the switch starts a new gesture from that shape,
    whatever source was pending before. *)
Theorem tool_switch_cancels_what_was_in_progress :
  forall (toolId : string) (w : World),
    let w' := handleToolSelected toolId w in
    currentTool (controller w') = toolId /\
    state (controller w') = Idle /\
    connection (controller w') = mkConnectionState None None /\
    isDragging (drag (controller w')) = false /\
    store w' = store w /\ commandManager w' = commandManager w /\
    selectionManager w' = selectionManager w /\
    handleToolSelected toolId w' = w' /\
    (forall plugin newId point target shape,
       clickedShape w target = Some shape ->
       let w'' := handleConnectorToolClick plugin newId point target w' in
       connectionSource (connection (controller w'')) = Some (Shape.id shape) /\
       state (controller w'') = Connecting /\
       store w'' = store w).
Proof.
  intros toolId w w'.
  assert (Hconn : connection (controller w') = mkConnectionState None None)
    by (subst w'; unfold handleToolSelected; repeat case_match; reflexivity).
  assert (Hstore : store w' = store w) by apply store_handleToolSelected.
  split; [apply toolOf_handleToolSelected | ].
  split; [apply state_handleToolSelected | ].
  split; [exact Hconn | ].
  split; [subst w'; unfold handleToolSelected; repeat case_match; reflexivity | ].
  split; [exact Hstore | ].
  split; [apply commands_handleToolSelected | ].
  split; [apply selection_handleToolSelected | ].
  split; [subst w'; unfold handleToolSelected; repeat case_match; reflexivity | ].
  intros plugin newId point target shape Hclick w''.
  destruct (handleConnectorToolClick_first plugin newId point target w' shape)
    as (Hsrc & Hstate & Hst & _).
  - rewrite Hconn. reflexivity.
  - rewrite (clickedShape_store w' w target Hstore). exact Hclick.
  - fold w'' in Hsrc, Hstate, Hst.
    split; [exact Hsrc | split; [exact Hstate | ]]. rewrite Hst. exact Hstore.
Qed.

(** Removing a shape leaves no connection of the diagram that ends at it. *)
Lemma apply_RemoveShape_detaches (i c : string) (conn : Connection.t) (s : Store) :
  getConnection (CommandManager.apply (RemoveShapeCommand i) s) (Some c) = Some conn ->
  Connection.shapeId (Connection.source conn) <> i /\
  Connection.shapeId (Connection.target conn) <> i.
Proof.
  unfold getConnection. cbn [CommandManager.apply withDiagram diagram connections
                              connectionObjects].
  destruct (decide (c ∈ connections (diagram s) ∖ CommandManager.attachedConnections i s))
    as [Hin | ]; [ | discriminate].
  intros Hconn. apply elem_of_difference in Hin as [_ Hout].
  assert (Hfree : CommandManager.attachedTo i conn <> true).
  { intros Hatt. apply Hout. unfold CommandManager.attachedConnections.
    apply elem_of_dom. exists conn. apply map_lookup_filter_Some. split; assumption. }
  unfold CommandManager.attachedTo in Hfree.
  destruct (String.eqb_spec (Connection.shapeId (Connection.source conn)) i);
    [exfalso; apply Hfree; reflexivity | ].
  destruct (String.eqb_spec (Connection.shapeId (Connection.target conn)) i);
    [exfalso; apply Hfree; reflexivity | ].
  split; assumption.
Qed.

(** X30. The delete tool acts on shape elements only. A click that hits no
    shape element, a connector for instance, or a shape element whose id is
    not a shape of the diagram, changes nothing; a click on a shape of the
    diagram executes one RemoveShape command for it: the model is what that
    command makes of it, the command is the last of the history, and the
    controller is as it was. *)
Theorem delete_click_removes_only_diagram_shapes :
  forall (point : Point) (target : Dom.Target) (w : World),
    let w' := handleDeleteClick point target w in
    (Dom.closest "shape" target = None -> w' = w) /\
    (forall shapeElement,
       Dom.closest "shape" target = Some shapeElement ->
       getShape (store w) (Dom.data "id" shapeElement) = None -> w' = w) /\
    (forall shapeElement shape,
       Dom.closest "shape" target = Some shapeElement ->
       getShape (store w) (Dom.data "id" shapeElement) = Some shape ->
       CommandManager.done (commandManager w')
       = CommandManager.done (commandManager w) ++ [RemoveShapeCommand (Shape.id shape)] /\
       store w' = CommandManager.apply (RemoveShapeCommand (Shape.id shape)) (store w) /\
       controller w' = controller w).
Proof.
  intros point target w w'. subst w'. unfold handleDeleteClick.
  split; [intros ->; reflexivity | split].
  - intros shapeElement -> ->. reflexivity.
  - intros shapeElement shape -> ->.
    cbn [onCommands commandManager CommandManager.execute fst snd controller store].
    rewrite done_record. repeat split; reflexivity.
Qed.
